(** * MediNote (consult-to-soap): consultation, transcription and note lifecycle

    A shallow embedding of the parts of the application that carry logic:

    - [Js]: JavaScript strings as sequences of UTF-16 code units, with
      [String.prototype.trim] and truthiness, and a small JSON value type;
    - [Gateway]: the tables of [supabase/migrations] (primary keys, foreign
      keys, defaults, row-level-security policies) and the PostgREST calls
      the pages issue against them ([insert], [upsert], [update]);
    - [Eff]: a state-and-exception monad for the bodies of the React handlers
      ([throw], [try]/[catch]/[finally]);
    - [ConsultationPage]: [handleTranscriptionComplete] and [handleSaveNote];
    - [NewConsultationDialog]: [handleSubmit];
    - [AudioRecorder]: [transcribeAudio] and
      [transcribeWithAssemblyAIStreaming];
    - [Transcribe]: the status poll loop of the [transcribe-assemblyai] and
      [transcribe-audio] edge functions;
    - [SoapNote]: the response handling of the note-generation edge
      functions (the OpenAI-backed one and the Gemini-backed one).

    The definitions come first; the modules named [...Facts] that follow
    hold the lemmas, one module per component.

    Further parts of the same files are modelled after these: the reads and
    the status update of the gateway ([GatewayQueries]), the loaders, the
    completion and the rendering conditions of the page
    ([ConsultationPageLoad]), the clock display ([RecorderClock]) and the
    capture state machine ([Capture]) of the recorder, base64 decoding in
    chunks ([Base64]), the texts a [text] column holds ([GatewayText]), the
    JavaScript readings of a JSON value ([JsValues]), and the whole request
    of the OpenAI-backed note function ([OpenAIServe]) and of the
    transcription functions ([TranscribeServe]).

    Timestamps ([created_at], [updated_at], [consultation_date]) and the
    [audio_recordings] table are left out: no handler modelled here reads
    them or names them in a write.  The triggers of the migration set
    [updated_at] on every update, so what is said of the rows of a table is
    said of their other columns. *)

From Stdlib Require Import List NArith ZArith String Ascii Bool Lia.
From Stdlib Require DecimalN.
Import ListNotations.

Set Implicit Arguments.

(* ================================================================== *)
(** * JavaScript values *)
(* ================================================================== *)

Module Js.

(** A JavaScript string is a sequence of UTF-16 code units. *)
Definition jsstring := list N.

(** String literals of the source are ASCII; [lit] builds them. *)
Definition lit (s : string) : jsstring :=
  map N_of_ascii (list_ascii_of_string s).

(** [a === b] on strings. *)
Fixpoint jsstring_eqb (a b : jsstring) : bool :=
  match a, b with
  | [], [] => true
  | x :: a', y :: b' => (x =? y)%N && jsstring_eqb a' b'
  | _, _ => false
  end.

(** ECMAScript [WhiteSpace] and [LineTerminator] code points, the characters
    [String.prototype.trim] strips.  All of them are in the Basic
    Multilingual Plane, so the test is exact on code units. *)
Definition is_white_space (c : N) : bool :=
  ((c =? 0x09) || (c =? 0x0A) || (c =? 0x0B) || (c =? 0x0C) || (c =? 0x0D)
   || (c =? 0x20) || (c =? 0xA0) || (c =? 0x1680)
   || ((0x2000 <=? c) && (c <=? 0x200A))
   || (c =? 0x2028) || (c =? 0x2029) || (c =? 0x202F) || (c =? 0x205F)
   || (c =? 0x3000) || (c =? 0xFEFF))%N.

Fixpoint trimStart (s : jsstring) : jsstring :=
  match s with
  | [] => []
  | c :: r => if is_white_space c then trimStart r else s
  end.

Definition trimEnd (s : jsstring) : jsstring := rev (trimStart (rev s)).

(** [s.trim()] *)
Definition trim (s : jsstring) : jsstring := trimEnd (trimStart s).

(** The empty string, [''] in the source. *)
Definition empty : jsstring := [].

(** [!!s] for a string: only the empty string is falsy. *)
Definition truthy (s : jsstring) : bool :=
  match s with [] => false | _ :: _ => true end.

(** [a || b] on strings. *)
Definition or_else (a b : jsstring) : jsstring := if truthy a then a else b.

(** A string made of white space only (the empty string included). *)
Definition blank (s : jsstring) : bool := forallb is_white_space s.

(** JSON values, as far as the handlers build and inspect them. *)
Unset Elimination Schemes.
Inductive Json : Type :=
| JNull
| JBool (b : bool)
| JNum (n : Z)
| JStr (s : jsstring)
| JArr (items : list Json)
| JObj (fields : list (jsstring * Json)).
Set Elimination Schemes.

(** [o[k]] on a JSON object; [None] is [undefined]. *)
Fixpoint get_field (k : jsstring) (fields : list (jsstring * Json)) : option Json :=
  match fields with
  | [] => None
  | (k', v) :: r => if jsstring_eqb k k' then Some v else get_field k r
  end.

Definition prop (k : jsstring) (j : Json) : option Json :=
  match j with JObj fields => get_field k fields | _ => None end.

End Js.

(* ================================================================== *)
(** * The persistence gateway: tables, constraints and PostgREST calls *)
(* ================================================================== *)

Module Gateway.
Import Js.

(** [UUID] columns.  A UUID is a 128-bit number. *)
Definition Uuid := N.

(** [status TEXT CHECK (status IN ('in_progress','completed','cancelled'))] *)
Inductive ConsultationStatus : Type := in_progress | completed | cancelled.

(** [public.profiles] *)
Record Profile : Type := mkProfile {
  profile_id : Uuid;
  user_id : Uuid;
  full_name : option jsstring
}.

(** [public.consultations] *)
Record Consultation : Type := mkConsultation {
  cons_id : Uuid;
  doctor_id : Uuid;
  patient_name : jsstring;
  patient_id : option jsstring;
  status : ConsultationStatus;
  duration_minutes : option Z
}.

(** [public.medical_notes].  The only key of the table is [id]: the
    migrations declare no [UNIQUE] constraint on [consultation_id]. *)
Record MedicalNote : Type := mkMedicalNote {
  note_id : Uuid;
  consultation_id : Uuid;
  subjective : option jsstring;
  objective : option jsstring;
  assessment : option jsstring;
  plan : option jsstring;
  raw_transcript : option jsstring;
  extracted_entities : option Json;
  is_reviewed : option bool
}.

Record Db : Type := mkDb {
  profiles : list Profile;
  consultations : list Consultation;
  medical_notes : list MedicalNote
}.

(** The [error] member of a PostgREST response. *)
Record DBError : Type := mkDBError {
  code : string;
  message : string
}.

Definition rls_violation : DBError :=
  mkDBError "42501" "new row violates row-level security policy".
Definition not_null_violation : DBError :=
  mkDBError "23502" "null value violates not-null constraint".
Definition unique_violation : DBError :=
  mkDBError "23505" "duplicate key value violates unique constraint".
Definition foreign_key_violation : DBError :=
  mkDBError "23503" "insert violates foreign key constraint".

(** [auth.uid() IN (SELECT doctor_id FROM consultations WHERE id = cid)],
    the condition of every policy on [medical_notes]. *)
Definition doctor_of (d : Db) (auth : option Uuid) (cid : Uuid) : bool :=
  match auth with
  | None => false
  | Some u =>
      existsb (fun c => (cons_id c =? cid)%N && (doctor_id c =? u)%N)
              (consultations d)
  end.

(** ** [from('consultations').insert(row).select().single()] *)

Record ConsultationInsert : Type := mkConsultationInsert {
  ins_patient_name : jsstring;
  ins_patient_id : option jsstring;
  ins_doctor_id : option Uuid
}.

(** [uuid] is the value [gen_random_uuid()] draws for the [id] default.
    The insert policy ([auth.uid() = doctor_id]) is checked first, then
    [NOT NULL], the primary key and the foreign key to [profiles(user_id)].
    [status] takes its default. *)
Definition insert_consultation (auth : option Uuid) (uuid : Uuid)
    (row : ConsultationInsert) (d : Db) : (Consultation + DBError) * Db :=
  match ins_doctor_id row with
  | None =>
      (inr (match auth with None => rls_violation | Some _ => not_null_violation end), d)
  | Some doc =>
      if negb (match auth with Some u => (u =? doc)%N | None => false end)
      then (inr rls_violation, d)
      else if existsb (fun c => (cons_id c =? uuid)%N) (consultations d)
      then (inr unique_violation, d)
      else if negb (existsb (fun p => (user_id p =? doc)%N) (profiles d))
      then (inr foreign_key_violation, d)
      else
        let c := mkConsultation uuid doc (ins_patient_name row)
                   (ins_patient_id row) in_progress None in
        (inl c, mkDb (profiles d) (consultations d ++ [c]) (medical_notes d))
  end.

(** ** [from('medical_notes').upsert(row).select().single()] *)

(** The object literal the page passes; it has no [id] member. *)
Record MedicalNoteUpsert : Type := mkMedicalNoteUpsert {
  up_consultation_id : Uuid;
  up_subjective : jsstring;
  up_objective : jsstring;
  up_assessment : jsstring;
  up_plan : jsstring;
  up_raw_transcript : jsstring;
  up_extracted_entities : Json;
  up_is_reviewed : bool
}.

Definition note_of_upsert (i : Uuid) (row : MedicalNoteUpsert) : MedicalNote :=
  mkMedicalNote i (up_consultation_id row)
    (Some (up_subjective row)) (Some (up_objective row))
    (Some (up_assessment row)) (Some (up_plan row))
    (Some (up_raw_transcript row)) (Some (up_extracted_entities row))
    (Some (up_is_reviewed row)).

(** Replace the rows whose primary key is [i]. *)
Definition replace_note (i : Uuid) (n : MedicalNote) (rows : list MedicalNote)
    : list MedicalNote :=
  map (fun r => if (note_id r =? i)%N then n else r) rows.

(** [upsert] is called without [onConflict], so PostgREST issues
    [INSERT ... ON CONFLICT (id) DO UPDATE]: the conflict target is the
    primary key.  The row carries no [id], so the key is the fresh default
    [uuid]; the update arm is reached only if that default collides with an
    existing key.  The texts of the row are stored as they were sent; the
    texts the column type itself refuses are described by
    [GatewayText.storable]. *)
Definition upsert_medical_note (auth : option Uuid) (uuid : Uuid)
    (row : MedicalNoteUpsert) (d : Db) : (MedicalNote + DBError) * Db :=
  if negb (doctor_of d auth (up_consultation_id row))
  then (inr rls_violation, d)
  else
    let n := note_of_upsert uuid row in
    match find (fun r => (note_id r =? uuid)%N) (medical_notes d) with
    | Some old =>
        if negb (doctor_of d auth (consultation_id old))
        then (inr rls_violation, d)
        else (inl n, mkDb (profiles d) (consultations d)
                          (replace_note uuid n (medical_notes d)))
    | None =>
        (inl n, mkDb (profiles d) (consultations d) (medical_notes d ++ [n]))
    end.

(** ** [from('medical_notes').update(patch).eq('id', i)] *)

Record MedicalNoteUpdate : Type := mkMedicalNoteUpdate {
  upd_subjective : option jsstring;
  upd_objective : option jsstring;
  upd_assessment : option jsstring;
  upd_plan : option jsstring;
  upd_is_reviewed : bool
}.

Definition apply_update (u : MedicalNoteUpdate) (r : MedicalNote) : MedicalNote :=
  mkMedicalNote (note_id r) (consultation_id r)
    (upd_subjective u) (upd_objective u) (upd_assessment u) (upd_plan u)
    (raw_transcript r) (extracted_entities r) (Some (upd_is_reviewed u)).

(** The update policy hides the rows of other doctors: they are skipped
    without an error. *)
Definition update_medical_note (auth : option Uuid) (i : Uuid)
    (u : MedicalNoteUpdate) (d : Db) : option DBError * Db :=
  (None,
   mkDb (profiles d) (consultations d)
     (map (fun r =>
             if (note_id r =? i)%N && doctor_of d auth (consultation_id r)
             then apply_update u r else r)
          (medical_notes d))).

(** The notes of one consultation. *)
Definition notes_of (d : Db) (cid : Uuid) : list MedicalNote :=
  filter (fun r => (consultation_id r =? cid)%N) (medical_notes d).

(** No identifier of [medical_notes] is [i]. *)
Definition fresh_note_id (d : Db) (i : Uuid) : bool :=
  negb (existsb (fun r => (note_id r =? i)%N) (medical_notes d)).

Definition fresh_consultation_id (d : Db) (i : Uuid) : bool :=
  negb (existsb (fun c => (cons_id c =? i)%N) (consultations d)).

End Gateway.

(* ================================================================== *)
(** * Handler bodies: state and exceptions *)
(* ================================================================== *)

Module Eff.

Section Monad.
Variables (S E : Type).

(** How a JavaScript block completes. *)
Inductive Completion (A : Type) : Type :=
| Normal (a : A)
| Throw (e : E).

Definition M (A : Type) : Type := S -> Completion A * S.

Definition ret {A} (a : A) : M A := fun s => (Normal a, s).

Definition bind {A B} (m : M A) (k : A -> M B) : M B :=
  fun s =>
    match m s with
    | (Normal a, s') => k a s'
    | (Throw _ e, s') => (Throw _ e, s')
    end.

Definition throw {A} (e : E) : M A := fun s => (Throw A e, s).

Definition modify (f : S -> S) : M unit := fun s => (Normal tt, f s).

Definition gets {A} (f : S -> A) : M A := fun s => (Normal (f s), s).

(** [try { body } catch (e) { handler e }] *)
Definition try_catch {A} (body : M A) (handler : E -> M A) : M A :=
  fun s =>
    match body s with
    | (Normal a, s') => (Normal a, s')
    | (Throw _ e, s') => handler e s'
    end.

(** [try { body } finally { fin }]: [fin] runs on both completions, and the
    completion of [body] stands unless [fin] itself throws. *)
Definition try_finally {A} (body : M A) (fin : M unit) : M A :=
  fun s =>
    match body s with
    | (c, s') =>
        match fin s' with
        | (Normal _, s'') => (c, s'')
        | (Throw _ e, s'') => (Throw _ e, s'')
        end
    end.

Definition returns {A} (c : Completion A) : bool :=
  match c with Normal _ => true | Throw _ _ => false end.

End Monad.

Arguments Normal {E A} a.
Arguments Throw {E A} e.
Arguments ret {S E A} a.
Arguments throw {S E A} e.
Arguments modify {S E} f.
Arguments gets {S E A} f.

Declare Scope eff_scope.
Delimit Scope eff_scope with eff.
Notation "x <- m ;; k" := (bind m (fun x => k))
  (at level 61, m at next level, right associativity) : eff_scope.
Notation "m ;;; k" := (bind m (fun _ => k))
  (at level 61, right associativity) : eff_scope.

End Eff.

(* ================================================================== *)
(** * src/pages/ConsultationPage.tsx *)
(* ================================================================== *)
(** * Browser-side values shared by the components *)
(* ================================================================== *)

Module Ui.
Import Js.

(** An argument of [toast({ title, description, variant })];
    [destructive] is [variant: "destructive"]. *)
Record Toast : Type := mkToast {
  title : jsstring;
  description : jsstring;
  destructive : bool
}.

Record Blob : Type := mkBlob {
  blob_bytes : list N;
  blob_type : jsstring
}.

(** What the handlers throw: the [error] member of a database response,
    or an [Error] object with its message. *)
Inductive Thrown : Type :=
| ThrownDB (e : Gateway.DBError)
| ThrownError (msg : jsstring).

End Ui.

(* ================================================================== *)

Module ConsultationPage.
Import Js Gateway Eff Ui.
Local Open Scope eff_scope.

Inductive Tab : Type := recording | notes.

(** A file handed to the browser through a temporary anchor element. *)
Record Download : Type := mkDownload {
  filename : jsstring;
  content : jsstring
}.

(** The component state ([useState]), the route parameter, the signed-in
    user of the Supabase client, the database behind it, and what the page
    has shown or handed to the browser. *)
Record World : Type := mkWorld {
  db : Db;
  auth : option Uuid;
  route_id : Uuid;
  consultation : option Consultation;
  medicalNote : option MedicalNote;
  isProcessing : bool;
  activeTab : Tab;
  toasts : list Toast;
  downloads : list Download
}.

Definition Handler (A : Type) : Type := M World Thrown A.

Definition with_db (d : Db) (w : World) : World :=
  mkWorld d (auth w) (route_id w) (consultation w) (medicalNote w)
    (isProcessing w) (activeTab w) (toasts w) (downloads w).

Definition setMedicalNote (n : option MedicalNote) : Handler unit :=
  modify (fun w => mkWorld (db w) (auth w) (route_id w) (consultation w) n
                     (isProcessing w) (activeTab w) (toasts w) (downloads w)).

Definition setIsProcessing (b : bool) : Handler unit :=
  modify (fun w => mkWorld (db w) (auth w) (route_id w) (consultation w)
                     (medicalNote w) b (activeTab w) (toasts w) (downloads w)).

Definition setActiveTab (t : Tab) : Handler unit :=
  modify (fun w => mkWorld (db w) (auth w) (route_id w) (consultation w)
                     (medicalNote w) (isProcessing w) t (toasts w) (downloads w)).

Definition toast (t : Toast) : Handler unit :=
  modify (fun w => mkWorld (db w) (auth w) (route_id w) (consultation w)
                     (medicalNote w) (isProcessing w) (activeTab w)
                     (toasts w ++ [t]) (downloads w)).

Definition download (f : Download) : Handler unit :=
  modify (fun w => mkWorld (db w) (auth w) (route_id w) (consultation w)
                     (medicalNote w) (isProcessing w) (activeTab w)
                     (toasts w) (downloads w ++ [f])).

(** [await supabase.from('medical_notes').upsert(row).select().single()];
    [uuid] is what the table's [id] default draws during the call. *)
Definition supabase_upsert_note (uuid : Uuid) (row : MedicalNoteUpsert)
    : Handler (MedicalNote + DBError) :=
  fun w =>
    let '(r, d) := upsert_medical_note (auth w) uuid row (db w) in
    (Normal r, with_db d w).

(** [await supabase.from('medical_notes').update(patch).eq('id', i)] *)
Definition supabase_update_note (i : Uuid) (u : MedicalNoteUpdate)
    : Handler (option DBError) :=
  fun w =>
    let '(r, d) := update_medical_note (auth w) i u (db w) in
    (Normal r, with_db d w).

Definition placeholderText : jsstring :=
  lit "Audio recorded but transcription failed. Please review the audio manually.".

(** The row written when no transcript arrived. *)
Definition failed_row (id : Uuid) : MedicalNoteUpsert :=
  mkMedicalNoteUpsert id placeholderText empty empty empty
    (lit "Transcription failed") (JObj []) false.

(** The row written for a transcript. *)
Definition transcript_row (id : Uuid) (transcript : jsstring) : MedicalNoteUpsert :=
  let simplified := transcript in
  mkMedicalNoteUpsert id (or_else simplified empty) empty empty empty
    transcript (JObj []) false.

(** [`transcript-${consultation?.patient_name || 'patient'}.txt`] *)
Definition transcript_filename (c : option Consultation) : jsstring :=
  lit "transcript-"
  ++ or_else (match c with Some c => patient_name c | None => [] end) (lit "patient")
  ++ lit ".txt".

(** The body of the [try] block of [handleTranscriptionComplete]. *)
Definition handleTranscriptionComplete_body (uuid : Uuid)
    (transcript : jsstring) : Handler unit :=
  id <- gets route_id ;;
  if negb (truthy transcript) || Nat.eqb (List.length (trim transcript)) 0 then
    r <- supabase_upsert_note uuid (failed_row id) ;;
    match r with
    | inr error => throw (ThrownDB error)
    | inl data =>
        setMedicalNote (Some data) ;;;
        setActiveTab notes ;;;
        toast (mkToast (lit "Note Created")
                 (lit "Audio recorded but transcription failed. Please review manually.")
                 true)
    end
  else
    let simplified := transcript in
    r <- supabase_upsert_note uuid (transcript_row id transcript) ;;
    match r with
    | inr error => throw (ThrownDB error)
    | inl data =>
        setMedicalNote (Some data) ;;;
        setActiveTab notes ;;;
        c <- gets consultation ;;
        download (mkDownload (transcript_filename c) (or_else simplified empty)) ;;;
        toast (mkToast (lit "Transcript Simplified")
                 (lit "Download ready and note saved.") false)
    end.

Definition handleTranscriptionComplete (uuid : Uuid)
    (transcript : jsstring) (audioBlob : Blob) : Handler unit :=
  setIsProcessing true ;;;
  try_finally
    (try_catch
       (handleTranscriptionComplete_body uuid transcript)
       (fun _ =>
          toast (mkToast (lit "Processing Error")
                   (lit "Failed to generate medical note. Please try again.")
                   true)))
    (setIsProcessing false).

(** [handleSaveNote]: no [try] here, a database error is thrown to the
    caller.  In [{ ...prev, ...note, is_reviewed: true }] the members of
    [note] win over those of [prev]. *)
Definition handleSaveNote (note : MedicalNote) : Handler unit :=
  error <- supabase_update_note (note_id note)
             (mkMedicalNoteUpdate (subjective note) (objective note)
                (assessment note) (plan note) true) ;;
  match error with
  | Some e => throw (ThrownDB e)
  | None =>
      prev <- gets medicalNote ;;
      setMedicalNote
        (match prev with
         | Some _ =>
             Some (mkMedicalNote (note_id note) (consultation_id note)
                     (subjective note) (objective note) (assessment note)
                     (plan note) (raw_transcript note)
                     (extracted_entities note) (Some true))
         | None => None
         end)
  end.

(** ** Observations and example states *)

Definition note_created : Toast :=
  mkToast (lit "Note Created")
    (lit "Audio recorded but transcription failed. Please review manually.") true.

Definition transcript_saved : Toast :=
  mkToast (lit "Transcript Simplified") (lit "Download ready and note saved.") false.

Definition processing_error : Toast :=
  mkToast (lit "Processing Error")
    (lit "Failed to generate medical note. Please try again.") true.

(** The row a call writes: which of the two literals is chosen. *)
Definition row_for (id : Uuid) (transcript : jsstring) : MedicalNoteUpsert :=
  if blank transcript then failed_row id else transcript_row id transcript.

(** A page on consultation 1 of doctor 7, before any note exists. *)
Definition doctor7 : Profile := mkProfile 70%N 7%N (Some (lit "Dr. Rao")).

Definition consultation1 : Consultation :=
  mkConsultation 1%N 7%N (lit "Asha") None in_progress None.

Definition db0 : Db := mkDb [doctor7] [consultation1] [].

Definition page0 : World :=
  mkWorld db0 (Some 7%N) 1%N (Some consultation1) None false recording [] [].

Definition blob0 : Blob := mkBlob [26; 69; 223; 163]%N (lit "audio/webm;codecs=opus").

Definition headache : jsstring := lit "Patient reports headache for 3 days.".

(** The page after a call. *)
Definition transcribed (uuid : Uuid) (transcript : jsstring) (audioBlob : Blob)
    (w : World) : World :=
  snd (handleTranscriptionComplete uuid transcript audioBlob w).

Definition saved (note : MedicalNote) (w : World) : World :=
  snd (handleSaveNote note w).

Definition spaces : jsstring := lit "  " ++ [9; 10; 160]%N.

(** A page whose table already holds a reviewed note of the consultation. *)
Definition reviewed_note : MedicalNote :=
  mkMedicalNote 50%N 1%N (Some headache) (Some (lit "BP 120/80"))
    (Some (lit "Tension headache")) (Some (lit "Rest, fluids"))
    (Some headache) (Some (JObj [])) (Some true).

Definition page_reviewed : World :=
  mkWorld (mkDb [doctor7] [consultation1] [reviewed_note]) (Some 7%N) 1%N
    (Some consultation1) (Some reviewed_note) false notes [] [].

(** The patch [handleSaveNote] sends. *)
Definition save_patch (note : MedicalNote) : MedicalNoteUpdate :=
  mkMedicalNoteUpdate (subjective note) (objective note) (assessment note)
    (plan note) true.

(** The page after the transcript arrived, and the note as the doctor
    edited it. *)
Definition page_noted : World := transcribed 100%N headache blob0 page0.

Definition stored_note : MedicalNote :=
  note_of_upsert 100%N (transcript_row 1%N headache).

Definition edited_note : MedicalNote :=
  mkMedicalNote 100%N 1%N (Some headache) (Some (lit "BP 120/80"))
    (Some (lit "Tension headache")) (Some (lit "Rest, fluids"))
    (Some (lit "edited in the form")) (Some (JObj [])) (Some false).

End ConsultationPage.

(* ================================================================== *)
(** * src/components/dashboard/NewConsultationDialog.tsx *)
(* ================================================================== *)

Module NewConsultationDialog.
Import Js Gateway Eff Ui.
Local Open Scope eff_scope.

(** The form state, the dialog's props as observed from outside
    ([onSuccess] calls, the [open] flag driven by [onOpenChange]), the
    router, the Supabase client and the database behind it. *)
Record World : Type := mkWorld {
  db : Db;
  auth : option Uuid;
  patientName : jsstring;
  patientId : jsstring;
  loading : bool;
  dialog_open : bool;
  onSuccess_calls : nat;
  navigated : list Uuid;
  toasts : list Toast
}.

Definition Handler (A : Type) : Type := M World Thrown A.

Definition setLoading (b : bool) : Handler unit :=
  modify (fun w => mkWorld (db w) (auth w) (patientName w) (patientId w) b
                     (dialog_open w) (onSuccess_calls w) (navigated w) (toasts w)).

Definition setPatientName (s : jsstring) : Handler unit :=
  modify (fun w => mkWorld (db w) (auth w) s (patientId w) (loading w)
                     (dialog_open w) (onSuccess_calls w) (navigated w) (toasts w)).

Definition setPatientId (s : jsstring) : Handler unit :=
  modify (fun w => mkWorld (db w) (auth w) (patientName w) s (loading w)
                     (dialog_open w) (onSuccess_calls w) (navigated w) (toasts w)).

Definition onOpenChange (b : bool) : Handler unit :=
  modify (fun w => mkWorld (db w) (auth w) (patientName w) (patientId w)
                     (loading w) b (onSuccess_calls w) (navigated w) (toasts w)).

Definition onSuccess : Handler unit :=
  modify (fun w => mkWorld (db w) (auth w) (patientName w) (patientId w)
                     (loading w) (dialog_open w) (S (onSuccess_calls w))
                     (navigated w) (toasts w)).

(** [navigate(`/consultation/${id}`)] *)
Definition navigate (i : Uuid) : Handler unit :=
  modify (fun w => mkWorld (db w) (auth w) (patientName w) (patientId w)
                     (loading w) (dialog_open w) (onSuccess_calls w)
                     (navigated w ++ [i]) (toasts w)).

Definition toast (t : Toast) : Handler unit :=
  modify (fun w => mkWorld (db w) (auth w) (patientName w) (patientId w)
                     (loading w) (dialog_open w) (onSuccess_calls w)
                     (navigated w) (toasts w ++ [t])).

(** [await supabase.from('consultations').insert(row).select().single()] *)
Definition supabase_insert_consultation (uuid : Uuid) (row : ConsultationInsert)
    : Handler (Consultation + DBError) :=
  fun w =>
    let '(r, d) := insert_consultation (auth w) uuid row (db w) in
    (Normal r,
     mkWorld d (auth w) (patientName w) (patientId w) (loading w)
       (dialog_open w) (onSuccess_calls w) (navigated w) (toasts w)).

(** [patientId || null] *)
Definition or_null (s : jsstring) : option jsstring :=
  if truthy s then Some s else None.

(** [handleSubmit]; [uuid] is what the [id] default draws during the
    insert, [(await supabase.auth.getUser()).data.user?.id] is [auth]. *)
Definition handleSubmit (uuid : Uuid) : Handler unit :=
  setLoading true ;;;
  try_finally
    (try_catch
       (name <- gets patientName ;;
        pid <- gets patientId ;;
        user <- gets auth ;;
        r <- supabase_insert_consultation uuid
               (mkConsultationInsert name (or_null pid) user) ;;
        match r with
        | inr error => throw (ThrownDB error)
        | inl data =>
            toast (mkToast (lit "Consultation Started")
                     (lit "New consultation created for " ++ name) false) ;;;
            onSuccess ;;;
            onOpenChange false ;;;
            navigate (cons_id data) ;;;
            setPatientName empty ;;;
            setPatientId empty
        end)
       (fun _ =>
          toast (mkToast (lit "Error")
                   (lit "Failed to create consultation") true)))
    (setLoading false).

(** ** Observations and example states *)

Definition submitted (uuid : Uuid) (w : World) : World :=
  snd (handleSubmit uuid w).

Definition has_profile (d : Db) (u : Uuid) : bool :=
  existsb (fun p => (user_id p =? u)%N) (profiles d).

Definition started (name : jsstring) : Toast :=
  mkToast (lit "Consultation Started")
    (lit "New consultation created for " ++ name) false.

Definition create_failed : Toast :=
  mkToast (lit "Error") (lit "Failed to create consultation") true.

(** The dialog of doctor 7 with a name typed in; consultation 1 exists. *)
Definition dialog0 : World :=
  mkWorld (mkDb [mkProfile 70%N 7%N None]
                [mkConsultation 1%N 7%N (lit "Asha") None completed None] [])
    (Some 7%N) (lit "Ravi Kumar") empty false true 0 [] [].

End NewConsultationDialog.

(* ================================================================== *)
(** * src/components/recording/AudioRecorder.tsx *)
(* ================================================================== *)

Module AudioRecorder.
Import Js Eff Ui.
Local Open Scope eff_scope.

(** The JSON body of the backend function's answer: [{ text }] on success,
    [{ error }] on failure (see the edge functions below). *)
Record TranscriptionData : Type := mkTranscriptionData {
  data_error : option jsstring;
  data_text : option jsstring
}.

(** What the environment does with one upload: the [FileReader] may fail,
    [fetch] may reject, or the function answers; [res_json = None] is a body
    on which [res.json()] rejects. *)
Inductive Backend : Type :=
| ReaderFailed (msg : jsstring)
| FetchRejected (msg : jsstring)
| Responded (ok : bool) (res_text : jsstring) (res_json : option TranscriptionData).

(** The component state, the toasts shown, and the calls made to the
    [onTranscriptionComplete] prop, in order. *)
Record World : Type := mkWorld {
  isTranscribing : bool;
  toasts : list Toast;
  onTranscriptionComplete_calls : list (jsstring * Blob)
}.

Definition Handler (A : Type) : Type := M World Thrown A.

Definition setIsTranscribing (b : bool) : Handler unit :=
  modify (fun w => mkWorld b (toasts w) (onTranscriptionComplete_calls w)).

Definition toast (t : Toast) : Handler unit :=
  modify (fun w => mkWorld (isTranscribing w) (toasts w ++ [t])
                     (onTranscriptionComplete_calls w)).

Definition onTranscriptionComplete (transcript : jsstring) (audioBlob : Blob)
    : Handler unit :=
  modify (fun w => mkWorld (isTranscribing w) (toasts w)
                     (onTranscriptionComplete_calls w ++ [(transcript, audioBlob)])).

Definition placeholderText : jsstring :=
  lit "Audio recorded but no speech was detected. Please check audio quality and try again.".

(** [option] members read with JavaScript truthiness: [undefined], [null]
    and the empty string are falsy. *)
Definition truthy_member (m : option jsstring) : bool :=
  match m with Some s => truthy s | None => false end.

(** [transcribeWithAssemblyAIStreaming]: the [catch] only logs and
    rethrows. *)
Definition transcribeWithAssemblyAIStreaming (env : Backend) (audioBlob : Blob)
    : Handler unit :=
  try_catch
    (match env with
     | ReaderFailed msg => throw (ThrownError msg)
     | FetchRejected msg => throw (ThrownError msg)
     | Responded ok text json =>
         if negb ok then
           throw (ThrownError (lit "Backend transcription failed: " ++ text))
         else
           match json with
           | None => throw (ThrownError (lit "Unexpected token in JSON"))
           | Some data =>
               if truthy_member (data_error data) then
                 throw (ThrownError
                          (match data_error data with Some e => e | None => [] end))
               else
                 let transcript :=
                   if truthy_member (data_text data)
                   then match data_text data with Some t => t | None => [] end
                   else empty in
                 if negb (truthy transcript)
                    || Nat.eqb (List.length (trim transcript)) 0
                 then onTranscriptionComplete placeholderText audioBlob
                 else onTranscriptionComplete transcript audioBlob
           end
     end)
    (fun error => throw error).

(** [error.message] *)
Definition message_of (e : Thrown) : jsstring :=
  match e with
  | ThrownError msg => msg
  | ThrownDB e => map N_of_ascii (list_ascii_of_string (Gateway.message e))
  end.

(** [transcribeAudio], called from [mediaRecorder.onstop] with the
    finalized recording. *)
Definition transcribeAudio (env : Backend) (audioBlob : Blob) : Handler unit :=
  setIsTranscribing true ;;;
  try_finally
    (try_catch
       (transcribeWithAssemblyAIStreaming env audioBlob)
       (fun error =>
          toast (mkToast (lit "Transcription Error")
                   (lit "Failed to transcribe audio: "
                    ++ or_else (message_of error) (lit "Unknown error"))
                   true)))
    (setIsTranscribing false).

(** ** Observations and example states *)

(** The transcription failed: the reader or the request failed, the answer
    is not OK, its body is not JSON, or it carries an [error]. *)
Definition failed (env : Backend) : bool :=
  match env with
  | ReaderFailed _ => true
  | FetchRejected _ => true
  | Responded ok _ None => true
  | Responded ok _ (Some data) => negb ok || truthy_member (data_error data)
  end.

(** The answer is a success without text: no [text] member, or an empty
    or white-space-only one. *)
Definition no_speech (env : Backend) : bool :=
  match env with
  | Responded true _ (Some data) =>
      negb (truthy_member (data_error data))
      && match data_text data with Some t => blank t | None => true end
  | _ => false
  end.

Definition transcription_error (msg : jsstring) : Toast :=
  mkToast (lit "Transcription Error")
    (lit "Failed to transcribe audio: " ++ or_else msg (lit "Unknown error")) true.

Definition recorder0 : World := mkWorld false [] [].

Definition blob0 : Blob := mkBlob [26; 69; 223; 163]%N (lit "audio/webm;codecs=opus").

Definition silence : Backend :=
  Responded true (lit "{}") (Some (mkTranscriptionData None (Some (lit " ")))).

Definition timed_out : Backend :=
  Responded true (lit "{}")
    (Some (mkTranscriptionData (Some (lit "Transcription timeout")) None)).

End AudioRecorder.

(* ================================================================== *)
(** * supabase/functions/transcribe-assemblyai, transcribe-audio *)
(* ================================================================== *)

Module Transcribe.
Import Js.

(** The JSON body of the vendor's status endpoint. *)
Record StatusData : Type := mkStatusData {
  status : jsstring;
  text : option jsstring;
  error : option jsstring
}.

(** One status request: [fetch] (or [json()]) rejects, or the vendor
    answers with [ok] and a body. *)
Inductive StatusResponse : Type :=
| StatusRejected (msg : jsstring)
| StatusAnswered (ok : bool) (statusData : StatusData).

(** The vendor, as the answer it gives to the k-th status request. *)
Definition Vendor : Type := nat -> StatusResponse.

Inductive Body : Type :=
| BodyText (text : option jsstring)
| BodyError (message : jsstring).

Record Response : Type := mkResponse {
  http_status : nat;
  body : Body
}.

(** The loop variable, the time spent in [setTimeout] and the number of
    status requests sent. *)
Record Poll : Type := mkPoll {
  attempts : nat;
  waited_ms : nat;
  requests : nat
}.

Definition poll_start : Poll := mkPoll 0 0 0.

(** [`${v}`] for a member that may be absent. *)
Definition template (v : option jsstring) : jsstring :=
  match v with Some s => s | None => lit "undefined" end.

(** [while (attempts < maxAttempts) { ... attempts++ }], one iteration per
    unit of [fuel]; [inr msg] is [throw new Error(msg)], [None] is fuel
    exhausted before the loop was left. *)
Fixpoint poll_loop (fuel maxAttempts : nat) (vendor : Vendor) (st : Poll)
    : option ((Response + jsstring) * Poll) :=
  match fuel with
  | O => None
  | S fuel' =>
      if Nat.ltb (attempts st) maxAttempts then
        let st1 := mkPoll (attempts st) (waited_ms st + 1000) (S (requests st)) in
        match vendor (requests st) with
        | StatusRejected msg => Some (inr msg, st1)
        | StatusAnswered ok statusData =>
            if negb ok then
              Some (inr (lit "Failed to check transcription status"), st1)
            else if jsstring_eqb (status statusData) (lit "completed") then
              Some (inl (mkResponse 200 (BodyText (text statusData))), st1)
            else if jsstring_eqb (status statusData) (lit "error") then
              Some (inr (lit "Transcription failed: " ++ template (error statusData)), st1)
            else
              poll_loop fuel' maxAttempts vendor
                (mkPoll (S (attempts st)) (waited_ms st1) (requests st1))
        end
      else
        Some (inr (lit "Transcription timeout"), st)
  end.

(** The tail of [serve], from [// Poll for completion] on: the loop, then
    the [catch] that turns a thrown error into a 500 answer.  The loop body
    runs at most [maxAttempts] times and one more test leaves it, so
    [S maxAttempts] units of fuel are enough ([poll_total] below). *)
Definition poll (maxAttempts : nat) (vendor : Vendor)
    : option ((Response + jsstring) * Poll) :=
  poll_loop (S maxAttempts) maxAttempts vendor poll_start.

Definition answer (r : Response + jsstring) : Response :=
  match r with
  | inl resp => resp
  | inr msg => mkResponse 500 (BodyError msg)
  end.

(** [transcribe-assemblyai/index.ts]: [maxAttempts = 30]. *)
Definition transcribe_assemblyai (vendor : Vendor) : option (Response * Poll) :=
  match poll 30 vendor with
  | Some (r, st) => Some (answer r, st)
  | None => None
  end.

(** [transcribe-audio/index.ts]: [maxAttempts = 60]. *)
Definition transcribe_audio (vendor : Vendor) : option (Response * Poll) :=
  match poll 60 vendor with
  | Some (r, st) => Some (answer r, st)
  | None => None
  end.

(** The vendor is still working on the job at request [k]: it answers, and
    the status is neither ["completed"] nor ["error"]. *)
Definition pending (r : StatusResponse) : bool :=
  match r with
  | StatusRejected _ => false
  | StatusAnswered ok sd =>
      ok && negb (jsstring_eqb (status sd) (lit "completed"))
         && negb (jsstring_eqb (status sd) (lit "error"))
  end.

(** ** Observations and example states *)

(** A job that stays in ["processing"]. *)
Definition stuck : Vendor :=
  fun _ => StatusAnswered true (mkStatusData (lit "processing") None None).

End Transcribe.

(* ================================================================== *)
(** * supabase/functions/generate-soap-note *)
(* ================================================================== *)

Module SoapNote.
Import Js.

Record Response : Type := mkResponse {
  http_status : nat;
  body : Json
}.

(** [{ error: message }] with status 500, the answer of the outer [catch]
    of both functions. *)
Definition error_response (message : jsstring) : Response :=
  mkResponse 500 (JObj [(lit "error", JStr message)]).

(** A note object: the four SOAP members are present and are strings. *)
Definition is_string_member (k : jsstring) (j : Json) : bool :=
  match prop k j with Some (JStr _) => true | _ => false end.

Definition is_soap_note (j : Json) : bool :=
  is_string_member (lit "subjective") j
  && is_string_member (lit "objective") j
  && is_string_member (lit "assessment") j
  && is_string_member (lit "plan") j.

Section Parser.

(** [JSON.parse]: the parsed value, or the message of the [SyntaxError]. *)
Variable JSON_parse : jsstring -> Json + jsstring.

(** ** The OpenAI-backed function *)

(** [result.choices[i].message.content], a string or [null]. *)
Record Choice : Type := mkChoice {
  content : option jsstring
}.

Record ChatCompletion : Type := mkChatCompletion {
  choices : list Choice
}.

Inductive OpenAI : Type :=
| OpenAIRejected (msg : jsstring)
| OpenAIAnswered (ok : bool) (errorText : jsstring) (result : ChatCompletion).

(** [result.choices[0].message.content]; on an empty [choices] the member
    access throws a [TypeError]. *)
Definition first_content (result : ChatCompletion) : option jsstring + jsstring :=
  match choices result with
  | c :: _ => inl (content c)
  | [] => inr (lit "Cannot read properties of undefined (reading 'message')")
  end.

(** [JSON.parse(v)] converts its argument to a string first. *)
Definition parse_content (v : option jsstring) : Json + jsstring :=
  JSON_parse (match v with Some s => s | None => lit "null" end).

Definition content_value (v : option jsstring) : Json :=
  match v with Some s => JStr s | None => JNull end.

Definition fallback_note (v : option jsstring) : Json :=
  JObj [ (lit "subjective", content_value v);
         (lit "objective", JStr (lit "Unable to parse structured data"));
         (lit "assessment", JStr (lit "Unable to parse structured data"));
         (lit "plan", JStr (lit "Unable to parse structured data"));
         (lit "extracted_entities", JObj []) ].

(** The inner [try]/[catch] around [JSON.parse]; [inr] is an error thrown
    on, to the outer [catch]. *)
Definition parse_or_fallback (result : ChatCompletion) : Response + jsstring :=
  match first_content result with
  | inl v =>
      match parse_content v with
      | inl soapNote => inl (mkResponse 200 soapNote)
      | inr _ => inl (mkResponse 200 (fallback_note v))
      end
  | inr _ =>
      (* the [catch] block reads [result.choices[0].message.content] again *)
      match first_content result with
      | inl v => inl (mkResponse 200 (fallback_note v))
      | inr typeError => inr typeError
      end
  end.

(** The [try] block and its [catch], for a request whose [transcript] is a
    string and a vendor answer whose choices each carry a message; the
    preflight and the other shapes of both are in [OpenAIServe.serve]. *)
Definition serve_openai (transcript : jsstring) (vendor : OpenAI) : Response :=
  let r : Response + jsstring :=
    if negb (truthy transcript) then inr (lit "No transcript provided")
    else
      match vendor with
      | OpenAIRejected msg => inr msg
      | OpenAIAnswered ok errorText result =>
          if negb ok then inr (lit "OpenAI API error: " ++ errorText)
          else parse_or_fallback result
      end in
  match r with
  | inl resp => resp
  | inr msg => error_response msg
  end.

(** ** The Gemini-backed function ([generate-soap-note/index.ts]) *)

(** Model selection and [generateContent], with the retry on an unknown
    model, end in an error or in [result.response.text()]. *)
Inductive Gemini : Type :=
| GenerationFailed (msg : jsstring)
| Generated (processedText : jsstring).

Definition serve_gemini (transcript : jsstring) (geminiApiKey : option jsstring)
    (vendor : Gemini) : Response :=
  let r : Response + jsstring :=
    if negb (truthy transcript) then inr (lit "transcript is required")
    else
      match geminiApiKey with
      | None => inr (lit "GEMINI_API_KEY is not set")
      | Some key =>
          if negb (truthy key) then inr (lit "GEMINI_API_KEY is not set")
          else
            match vendor with
            | GenerationFailed msg => inr msg
            | Generated processedText =>
                match JSON_parse processedText with
                | inl parsedResponse => inl (mkResponse 200 parsedResponse)
                | inr syntaxError => inr syntaxError
                end
            end
      end in
  match r with
  | inl resp => resp
  | inr msg => error_response msg
  end.

End Parser.

(** A parser for the closed examples: every JSON text starts, after white
    space, with a brace, a bracket, a double quote, a minus sign, a digit
    or one of the letters t, f, n; a text that starts otherwise is
    rejected, as [JSON.parse] rejects it.  On the other texts this
    function answers [null]; the examples do not use it there. *)
Definition can_start_json (c : N) : bool :=
  ((c =? 0x7B) || (c =? 0x5B) || (c =? 0x22) || (c =? 0x2D)
   || ((0x30 <=? c) && (c <=? 0x39))
   || (c =? 0x74) || (c =? 0x66) || (c =? 0x6E))%N.

Definition reject_by_first_character (s : jsstring) : Json + jsstring :=
  match trimStart s with
  | c :: _ =>
      if can_start_json c then inl JNull
      else inr (lit "Unexpected token in JSON at position 0")
  | [] => inr (lit "Unexpected end of JSON input")
  end.

(** ** Observations and example states *)

Definition unparsed : Json := JStr (lit "Unable to parse structured data").

Definition prose : jsstring :=
  lit "Here is the SOAP note: the patient reports a headache for 3 days.".

Definition syntax_error : jsstring :=
  lit "Unexpected token in JSON at position 0".

End SoapNote.

(* ================================================================== *)
(** * The persistence gateway: reads and the status update *)
(* ================================================================== *)

Module GatewayQueries.
Import Js Gateway.

(** The error of [.single()] and [.maybeSingle()] when the row count is
    not the one asked for. *)
Definition multiple_or_no_rows : DBError :=
  mkDBError "PGRST116" "JSON object requested, multiple (or no) rows returned".

(** The policies on [consultations]: [auth.uid() = doctor_id]. *)
Definition own_consultation (auth : option Uuid) (c : Consultation) : bool :=
  match auth with
  | Some u => (doctor_id c =? u)%N
  | None => false
  end.

(** [from('consultations').select('*').eq('id', i)] *)
Definition select_consultations (auth : option Uuid) (i : Uuid) (d : Db)
    : list Consultation :=
  filter (fun c => (cons_id c =? i)%N && own_consultation auth c)
         (consultations d).

(** [from('medical_notes').select('*').eq('consultation_id', cid)] *)
Definition select_notes (auth : option Uuid) (cid : Uuid) (d : Db)
    : list MedicalNote :=
  filter (fun r => (consultation_id r =? cid)%N
                   && doctor_of d auth (consultation_id r))
         (medical_notes d).

(** [.single()]: exactly one row, or an error. *)
Definition single {A : Type} (rows : list A) : A + DBError :=
  match rows with
  | [r] => inl r
  | _ => inr multiple_or_no_rows
  end.

(** [.maybeSingle()]: no row is [null] without an error, one row is the
    row, several rows are an error. *)
Definition maybeSingle {A : Type} (rows : list A) : option A * option DBError :=
  match rows with
  | [] => (None, None)
  | [r] => (Some r, None)
  | _ => (None, Some multiple_or_no_rows)
  end.

Definition with_status (s : ConsultationStatus) (c : Consultation) : Consultation :=
  mkConsultation (cons_id c) (doctor_id c) (patient_name c) (patient_id c) s
    (duration_minutes c).

(** [from('consultations').update({ status }).eq('id', i)]: the rows of
    other doctors are hidden by the update policy and skipped. *)
Definition update_consultation_status (auth : option Uuid) (i : Uuid)
    (s : ConsultationStatus) (d : Db) : option DBError * Db :=
  (None,
   mkDb (profiles d)
     (map (fun c =>
             if (cons_id c =? i)%N && own_consultation auth c
             then with_status s c else c)
          (consultations d))
     (medical_notes d)).

End GatewayQueries.

(* ================================================================== *)
(** * The persistence gateway: the texts a TEXT column holds *)
(* ================================================================== *)

Module GatewayText.
Import Js Gateway.

(** The client sends a row as JSON and PostgreSQL converts every string
    member to [text].  The conversion refuses the code unit 0 (U+0000) and
    a surrogate code unit that is not half of a pair; every other string is
    stored as it was sent.  [storable s]: the conversion accepts [s]. *)
Definition is_high_surrogate (c : N) : bool := ((0xD800 <=? c) && (c <=? 0xDBFF))%N.

Definition is_low_surrogate (c : N) : bool := ((0xDC00 <=? c) && (c <=? 0xDFFF))%N.

Fixpoint storable (s : jsstring) : bool :=
  match s with
  | [] => true
  | c :: r =>
      if (c =? 0)%N then false
      else if is_high_surrogate c then
        match r with
        | d :: r' => is_low_surrogate d && storable r'
        | [] => false
        end
      else negb (is_low_surrogate c) && storable r
  end.

(** Every text of the row is one the table can hold. *)
Definition row_storable (row : MedicalNoteUpsert) : bool :=
  storable (up_subjective row) && storable (up_objective row)
  && storable (up_assessment row) && storable (up_plan row)
  && storable (up_raw_transcript row).

End GatewayText.

(* ================================================================== *)
(** * src/pages/ConsultationPage.tsx: loading, completing, rendering *)
(* ================================================================== *)

Module ConsultationPageLoad.
Import Js Gateway GatewayQueries Eff Ui ConsultationPage.
Local Open Scope eff_scope.

(** The page with the rest of its state: the [loading] flag and the calls
    to [navigate('/')]. *)
Record Page : Type := mkPage {
  world : World;
  loading : bool;
  navigated_home : nat
}.

Definition PageHandler (A : Type) : Type := M Page Thrown A.

Definition on_world (f : World -> World) : PageHandler unit :=
  modify (fun p => mkPage (f (world p)) (loading p) (navigated_home p)).

Definition setConsultation (c : option Consultation) : PageHandler unit :=
  on_world (fun w => mkWorld (db w) (auth w) (route_id w) c (medicalNote w)
                       (isProcessing w) (activeTab w) (toasts w) (downloads w)).

Definition setNote (n : option MedicalNote) : PageHandler unit :=
  on_world (fun w => mkWorld (db w) (auth w) (route_id w) (consultation w) n
                       (isProcessing w) (activeTab w) (toasts w) (downloads w)).

Definition setTab (t : Tab) : PageHandler unit :=
  on_world (fun w => mkWorld (db w) (auth w) (route_id w) (consultation w)
                       (medicalNote w) (isProcessing w) t (toasts w) (downloads w)).

Definition show (t : Toast) : PageHandler unit :=
  on_world (fun w => mkWorld (db w) (auth w) (route_id w) (consultation w)
                       (medicalNote w) (isProcessing w) (activeTab w)
                       (toasts w ++ [t]) (downloads w)).

Definition setLoading (b : bool) : PageHandler unit :=
  modify (fun p => mkPage (world p) b (navigated_home p)).

(** [navigate('/')] *)
Definition navigate_home : PageHandler unit :=
  modify (fun p => mkPage (world p) (loading p) (S (navigated_home p))).

Definition load_failed : Toast :=
  mkToast (lit "Error") (lit "Failed to load consultation") true.

Definition completed_toast : Toast :=
  mkToast (lit "Consultation Completed")
    (lit "Consultation has been marked as completed.") false.

Definition complete_failed : Toast :=
  mkToast (lit "Error") (lit "Failed to complete consultation") true.

(** [fetchConsultation].  [fault] is a failure of the request itself (the
    network, the server); [None] means the query reached the database. *)
Definition fetchConsultation (fault : option DBError) : PageHandler unit :=
  try_catch
    (w <- gets world ;;
     match match fault with
           | Some e => inr e
           | None => single (select_consultations (auth w) (route_id w) (db w))
           end with
     | inr error => throw (ThrownDB error)
     | inl data => setConsultation (Some data)
     end)
    (fun _ => show load_failed ;;; navigate_home).

(** [fetchMedicalNote]: the error [PGRST116] is let through, and [data]
    (then [null]) is stored all the same. *)
Definition fetchMedicalNote (fault : option DBError) : PageHandler unit :=
  try_finally
    (try_catch
       (w <- gets world ;;
        let '(data, error) :=
          match fault with
          | Some e => (None, Some e)
          | None => maybeSingle (select_notes (auth w) (route_id w) (db w))
          end in
        match error with
        | Some e =>
            if negb (String.eqb (code e) "PGRST116")
            then throw (ThrownDB e) else ret tt
        | None => ret tt
        end ;;;
        setNote data ;;;
        match data with
        | Some _ => setTab notes
        | None => ret tt
        end)
       (fun _ => ret tt))
    (setLoading false).

(** The effect that runs on mount: both loaders are started. *)
Definition mount (fault_c fault_n : option DBError) : PageHandler unit :=
  fetchConsultation fault_c ;;; fetchMedicalNote fault_n.

(** [handleCompleteConsultation] *)
Definition handleCompleteConsultation (fault : option DBError) : PageHandler unit :=
  try_catch
    (w <- gets world ;;
     match fault with
     | Some e => throw (ThrownDB e)
     | None =>
         let '(error, d) :=
           update_consultation_status (auth w) (route_id w) completed (db w) in
         on_world (with_db d) ;;;
         match error with
         | Some e => throw (ThrownDB e)
         | None =>
             prev <- gets (fun p => consultation (world p)) ;;
             setConsultation
               (match prev with
                | Some c => Some (with_status completed c)
                | None => None
                end) ;;;
             show completed_toast
         end
     end)
    (fun _ => show complete_failed).

(** ** What the page renders *)

(** [loading || !consultation]: the spinner is shown instead of the page. *)
Definition shows_spinner (p : Page) : bool :=
  loading p
  || match consultation (world p) with Some _ => false | None => true end.

(** [consultation.status === 'in_progress' && medicalNote?.is_reviewed]:
    the "Complete Consultation" button is rendered. *)
Definition complete_button (w : World) : bool :=
  match consultation w, medicalNote w with
  | Some c, Some n =>
      match status c, is_reviewed n with
      | in_progress, Some true => true
      | _, _ => false
      end
  | _, _ => false
  end.

(** [disabled={!medicalNote}] on the notes tab. *)
Definition notes_tab_disabled (w : World) : bool :=
  match medicalNote w with Some _ => false | None => true end.

(** ** Observations and example states *)

Definition loaded (fault_c fault_n : option DBError) (p : Page) : Page :=
  snd (mount fault_c fault_n p).

Definition completed_page (fault : option DBError) (p : Page) : Page :=
  snd (handleCompleteConsultation fault p).

(** The page as it is when the component is created. *)
Definition fresh_page (d : Db) (auth : option Uuid) (id : Uuid) : Page :=
  mkPage (mkWorld d auth id None None false recording [] []) true 0.

Definition network_down : DBError := mkDBError "" "TypeError: Failed to fetch".

(** Every note refers to a consultation of the table (the foreign key). *)
Definition notes_refer (d : Db) : Prop :=
  forall r, In r (medical_notes d) ->
    exists c, In c (consultations d) /\ cons_id c = consultation_id r.

(** The keys of a table, in order. *)
Definition note_ids (d : Db) : list Uuid := map note_id (medical_notes d).

Definition consultation_ids (d : Db) : list Uuid := map cons_id (consultations d).

End ConsultationPageLoad.

(* ================================================================== *)
(** * Further example states *)
(* ================================================================== *)

Module Scenes.
Import Js Gateway Ui ConsultationPage.

(** The page of consultation 1 opened by doctor 8, who does not own it. *)
Definition page_stranger : World :=
  mkWorld db0 (Some 8%N) 1%N (Some consultation1) None false recording [] [].

End Scenes.

(* ================================================================== *)
(** * Example states for saving and loading *)
(* ================================================================== *)

Module Scenes2.
Import Js Gateway Ui ConsultationPage ConsultationPageLoad.

(** Doctor 8 looking at a note of consultation 1, which belongs to
    doctor 7. *)
Definition page_foreign_note : World :=
  mkWorld (mkDb [doctor7] [consultation1] [stored_note]) (Some 8%N) 1%N
    (Some consultation1) (Some stored_note) false notes [] [].

(** Consultation 1 was cancelled; its note is reviewed. *)
Definition cancelled1 : Consultation :=
  mkConsultation 1%N 7%N (lit "Asha") None cancelled None.

Definition page_cancelled : Page :=
  mkPage
    (mkWorld (mkDb [doctor7] [cancelled1] [reviewed_note]) (Some 7%N) 1%N
       (Some cancelled1) (Some reviewed_note) false notes [] [])
    false 0.

End Scenes2.

(* ================================================================== *)
(** * Naming the pieces of a page state *)
(* ================================================================== *)

Module PageUpdates.
Import Js Gateway GatewayQueries Ui ConsultationPage ConsultationPageLoad.

Definition with_consultation (c : option Consultation) (w : World) : World :=
  mkWorld (db w) (auth w) (route_id w) c (medicalNote w) (isProcessing w)
    (activeTab w) (toasts w) (downloads w).

Definition with_note (n : option MedicalNote) (t : Tab) (w : World) : World :=
  mkWorld (db w) (auth w) (route_id w) (consultation w) n (isProcessing w) t
    (toasts w) (downloads w).

Definition with_toast (t : Toast) (w : World) : World :=
  mkWorld (db w) (auth w) (route_id w) (consultation w) (medicalNote w)
    (isProcessing w) (activeTab w) (toasts w ++ [t]) (downloads w).

(** The rows the two loaders see. *)
Definition seen_consultations (w : World) : list Consultation :=
  select_consultations (auth w) (route_id w) (db w).

Definition seen_notes (w : World) : list MedicalNote :=
  select_notes (auth w) (route_id w) (db w).

(** The note and the tab after [fetchMedicalNote] found [rows]. *)
Definition note_found (rows : list MedicalNote) : option MedicalNote :=
  match rows with [n] => Some n | _ => None end.

Definition tab_found (rows : list MedicalNote) (t : Tab) : Tab :=
  match rows with [_] => notes | _ => t end.

(** A page around a world, loaded or not. *)
Definition page_of (w : World) : Page := mkPage w true 0.

End PageUpdates.

(* ================================================================== *)
(** * NewConsultationDialog: when a submit goes through *)
(* ================================================================== *)

Module DialogOutcome.
Import Js Gateway GatewayQueries Ui NewConsultationDialog.

(** The insert of a submit is accepted: somebody is signed in, has a
    profile row, and the key drawn is unused. *)
Definition submit_accepted (uuid : Uuid) (w : World) : bool :=
  match auth w with
  | Some u => fresh_consultation_id (db w) uuid && has_profile (db w) u
  | None => false
  end.

(** The row a submit writes for the signed-in user [u]. *)
Definition submitted_row (uuid u : Uuid) (w : World) : Consultation :=
  mkConsultation uuid u (patientName w) (or_null (patientId w)) in_progress None.

(** The dialog of a signed-out visitor. *)
Definition dialog_signed_out : World :=
  mkWorld (db dialog0) None (lit "Ravi Kumar") (lit "P12345") false true 0 [] [].

End DialogOutcome.

(* ================================================================== *)
(** * AudioRecorder: the three outcomes of a transcription *)
(* ================================================================== *)

Module RecorderOutcome.
Import Js Ui AudioRecorder.

(** The text of a successful answer that carries speech. *)
Definition spoken (env : Backend) : option jsstring :=
  match env with
  | Responded true _ (Some data) =>
      if truthy_member (data_error data) then None
      else match data_text data with
           | Some t => if blank t then None else Some t
           | None => None
           end
  | _ => None
  end.

(** What the recorder hands to the page for [env], if anything. *)
Definition handed_over (env : Backend) : option jsstring :=
  if no_speech env then Some placeholderText else spoken env.

Definition after_recording (env : Backend) (audioBlob : Blob) (w : World) : World :=
  snd (transcribeAudio env audioBlob w).

End RecorderOutcome.

(* ================================================================== *)
(** * AudioRecorder: the clock display *)
(* ================================================================== *)

Module RecorderClock.
Import Js.

(** The decimal digits of a non-negative integer, as [Number.prototype.toString]
    prints it. *)
Fixpoint digits_of_uint (d : Decimal.uint) : jsstring :=
  match d with
  | Decimal.Nil => []
  | Decimal.D0 r => 48%N :: digits_of_uint r
  | Decimal.D1 r => 49%N :: digits_of_uint r
  | Decimal.D2 r => 50%N :: digits_of_uint r
  | Decimal.D3 r => 51%N :: digits_of_uint r
  | Decimal.D4 r => 52%N :: digits_of_uint r
  | Decimal.D5 r => 53%N :: digits_of_uint r
  | Decimal.D6 r => 54%N :: digits_of_uint r
  | Decimal.D7 r => 55%N :: digits_of_uint r
  | Decimal.D8 r => 56%N :: digits_of_uint r
  | Decimal.D9 r => 57%N :: digits_of_uint r
  end.

Definition toString (n : N) : jsstring := digits_of_uint (N.to_uint n).

(** [s.padStart(targetLength, pad)] for a one-character [pad]. *)
Definition padStart (targetLength : nat) (pad : N) (s : jsstring) : jsstring :=
  repeat pad (targetLength - List.length s) ++ s.

(** [formatTime]; [seconds] is the tick counter, a non-negative integer. *)
Definition formatTime (seconds : N) : jsstring :=
  let mins := (seconds / 60)%N in
  let secs := (seconds mod 60)%N in
  padStart 2 48%N (toString mins) ++ lit ":" ++ padStart 2 48%N (toString secs).

(** Two digits. *)
Definition two_digits (n : N) : jsstring := [48 + n / 10; 48 + n mod 10]%N.

(** Reading a five-character display back: the seconds it stands for. *)
Definition digit_at (k : nat) (s : jsstring) : N := (nth k s 48 - 48)%N.

Definition read_clock (s : jsstring) : N :=
  (60 * (10 * digit_at 0 s + digit_at 1 s)
   + (10 * digit_at 3 s + digit_at 4 s))%N.

(** Reading a display of any length back: the decimal number before the
    colon is the minutes, the one after it the seconds.  [None]: a
    character that is no digit. *)
Fixpoint uint_of_digits (s : jsstring) : option Decimal.uint :=
  match s with
  | [] => Some Decimal.Nil
  | c :: r =>
      match uint_of_digits r with
      | None => None
      | Some d =>
          if (c =? 48)%N then Some (Decimal.D0 d)
          else if (c =? 49)%N then Some (Decimal.D1 d)
          else if (c =? 50)%N then Some (Decimal.D2 d)
          else if (c =? 51)%N then Some (Decimal.D3 d)
          else if (c =? 52)%N then Some (Decimal.D4 d)
          else if (c =? 53)%N then Some (Decimal.D5 d)
          else if (c =? 54)%N then Some (Decimal.D6 d)
          else if (c =? 55)%N then Some (Decimal.D7 d)
          else if (c =? 56)%N then Some (Decimal.D8 d)
          else if (c =? 57)%N then Some (Decimal.D9 d)
          else None
      end
  end.

Definition number_of (s : jsstring) : option N :=
  match uint_of_digits s with
  | Some d => Some (N.of_uint d)
  | None => None
  end.

(** The text before the first colon, and the text after it. *)
Fixpoint split_at_colon (s : jsstring) : jsstring * jsstring :=
  match s with
  | [] => ([], [])
  | c :: r =>
      if (c =? 58)%N then ([], r)
      else let (a, b) := split_at_colon r in (c :: a, b)
  end.

Definition read_time (s : jsstring) : option N :=
  let (m, sec) := split_at_colon s in
  match number_of m, number_of sec with
  | Some a, Some b => Some (60 * a + b)%N
  | _, _ => None
  end.

End RecorderClock.

(* ================================================================== *)
(** * The poll loop: the answer that ends it *)
(* ================================================================== *)

Module PollVerdict.
Import Js Transcribe.

(** What the loop body makes of an answer that ends the loop. *)
Definition decided (r : StatusResponse) : Response + jsstring :=
  match r with
  | StatusRejected msg => inr msg
  | StatusAnswered ok statusData =>
      if negb ok then inr (lit "Failed to check transcription status")
      else if jsstring_eqb (status statusData) (lit "completed")
      then inl (mkResponse 200 (BodyText (text statusData)))
      else inr (lit "Transcription failed: " ++ template (error statusData))
  end.

(** [k] is the first request the vendor does not answer with "still
    working". *)
Definition first_decisive (vendor : Vendor) (k : nat) : Prop :=
  pending (vendor k) = false
  /\ forall j, j < k -> pending (vendor j) = true.

(** A job that finishes on the third request. *)
Definition third_time : Vendor :=
  fun k =>
    if Nat.ltb k 2
    then StatusAnswered true (mkStatusData (lit "processing") None None)
    else StatusAnswered true
           (mkStatusData (lit "completed") (Some (lit "Patient reports headache."))
              None).

End PollVerdict.

(* ================================================================== *)
(** * supabase/functions/transcribe-audio: decoding the upload *)
(* ================================================================== *)

Module Base64.
Import Js.

(** ASCII white space, which [atob] removes before decoding. *)
Definition is_ascii_whitespace (c : N) : bool :=
  ((c =? 9) || (c =? 10) || (c =? 12) || (c =? 13) || (c =? 32))%N.

(** The value of a character of the base64 alphabet. *)
Definition sextet (c : N) : option N :=
  if ((65 <=? c) && (c <=? 90))%N then Some (c - 65)%N
  else if ((97 <=? c) && (c <=? 122))%N then Some (c - 71)%N
  else if ((48 <=? c) && (c <=? 57))%N then Some (c + 4)%N
  else if (c =? 43)%N then Some 62%N
  else if (c =? 47)%N then Some 63%N
  else None.

Fixpoint sextets (s : jsstring) : option (list N) :=
  match s with
  | [] => Some []
  | c :: r =>
      match sextet c, sextets r with
      | Some v, Some vs => Some (v :: vs)
      | _, _ => None
      end
  end.

(** When the length is a multiple of four, one or two [=] at the end are
    dropped. *)
Definition strip_padding (s : jsstring) : jsstring :=
  if Nat.eqb (List.length s mod 4) 0 then
    match rev s with
    | last :: r =>
        if (last =? 61)%N then
          match r with
          | before :: r' => if (before =? 61)%N then rev r' else rev r
          | [] => rev r
          end
        else s
    | [] => s
    end
  else s.

(** Four sextets make three bytes; a rest of three makes two, a rest of
    two makes one (the unused low bits are dropped). *)
Fixpoint decode_sextets (l : list N) : list N :=
  match l with
  | a :: b :: c :: d :: rest =>
      (a * 4 + b / 16)%N :: ((b mod 16) * 16 + c / 4)%N :: ((c mod 4) * 64 + d)%N
      :: decode_sextets rest
  | [a; b; c] => [(a * 4 + b / 16)%N; ((b mod 16) * 16 + c / 4)%N]
  | [a; b] => [(a * 4 + b / 16)%N]
  | _ => []
  end.

(** [atob(s)], then [charCodeAt] on every character: the bytes, or [None]
    when [atob] throws [InvalidCharacterError]. *)
Definition atob (s : jsstring) : option (list N) :=
  let data := strip_padding (filter (fun c => negb (is_ascii_whitespace c)) s) in
  if Nat.eqb (List.length data mod 4) 1 then None
  else match sextets data with
       | Some l => Some (decode_sextets l)
       | None => None
       end.

(** The [while (position < base64String.length)] loop of
    [processBase64Chunks], one iteration per unit of fuel, with the chunks
    already joined.  The outer [None] is fuel exhausted, the inner one an
    exception of [atob]. *)
Fixpoint chunks_loop (fuel : nat) (base64String : jsstring)
    (chunkSize position : nat) : option (option (list N)) :=
  match fuel with
  | O => None
  | S fuel' =>
      if Nat.ltb position (List.length base64String) then
        let chunk := firstn chunkSize (skipn position base64String) in
        match atob chunk with
        | None => Some None
        | Some bytes =>
            match chunks_loop fuel' base64String chunkSize (position + chunkSize) with
            | Some (Some more) => Some (Some (bytes ++ more))
            | other => other
            end
        end
      else Some (Some [])
  end.

(** [processBase64Chunks(base64String, chunkSize)].  With a positive chunk
    size every iteration advances, so one unit of fuel per character and
    one for the last test are enough. *)
Definition processBase64Chunks (base64String : jsstring) (chunkSize : nat)
    : option (option (list N)) :=
  chunks_loop (S (List.length base64String)) base64String chunkSize 0.

(** The default of the parameter. *)
Definition default_chunkSize : nat := 4 * (64 * 128).

Definition no_whitespace (s : jsstring) : Prop :=
  forall c, In c s -> is_ascii_whitespace c = false.

End Base64.

(* ================================================================== *)
(** * src/components/recording/AudioRecorder.tsx: capture *)
(* ================================================================== *)

Module Capture.
Import Js Eff Ui.
Local Open Scope eff_scope.

(** [MediaRecorder.state] *)
Inductive RecordingState : Type := inactive | recording | paused.

(** The component state and refs, and the platform objects they point to:
    the recorder behind [mediaRecorderRef] with its state, the [mimeType]
    its handlers closed over, the intervals started and not cleared, the
    microphone streams not stopped, whether a [stop] event is due, and the
    recordings handed to [transcribeAudio]. *)
Record Component : Type := mkComponent {
  isRecording : bool;
  isPaused : bool;
  recordingTime : N;
  hasRecording : bool;
  mediaRecorder : option RecordingState;
  mimeType : jsstring;
  chunks : list Blob;
  timerRef : bool;
  intervals : nat;
  live_streams : nat;
  stop_due : bool;
  toasts : list Toast;
  transcribed : list Blob
}.

(** What the handlers throw. *)
Inductive Thrown : Type :=
| InvalidStateError
| NotSupportedError
| NotAllowedError.

Definition Handler (A : Type) : Type := M Component Thrown A.

Definition update (f : Component -> Component) : Handler unit := modify f.

Definition setIsRecording (b : bool) : Handler unit :=
  update (fun c => mkComponent b (isPaused c) (recordingTime c) (hasRecording c)
                     (mediaRecorder c) (mimeType c) (chunks c) (timerRef c)
                     (intervals c) (live_streams c) (stop_due c) (toasts c)
                     (transcribed c)).

Definition setIsPaused (b : bool) : Handler unit :=
  update (fun c => mkComponent (isRecording c) b (recordingTime c) (hasRecording c)
                     (mediaRecorder c) (mimeType c) (chunks c) (timerRef c)
                     (intervals c) (live_streams c) (stop_due c) (toasts c)
                     (transcribed c)).

Definition setRecordingTime (f : N -> N) : Handler unit :=
  update (fun c => mkComponent (isRecording c) (isPaused c) (f (recordingTime c))
                     (hasRecording c) (mediaRecorder c) (mimeType c) (chunks c)
                     (timerRef c) (intervals c) (live_streams c) (stop_due c)
                     (toasts c) (transcribed c)).

Definition setHasRecording (b : bool) : Handler unit :=
  update (fun c => mkComponent (isRecording c) (isPaused c) (recordingTime c) b
                     (mediaRecorder c) (mimeType c) (chunks c) (timerRef c)
                     (intervals c) (live_streams c) (stop_due c) (toasts c)
                     (transcribed c)).

Definition set_recorder (r : option RecordingState) (mime : jsstring)
    (due : bool) : Handler unit :=
  update (fun c => mkComponent (isRecording c) (isPaused c) (recordingTime c)
                     (hasRecording c) r mime (chunks c) (timerRef c)
                     (intervals c) (live_streams c) due (toasts c)
                     (transcribed c)).

Definition set_chunks (l : list Blob) : Handler unit :=
  update (fun c => mkComponent (isRecording c) (isPaused c) (recordingTime c)
                     (hasRecording c) (mediaRecorder c) (mimeType c) l
                     (timerRef c) (intervals c) (live_streams c) (stop_due c)
                     (toasts c) (transcribed c)).

Definition set_timer (ref : bool) (n : nat) : Handler unit :=
  update (fun c => mkComponent (isRecording c) (isPaused c) (recordingTime c)
                     (hasRecording c) (mediaRecorder c) (mimeType c) (chunks c)
                     ref n (live_streams c) (stop_due c) (toasts c)
                     (transcribed c)).

Definition set_streams (n : nat) : Handler unit :=
  update (fun c => mkComponent (isRecording c) (isPaused c) (recordingTime c)
                     (hasRecording c) (mediaRecorder c) (mimeType c) (chunks c)
                     (timerRef c) (intervals c) n (stop_due c) (toasts c)
                     (transcribed c)).

Definition toast (t : Toast) : Handler unit :=
  update (fun c => mkComponent (isRecording c) (isPaused c) (recordingTime c)
                     (hasRecording c) (mediaRecorder c) (mimeType c) (chunks c)
                     (timerRef c) (intervals c) (live_streams c) (stop_due c)
                     (toasts c ++ [t]) (transcribed c)).

Definition transcribeAudio (audioBlob : Blob) : Handler unit :=
  update (fun c => mkComponent (isRecording c) (isPaused c) (recordingTime c)
                     (hasRecording c) (mediaRecorder c) (mimeType c) (chunks c)
                     (timerRef c) (intervals c) (live_streams c) (stop_due c)
                     (toasts c) (transcribed c ++ [audioBlob])).

(** [startTimer]: a new interval is started and its handle stored; a
    handle already in the ref is overwritten, not cleared. *)
Definition startTimer : Handler unit :=
  n <- gets intervals ;;
  set_timer true (S n).

(** [stopTimer]: the interval in the ref, if any, is cleared. *)
Definition stopTimer : Handler unit :=
  ref <- gets timerRef ;;
  if ref then
    n <- gets intervals ;;
    set_timer false (pred n)
  else ret tt.

(** ** The platform's [MediaRecorder] methods *)

(** [pause()]: throws on an inactive recorder, does nothing on a paused
    one. *)
Definition recorder_pause (s : RecordingState) : RecordingState + Thrown :=
  match s with
  | inactive => inr InvalidStateError
  | _ => inl paused
  end.

Definition recorder_resume (s : RecordingState) : RecordingState + Thrown :=
  match s with
  | inactive => inr InvalidStateError
  | _ => inl recording
  end.

(** What the browser supports, as [MediaRecorder.isTypeSupported] and the
    constructor see it. *)
Record Support : Type := mkSupport {
  audio_mpeg : bool;
  audio_mp3 : bool;
  audio_webm_opus : bool
}.

(** The answer to [getUserMedia]. *)
Inductive Microphone : Type :=
| Denied
| Granted (support : Support).

Definition recording_started : Toast :=
  mkToast (lit "Recording Started") (lit "Listening to consultation...") false.

Definition recording_error : Toast :=
  mkToast (lit "Recording Error")
    (lit "Could not access microphone. Please check permissions.") true.

(** [startRecording].  The constructor throws [NotSupportedError] for a
    [mimeType] the browser cannot record. *)
Definition startRecording (mic : Microphone) : Handler unit :=
  try_catch
    (match mic with
     | Denied => throw NotAllowedError
     | Granted support =>
         live <- gets live_streams ;;
         set_streams (S live) ;;;
         let supportsMp3 := audio_mpeg support || audio_mp3 support in
         let mime := if supportsMp3 then lit "audio/mpeg"
                     else lit "audio/webm;codecs=opus" in
         if negb (if supportsMp3 then audio_mpeg support
                  else audio_webm_opus support)
         then throw NotSupportedError
         else
           set_recorder (Some inactive) mime false ;;;
           set_chunks [] ;;;
           set_recorder (Some recording) mime false ;;;
           setIsRecording true ;;;
           setRecordingTime (fun _ => 0%N) ;;;
           startTimer ;;;
           toast recording_started
     end)
    (fun _ => toast recording_error).

(** [pauseRecording] *)
Definition pauseRecording : Handler unit :=
  r <- gets mediaRecorder ;;
  on <- gets isRecording ;;
  match r with
  | Some s =>
      if on then
        match recorder_pause s with
        | inr e => throw e
        | inl s' =>
            mime <- gets mimeType ;;
            due <- gets stop_due ;;
            set_recorder (Some s') mime due ;;;
            setIsPaused true ;;;
            stopTimer
        end
      else ret tt
  | None => ret tt
  end.

(** [resumeRecording] *)
Definition resumeRecording : Handler unit :=
  r <- gets mediaRecorder ;;
  held <- gets isPaused ;;
  match r with
  | Some s =>
      if held then
        match recorder_resume s with
        | inr e => throw e
        | inl s' =>
            mime <- gets mimeType ;;
            due <- gets stop_due ;;
            set_recorder (Some s') mime due ;;;
            setIsPaused false ;;;
            startTimer
        end
      else ret tt
  | None => ret tt
  end.

(** [stopRecording]; [stop()] on an inactive recorder does nothing, on an
    active one it makes a [stop] event due. *)
Definition stopRecording : Handler unit :=
  r <- gets mediaRecorder ;;
  match r with
  | Some s =>
      mime <- gets mimeType ;;
      due <- gets stop_due ;;
      set_recorder (Some inactive) mime
        (match s with inactive => due | _ => true end) ;;;
      setIsRecording false ;;;
      setIsPaused false ;;;
      stopTimer
  | None => ret tt
  end.

(** [mediaRecorder.ondataavailable] *)
Definition ondataavailable (data : Blob) : Handler unit :=
  if Nat.ltb 0 (List.length (blob_bytes data)) then
    l <- gets chunks ;;
    set_chunks (l ++ [data])
  else ret tt.

(** [new Blob(parts, { type })] *)
Definition new_Blob (parts : list Blob) (type : jsstring) : Blob :=
  mkBlob (List.concat (map blob_bytes parts)) type.

(** [mediaRecorder.onstop] *)
Definition onstop : Handler unit :=
  l <- gets chunks ;;
  mime <- gets mimeType ;;
  setHasRecording true ;;;
  transcribeAudio (new_Blob l mime) ;;;
  live <- gets live_streams ;;
  set_streams (pred live) ;;;
  r <- gets mediaRecorder ;;
  set_recorder r mime false.

(** The callback of the interval. *)
Definition tick : Handler unit := setRecordingTime (fun prev => (prev + 1)%N).

(** ** What can happen to the component *)

Inductive Event : Type :=
| ClickStart (mic : Microphone)
| ClickPause
| ClickResume
| ClickStop
| Tick
| DataAvailable (data : Blob)
| StopEvent.

(** The buttons the component renders, and the events the platform can
    deliver: a tick needs a running interval, data an active recorder or a
    due [stop] event (the last chunk comes before it), a [stop] event a
    call of [stop()].  The recorder is taken to stop only when
    [stopRecording] stops it; the platform stopping it on its own is
    [tracks_end] below, which is no event of the runs. *)
Definition enabled (e : Event) (c : Component) : bool :=
  match e with
  | ClickStart _ => negb (isRecording c) && negb (stop_due c)
  | ClickPause => isRecording c && negb (isPaused c)
  | ClickResume => isRecording c && isPaused c
  | ClickStop => isRecording c
  | Tick => Nat.ltb 0 (intervals c)
  | DataAvailable _ =>
      match mediaRecorder c with
      | Some recording => true
      | _ => stop_due c
      end
  | StopEvent => stop_due c
  end.

Definition handle (e : Event) : Handler unit :=
  match e with
  | ClickStart mic => startRecording mic
  | ClickPause => pauseRecording
  | ClickResume => resumeRecording
  | ClickStop => stopRecording
  | Tick => tick
  | DataAvailable data => ondataavailable data
  | StopEvent => onstop
  end.

Definition initial : Component :=
  mkComponent false false 0 false None [] [] false 0 0 false [] [].

(** The states the component can be in. *)
Inductive reachable : Component -> Prop :=
| reach_initial : reachable initial
| reach_step (e : Event) (c : Component) :
    reachable c -> enabled e c = true -> reachable (snd (handle e c)).

(** A run: the events in order, and the state after them. *)
Inductive runs : list Event -> Component -> Prop :=
| runs_nil : runs [] initial
| runs_snoc (tr : list Event) (e : Event) (c : Component) :
    runs tr c -> enabled e c = true -> runs (tr ++ [e]) (snd (handle e c)).

(** The audio delivered since the recording last started. *)
Fixpoint delivered (tr : list Event) (acc : list N) : list N :=
  match tr with
  | [] => acc
  | ClickStart (Granted support) :: r =>
      delivered r
        (if (if audio_mpeg support || audio_mp3 support then audio_mpeg support
             else audio_webm_opus support)
         then [] else acc)
  | DataAvailable data :: r => delivered r (acc ++ blob_bytes data)
  | _ :: r => delivered r acc
  end.

(** The clock runs: recording and not paused. *)
Definition running (c : Component) : bool := isRecording c && negb (isPaused c).

(** The flags, the recorder, the interval and the stream agree. *)
Definition consistent (c : Component) : Prop :=
  timerRef c = running c
  /\ intervals c = (if running c then 1 else 0)
  /\ (isPaused c = true -> isRecording c = true)
  /\ (isRecording c = true ->
      mediaRecorder c = Some (if isPaused c then paused else recording)
      /\ stop_due c = false)
  /\ (isRecording c = false ->
      mediaRecorder c = None \/ mediaRecorder c = Some inactive).

(** ** The platform stopping the recorder on its own *)

(** When every track of the stream ends (the microphone is unplugged, or
    its permission withdrawn), the platform makes an active recorder
    inactive and delivers the gathered data and a [stop] event, as it does
    after [stop()]; no handler of the component runs at that moment. *)
Definition tracks_end : Handler unit :=
  r <- gets mediaRecorder ;;
  match r with
  | Some recording | Some paused =>
      mime <- gets mimeType ;;
      set_recorder (Some inactive) mime true
  | _ => ret tt
  end.

(** The component after the platform stopped the recorder and delivered
    the [stop] event. *)
Definition stopped_by_platform (c : Component) : Component :=
  snd (onstop (snd (tracks_end c))).

Definition only_mp3 : Support := mkSupport false true true.

Definition chrome : Support := mkSupport false false true.

Definition chunk (bytes : list N) : Blob := mkBlob bytes (lit "audio/webm;codecs=opus").

(** Replaying events from a state, as long as each is enabled. *)
Fixpoint replay (c : Component) (tr : list Event) : option Component :=
  match tr with
  | [] => Some c
  | e :: r => if enabled e c then replay (snd (handle e c)) r else None
  end.

(** A session: two chunks around a pause, an empty chunk, a stop and the
    last chunk. *)
Definition session : list Event :=
  [ClickStart (Granted chrome); DataAvailable (chunk [1; 2]%N); ClickPause;
   ClickResume; DataAvailable (chunk []); DataAvailable (chunk [3]%N);
   ClickStop; DataAvailable (chunk [4]%N)].

Definition after_session : Component :=
  Eval vm_compute in
    match replay initial session with Some c => c | None => initial end.

End Capture.

(* ================================================================== *)
(** * JavaScript values read from JSON *)
(* ================================================================== *)

Module JsValues.
Import Js.

(** A member or variable holding a JSON value; [None] is [undefined]. *)
Definition Value : Type := option Json.

(** [!!v] *)
Definition truthy_value (v : Value) : bool :=
  match v with
  | None => false
  | Some JNull => false
  | Some (JBool b) => b
  | Some (JNum n) => negb (n =? 0)%Z
  | Some (JStr s) => truthy s
  | Some (JArr _) => true
  | Some (JObj _) => true
  end.

(** The property [k] of an object given by the members of its JSON text,
    in order: where the text repeats a name, [JSON.parse] keeps the last
    value. *)
Definition own_property (k : jsstring) (fields : list (jsstring * Json)) : Value :=
  get_field k (rev fields).

(** The message of the [TypeError] a member access on [undefined] or
    [null] throws. *)
Definition cannot_read (v : Value) (k : jsstring) : jsstring :=
  lit "Cannot read properties of "
  ++ match v with None => lit "undefined" | Some _ => lit "null" end
  ++ lit " (reading '" ++ k ++ lit "')".

(** [v.k] for a name [k] that no prototype defines: it throws on
    [undefined] and [null], reads the own property of an object, and is
    [undefined] on a string, a number, a boolean or an array. *)
Definition member (k : jsstring) (v : Value) : Value + jsstring :=
  match v with
  | None => inr (cannot_read v k)
  | Some JNull => inr (cannot_read v k)
  | Some (JObj fields) => inl (own_property k fields)
  | Some _ => inl None
  end.

(** The message of the [TypeError] of [const { k } = null]. *)
Definition cannot_destructure (k : jsstring) : jsstring :=
  lit "Cannot destructure property '" ++ k
  ++ lit "' of '(intermediate value)' as it is null.".

(** [const { k } = j] for a JSON value [j]. *)
Definition destructure (k : jsstring) (j : Json) : Value + jsstring :=
  match j with
  | JNull => inr (cannot_destructure k)
  | _ => member k (Some j)
  end.

(** [v[0]]: the first element of an array, the first code unit of a string,
    the property ["0"] of an object. *)
Definition first (v : Value) : Value + jsstring :=
  match v with
  | None => inr (cannot_read v (lit "0"))
  | Some JNull => inr (cannot_read v (lit "0"))
  | Some (JArr items) => inl (hd_error items)
  | Some (JStr s) => inl (match s with c :: _ => Some (JStr [c]) | [] => None end)
  | Some (JObj fields) => inl (own_property (lit "0") fields)
  | Some _ => inl None
  end.

Section Coercions.

(** [Number.prototype.toString] *)
Variable Number_toString : Z -> jsstring.

(** [String(j)]: an array prints its elements separated by commas, [null]
    elements as nothing; an object prints as [[object Object]]. *)
Fixpoint ToString (j : Json) : jsstring :=
  match j with
  | JNull => lit "null"
  | JBool true => lit "true"
  | JBool false => lit "false"
  | JNum n => Number_toString n
  | JStr s => s
  | JArr items =>
      (fix join (l : list Json) : jsstring :=
         match l with
         | [] => []
         | x :: r =>
             (match x with JNull => [] | _ => ToString x end)
             ++ match r with [] => [] | _ :: _ => lit "," ++ join r end
         end) items
  | JObj _ => lit "[object Object]"
  end.

Definition ToString_value (v : Value) : jsstring :=
  match v with
  | None => lit "undefined"
  | Some j => ToString j
  end.

End Coercions.

End JsValues.

(* ================================================================== *)
(** * The OpenAI-backed note function: the whole request *)
(* ================================================================== *)

Module OpenAIServe.
Import Js JsValues SoapNote.

(** What [await req.json()] gives: it rejects, or it is a JSON value. *)
Inductive RequestJson : Type :=
| BadJson (msg : jsstring)
| Body (j : Json).

(** The call to the vendor: [fetch] rejects, or an answer comes with [ok],
    its text, and what [response.json()] makes of it ([None]: it
    rejects). *)
Inductive OpenAI : Type :=
| Unreachable (msg : jsstring)
| Completed (ok : bool) (errorText : jsstring) (result : option Json).

(** The answer of the function: [new Response('ok')] to a preflight, a
    JSON body otherwise. *)
Inductive Served : Type :=
| Preflight
| Answered (r : Response).


Definition not_json : jsstring := lit "Unexpected token in JSON".

(** [result.choices[0].message.content]; [inr] is the [TypeError] of the
    first access that fails. *)
Definition content_of (result : Json) : Value + jsstring :=
  match member (lit "choices") (Some result) with
  | inr e => inr e
  | inl choices =>
      match first choices with
      | inr e => inr e
      | inl choice =>
          match member (lit "message") choice with
          | inr e => inr e
          | inl message => member (lit "content") message
          end
      end
  end.

(** The object of the [catch] block; [JSON.stringify] leaves out a member
    whose value is [undefined]. *)
Definition fallback_note (content : Value) : Json :=
  JObj (match content with
        | Some j => [(lit "subjective", j)]
        | None => []
        end
        ++ [ (lit "objective", JStr (lit "Unable to parse structured data"));
             (lit "assessment", JStr (lit "Unable to parse structured data"));
             (lit "plan", JStr (lit "Unable to parse structured data"));
             (lit "extracted_entities", JObj []) ]).

Section Platform.

Variable JSON_parse : jsstring -> Json + jsstring.
Variable Number_toString : Z -> jsstring.

(** The inner [try]/[catch]: [JSON.parse] converts its argument to a
    string; the [catch] block reads the content again, and what it throws
    goes to the outer [catch]. *)
Definition parse_or_fallback (result : Json) : Response + jsstring :=
  match content_of result with
  | inl content =>
      match JSON_parse (ToString_value Number_toString content) with
      | inl soapNote => inl (mkResponse 200 soapNote)
      | inr _ => inl (mkResponse 200 (fallback_note content))
      end
  | inr _ =>
      match content_of result with
      | inl content => inl (mkResponse 200 (fallback_note content))
      | inr typeError => inr typeError
      end
  end.

(** [serve]: the preflight, then the [try] block with its [catch]. *)
Definition serve (method : jsstring) (json : RequestJson) (vendor : OpenAI)
    : Served :=
  if jsstring_eqb method (lit "OPTIONS") then Preflight
  else
    let r : Response + jsstring :=
      match json with
      | BadJson msg => inr msg
      | Body j =>
          match destructure (lit "transcript") j with
          | inr typeError => inr typeError
          | inl transcript =>
              if negb (truthy_value transcript)
              then inr (lit "No transcript provided")
              else
                match vendor with
                | Unreachable msg => inr msg
                | Completed ok errorText result =>
                    if negb ok then inr (lit "OpenAI API error: " ++ errorText)
                    else
                      match result with
                      | None => inr not_json
                      | Some result => parse_or_fallback result
                      end
                end
          end
      end in
    Answered (match r with
              | inl resp => resp
              | inr msg => error_response msg
              end).

End Platform.

(** ** Observations and example states *)

(** The typed vendor answers of [SoapNote] as JSON values. *)
Definition choice_json (c : Choice) : Json :=
  JObj [(lit "message", JObj [(lit "content", content_value (content c))])].

Definition result_json (r : ChatCompletion) : Json :=
  JObj [(lit "choices", JArr (map choice_json (choices r)))].

Definition vendor_json (v : SoapNote.OpenAI) : OpenAI :=
  match v with
  | OpenAIRejected msg => Unreachable msg
  | OpenAIAnswered ok errorText result =>
      Completed ok errorText (Some (result_json result))
  end.

Definition request_json (transcript : jsstring) : RequestJson :=
  Body (JObj [(lit "transcript", JStr transcript)]).

(** Number printing for the closed examples, which print no number. *)
Definition no_numbers (n : Z) : jsstring := lit "0".


End OpenAIServe.

(* ================================================================== *)
(** * transcribe-assemblyai and transcribe-audio: the whole request *)
(* ================================================================== *)

Module TranscribeServe.
Import Js JsValues Transcribe Base64.

(** What [await req.json()] gives: it rejects, or it is a JSON value. *)
Inductive RequestJson : Type :=
| BadJson (msg : jsstring)
| Body (j : Json).

(** One [fetch] and the reading of its body: the request fails, or an
    answer comes with [ok], its text, and what [json()] makes of it
    ([None]: it rejects). *)
Inductive Http : Type :=
| HttpRejected (msg : jsstring)
| HttpAnswered (ok : bool) (body_text : jsstring) (json : option Json).

(** The vendor: its answer to an upload of bytes, to a job creation for an
    audio URL, and to the successive status requests. *)
Record AssemblyAI : Type := mkAssemblyAI {
  upload : list N -> Http;
  create_job : Value -> Http;
  job_status : Vendor
}.

(** The requests sent to the vendor. *)
Record Calls : Type := mkCalls {
  uploaded : list (list N);
  jobs : list Value;
  status_requests : nat
}.

Definition no_calls : Calls := mkCalls [] [] 0.

Inductive Served : Type :=
| Preflight
| Answered (r : Response).

Definition failure (msg : jsstring) : Served := Answered (mkResponse 500 (BodyError msg)).

(** [!v] for the environment variable, a string or [undefined]. *)
Definition present (v : option jsstring) : bool :=
  match v with Some s => truthy s | None => false end.

(** The messages of the exceptions of [atob], of [json()] and of a call
    of a member that is no function. *)
Definition invalid_character : jsstring := lit "Failed to decode base64".

Definition not_json : jsstring := lit "Unexpected token in JSON".

Definition not_a_function : jsstring := lit "base64String.slice is not a function".

Section Platform.

(** [Number.prototype.toString], and [0 < Number(s)] for a string [s]. *)
Variable Number_toString : Z -> jsstring.
Variable positive_number : jsstring -> bool.

(** Upload, job creation and poll, common to both functions up to the
    attempt cap. *)
Definition send (maxAttempts : nat) (bytes : list N) (ai : AssemblyAI)
    : option (Served * Calls) :=
  match upload ai bytes with
  | HttpRejected msg => Some (failure msg, mkCalls [bytes] [] 0)
  | HttpAnswered ok err json =>
      if negb ok then
        Some (failure (lit "AssemblyAI upload error: " ++ err), mkCalls [bytes] [] 0)
      else
        match json with
        | None => Some (failure not_json, mkCalls [bytes] [] 0)
        | Some j =>
            match destructure (lit "upload_url") j with
            | inr typeError => Some (failure typeError, mkCalls [bytes] [] 0)
            | inl upload_url =>
                match create_job ai upload_url with
                | HttpRejected msg =>
                    Some (failure msg, mkCalls [bytes] [upload_url] 0)
                | HttpAnswered ok2 err2 json2 =>
                    if negb ok2 then
                      Some (failure (lit "AssemblyAI transcription error: " ++ err2),
                            mkCalls [bytes] [upload_url] 0)
                    else
                      match json2 with
                      | None =>
                          Some (failure not_json, mkCalls [bytes] [upload_url] 0)
                      | Some j2 =>
                          match destructure (lit "id") j2 with
                          | inr typeError =>
                              Some (failure typeError, mkCalls [bytes] [upload_url] 0)
                          | inl _ =>
                              match poll maxAttempts (job_status ai) with
                              | Some (r, st) =>
                                  Some (Answered (answer r),
                                        mkCalls [bytes] [upload_url] (requests st))
                              | None => None
                              end
                          end
                      end
                end
            end
        end
  end.

(** [transcribe-assemblyai/index.ts]: the audio is checked, then the key,
    then the audio is decoded with one [atob], which converts its argument
    to a string. *)
Definition serve_assemblyai (method : jsstring) (json : RequestJson)
    (ASSEMBLYAI_API_KEY : option jsstring) (ai : AssemblyAI)
    : option (Served * Calls) :=
  if jsstring_eqb method (lit "OPTIONS") then Some (Preflight, no_calls)
  else
    match json with
    | BadJson msg => Some (failure msg, no_calls)
    | Body j =>
        match destructure (lit "audioBase64") j with
        | inr typeError => Some (failure typeError, no_calls)
        | inl audioBase64 =>
            if negb (truthy_value audioBase64) then
              Some (failure (lit "audioBase64 is required"), no_calls)
            else if negb (present ASSEMBLYAI_API_KEY) then
              Some (failure (lit "ASSEMBLYAI_API_KEY is not set"), no_calls)
            else
              match atob (ToString_value Number_toString audioBase64) with
              | None => Some (failure invalid_character, no_calls)
              | Some audioBytes => send 30 audioBytes ai
              end
        end
    end.

(** [0 < v], the test of the loop of [processBase64Chunks] at position 0
    for a [length] that is the JSON value [v]: the value is converted to a
    number ([undefined] and an object to [NaN], [null] to 0). *)
Definition zero_less_than (v : Value) : bool :=
  match v with
  | None => false
  | Some JNull => false
  | Some (JBool b) => b
  | Some (JNum n) => (0 <? n)%Z
  | Some (JStr s) => positive_number s
  | Some (JArr items) => positive_number (ToString Number_toString (JArr items))
  | Some (JObj _) => false
  end.

(** The loop of [processBase64Chunks] on an array: [slice] gives an array,
    which [atob] converts to a string. *)
Fixpoint items_loop (fuel : nat) (items : list Json) (chunkSize position : nat)
    : option (option (list N)) :=
  match fuel with
  | O => None
  | S fuel' =>
      if Nat.ltb position (List.length items) then
        let chunk := firstn chunkSize (skipn position items) in
        match atob (ToString Number_toString (JArr chunk)) with
        | None => Some None
        | Some bytes =>
            match items_loop fuel' items chunkSize (position + chunkSize) with
            | Some (Some more) => Some (Some (bytes ++ more))
            | other => other
            end
        end
      else Some (Some [])
  end.

(** [processBase64Chunks(audio)] for the JSON value the request carries.
    The parameter is declared a string, but nothing checks it: a number
    and a boolean have no [length], so the loop is skipped and the result
    is empty; an array is sliced by elements; an object is asked for its
    [length] member and then for a [slice] method it cannot have.
    [None] is fuel exhausted, [inr] the message of an exception. *)
Definition thrown_by_atob (r : option (option (list N)))
    : option (list N + jsstring) :=
  match r with
  | None => None
  | Some None => Some (inr invalid_character)
  | Some (Some bytes) => Some (inl bytes)
  end.

Definition decode_audio (audio : Value) : option (list N + jsstring) :=
  match audio with
  | Some (JStr s) => thrown_by_atob (processBase64Chunks s default_chunkSize)
  | Some (JArr items) =>
      thrown_by_atob
        (items_loop (S (List.length items)) items default_chunkSize 0)
  | Some (JObj fields) =>
      if zero_less_than (own_property (lit "length") fields)
      then Some (inr not_a_function)
      else Some (inl [])
  | Some (JBool _) => Some (inl [])
  | Some (JNum _) => Some (inl [])
  | Some JNull => Some (inr (cannot_read audio (lit "length")))
  | None => Some (inr (cannot_read audio (lit "length")))
  end.

(** [transcribe-audio/index.ts]: the audio is checked and decoded in
    chunks, and only then the key is looked up. *)
Definition serve_audio (method : jsstring) (json : RequestJson)
    (ASSEMBLYAI_API_KEY : option jsstring) (ai : AssemblyAI)
    : option (Served * Calls) :=
  if jsstring_eqb method (lit "OPTIONS") then Some (Preflight, no_calls)
  else
    match json with
    | BadJson msg => Some (failure msg, no_calls)
    | Body j =>
        match destructure (lit "audio") j with
        | inr typeError => Some (failure typeError, no_calls)
        | inl audio =>
            if negb (truthy_value audio) then
              Some (failure (lit "No audio data provided"), no_calls)
            else
              match decode_audio audio with
              | None => None
              | Some (inr msg) => Some (failure msg, no_calls)
              | Some (inl binaryAudio) =>
                  if negb (present ASSEMBLYAI_API_KEY) then
                    Some (failure (lit "ASSEMBLYAI_API_KEY is not set"), no_calls)
                  else send 60 binaryAudio ai
              end
        end
    end.

End Platform.

(** ** Observations and example states *)

Definition contacted (c : Calls) : bool :=
  match uploaded c, jobs c, status_requests c with
  | [], [], O => false
  | _, _, _ => true
  end.

(** A vendor that accepts everything and finishes on the third status
    request. *)
Definition helpful : AssemblyAI :=
  mkAssemblyAI
    (fun _ => HttpAnswered true []
                (Some (JObj [(lit "upload_url",
                              JStr (lit "https://cdn.assemblyai.com/upload/1"))])))
    (fun _ => HttpAnswered true [] (Some (JObj [(lit "id", JStr (lit "job-1"))])))
    PollVerdict.third_time.

(** The base64 text of the bytes of "Man" followed by those of "Ma". *)
Definition man_ma : jsstring := lit "TWFuTWE=".

(** Number printing and number reading for the closed examples, which
    hold no number. *)
Definition no_numbers (n : Z) : jsstring := lit "0".

Definition never_positive (s : jsstring) : bool := false.

End TranscribeServe.

(* ================================================================== *)
(** * Facts about strings *)
(* ================================================================== *)

Unset Implicit Arguments.

Module JsFacts.
Import Js.

Lemma trimStart_nil_iff (s : jsstring) : trimStart s = [] <-> blank s = true.
Proof.
  induction s as [|c r IH]; simpl.
  - tauto.
  - destruct (is_white_space c); simpl.
    + exact IH.
    + split; discriminate.
Qed.

Lemma blank_rev (s : jsstring) : blank (rev s) = blank s.
Proof.
  unfold blank. induction s as [|c r IH]; simpl; [reflexivity|].
  rewrite forallb_app, IH. simpl. rewrite andb_true_r. apply andb_comm.
Qed.

Lemma trimStart_blank_head (s : jsstring) :
  blank s = false -> blank (trimStart s) = false.
Proof.
  induction s as [|c r IH]; simpl; [discriminate|].
  destruct (is_white_space c) eqn:E; simpl.
  - exact IH.
  - intros _. rewrite E. reflexivity.
Qed.

(** [s.trim().length === 0] holds exactly for the blank strings. *)
Lemma trim_length_zero (s : jsstring) :
  Nat.eqb (List.length (trim s)) 0 = blank s.
Proof.
  unfold trim, trimEnd. rewrite length_rev.
  destruct (blank s) eqn:B.
  - apply trimStart_nil_iff in B. rewrite B. reflexivity.
  - apply trimStart_blank_head in B.
    rewrite <- blank_rev in B.
    destruct (trimStart (rev (trimStart s))) eqn:T.
    + apply trimStart_nil_iff in T. congruence.
    + reflexivity.
Qed.

Lemma truthy_false_blank (s : jsstring) : truthy s = false -> blank s = true.
Proof. destruct s; [reflexivity | discriminate]. Qed.

Lemma truthy_blank_false (s : jsstring) : blank s = false -> truthy s = true.
Proof. destruct s; [discriminate | reflexivity]. Qed.

(** The test of both components,
    [!transcript || transcript.trim().length === 0]. *)
Lemma no_transcript_test (s : jsstring) :
  negb (truthy s) || Nat.eqb (List.length (trim s)) 0 = blank s.
Proof.
  rewrite trim_length_zero.
  destruct (blank s) eqn:B.
  - apply orb_true_r.
  - rewrite (truthy_blank_false _ B). reflexivity.
Qed.

Lemma or_else_truthy (a b : jsstring) : truthy a = true -> or_else a b = a.
Proof. unfold or_else. intros ->. reflexivity. Qed.

End JsFacts.

(* ================================================================== *)
(** * Facts about the gateway *)
(* ================================================================== *)

Module GatewayFacts.
Import Js Gateway.

Lemma find_fresh_note (d : Db) (i : Uuid) :
  fresh_note_id d i = true ->
  find (fun r => (note_id r =? i)%N) (medical_notes d) = None.
Proof.
  unfold fresh_note_id. intros H. apply negb_true_iff in H.
  induction (medical_notes d) as [|r rows IH]; simpl in *; [reflexivity|].
  apply orb_false_iff in H. destruct H as [H1 H2].
  rewrite H1. exact (IH H2).
Qed.

(** An upsert by the consultation's doctor with an unused default key is
    an insert: the row is appended, the others are kept. *)
Lemma upsert_accepted (auth : option Uuid) (uuid : Uuid)
    (row : MedicalNoteUpsert) (d : Db) :
  doctor_of d auth (up_consultation_id row) = true ->
  fresh_note_id d uuid = true ->
  upsert_medical_note auth uuid row d =
  (inl (note_of_upsert uuid row),
   mkDb (profiles d) (consultations d)
        (medical_notes d ++ [note_of_upsert uuid row])).
Proof.
  intros Hdoc Hfresh. unfold upsert_medical_note.
  rewrite Hdoc, (find_fresh_note _ _ Hfresh). reflexivity.
Qed.

(** A rejected upsert leaves the database as it was. *)
Lemma upsert_rejected (auth : option Uuid) (uuid : Uuid)
    (row : MedicalNoteUpsert) (d d' : Db) (e : DBError) :
  upsert_medical_note auth uuid row d = (inr e, d') -> d' = d.
Proof.
  unfold upsert_medical_note.
  destruct (doctor_of d auth (up_consultation_id row)); simpl.
  - destruct (find _ _) as [old|].
    + destruct (doctor_of d auth (consultation_id old)); simpl; congruence.
    + congruence.
  - congruence.
Qed.

(** Whatever an upsert does, a row that is reviewed afterwards is a row
    that was there before, unless the written row itself says reviewed. *)
Lemma upsert_reviewed_rows (auth : option Uuid) (uuid : Uuid)
    (row : MedicalNoteUpsert) (d : Db) (r : MedicalNote) :
  up_is_reviewed row = false ->
  In r (medical_notes (snd (upsert_medical_note auth uuid row d))) ->
  is_reviewed r = Some true ->
  In r (medical_notes d).
Proof.
  intros Hrow Hin Hrev. unfold upsert_medical_note in Hin.
  assert (Hn : is_reviewed (note_of_upsert uuid row) = Some false)
    by (simpl; rewrite Hrow; reflexivity).
  destruct (doctor_of d auth (up_consultation_id row)); simpl in Hin; [|exact Hin].
  destruct (find _ _) as [old|].
  - destruct (doctor_of d auth (consultation_id old)); simpl in Hin; [|exact Hin].
    unfold replace_note in Hin. apply in_map_iff in Hin.
    destruct Hin as [r0 [Hr0 Hin0]].
    destruct (note_id r0 =? uuid)%N.
    + subst r. congruence.
    + subst r. exact Hin0.
  - simpl in Hin. apply in_app_or in Hin. destruct Hin as [Hin|[Hin|[]]].
    + exact Hin.
    + subst r. congruence.
Qed.

(** The notes of a consultation after one more row for it. *)
Lemma notes_of_app (d : Db) (cid : Uuid) (n : MedicalNote) :
  consultation_id n = cid ->
  notes_of (mkDb (profiles d) (consultations d) (medical_notes d ++ [n])) cid
  = notes_of d cid ++ [n].
Proof.
  intros H. unfold notes_of. simpl. rewrite filter_app. simpl.
  rewrite H, N.eqb_refl. reflexivity.
Qed.

Lemma doctor_of_notes_irrelevant (d : Db) (rows : list MedicalNote)
    (auth : option Uuid) (cid : Uuid) :
  doctor_of (mkDb (profiles d) (consultations d) rows) auth cid
  = doctor_of d auth cid.
Proof. reflexivity. Qed.

End GatewayFacts.

(* ================================================================== *)
(** * ConsultationPage: transcript arrival and manual save *)
(* ================================================================== *)

Module ConsultationPageFacts.
Import Js Gateway Eff Ui ConsultationPage JsFacts GatewayFacts.

Ltac run_handler :=
  cbv beta iota zeta delta
    [handleTranscriptionComplete handleTranscriptionComplete_body handleSaveNote
     bind ret throw modify gets try_catch try_finally
     setIsProcessing setMedicalNote setActiveTab toast download
     supabase_upsert_note supabase_update_note with_db
     db auth route_id consultation medicalNote isProcessing activeTab
     toasts downloads fst snd].

(** One call, as a function of what the database answers. *)
Lemma handleTranscriptionComplete_run (uuid : Uuid) (transcript : jsstring)
    (audioBlob : Blob) (w : World) :
  handleTranscriptionComplete uuid transcript audioBlob w =
  match upsert_medical_note (auth w) uuid (row_for (route_id w) transcript) (db w) with
  | (inl data, d) =>
      (Normal tt,
       mkWorld d (auth w) (route_id w) (consultation w) (Some data) false notes
         (toasts w ++ [if blank transcript then note_created else transcript_saved])
         (if blank transcript then downloads w
          else downloads w
               ++ [mkDownload (transcript_filename (consultation w))
                     (or_else transcript empty)]))
  | (inr _, d) =>
      (Normal tt,
       mkWorld d (auth w) (route_id w) (consultation w) (medicalNote w) false
         (activeTab w) (toasts w ++ [processing_error]) (downloads w))
  end.
Proof.
  unfold row_for. run_handler.
  rewrite (no_transcript_test transcript).
  destruct (blank transcript);
    destruct (upsert_medical_note _ _ _ _) as [[data|e] d]; reflexivity.
Qed.

(** The handler has a [catch] for everything: it never throws. *)
Lemma handleTranscriptionComplete_returns (uuid : Uuid) (transcript : jsstring)
    (audioBlob : Blob) (w : World) :
  fst (handleTranscriptionComplete uuid transcript audioBlob w) = Normal tt.
Proof.
  rewrite handleTranscriptionComplete_run.
  destruct (upsert_medical_note _ _ _ _) as [[data|e] d]; reflexivity.
Qed.

(** When the write is accepted the call stores exactly the row it built. *)
Lemma handleTranscriptionComplete_stores (uuid : Uuid) (transcript : jsstring)
    (audioBlob : Blob) (w : World) :
  doctor_of (db w) (auth w) (route_id w) = true ->
  fresh_note_id (db w) uuid = true ->
  let n := note_of_upsert uuid (row_for (route_id w) transcript) in
  let w' := snd (handleTranscriptionComplete uuid transcript audioBlob w) in
  medical_notes (db w') = medical_notes (db w) ++ [n]
  /\ consultations (db w') = consultations (db w)
  /\ medicalNote w' = Some n
  /\ auth w' = auth w /\ route_id w' = route_id w.
Proof.
  intros Hdoc Hfresh n w'. subst w'.
  rewrite handleTranscriptionComplete_run.
  rewrite upsert_accepted.
  - simpl. repeat split; reflexivity.
  - unfold row_for. destruct (blank transcript); exact Hdoc.
  - exact Hfresh.
Qed.

Lemma placeholderText_not_blank : blank placeholderText = false.
Proof. vm_compute. reflexivity. Qed.

Lemma failed_text_not_blank : blank (lit "Transcription failed") = false.
Proof. vm_compute. reflexivity. Qed.

Lemma not_blank_differs (a b : jsstring) :
  blank a = false -> blank b = true -> Some a <> Some b.
Proof. intros Ha Hb E. injection E as ->. congruence. Qed.

(** Every accepted transcript write adds a row to the notes of the
    consultation and keeps the rows that were there. *)
Lemma transcribed_notes_of (uuid : Uuid) (transcript : jsstring)
    (audioBlob : Blob) (w : World) :
  doctor_of (db w) (auth w) (route_id w) = true ->
  fresh_note_id (db w) uuid = true ->
  notes_of (db (transcribed uuid transcript audioBlob w)) (route_id w)
  = notes_of (db w) (route_id w)
    ++ [note_of_upsert uuid (row_for (route_id w) transcript)].
Proof.
  intros Hdoc Hfresh. unfold transcribed.
  rewrite handleTranscriptionComplete_run, upsert_accepted; try assumption.
  - simpl. apply notes_of_app. unfold row_for.
    destruct (blank transcript); reflexivity.
  - unfold row_for. destruct (blank transcript); exact Hdoc.
Qed.

(** C1 (the code departs from it). Two transcript arrivals on the same
    consultation: the second [upsert] does not overwrite the row of the
    first.  Its conflict target is the primary key [id], which the written
    row does not carry, so each call inserts under a new key, and the
    consultation ends with two note rows. *)
Theorem second_transcription_adds_a_second_note :
  exists n1 n2,
    notes_of (db (transcribed 101%N headache blob0
                    (transcribed 100%N headache blob0 page0))) 1%N
    = [n1; n2]
    /\ note_id n1 = 100%N /\ note_id n2 = 101%N
    /\ consultation_id n1 = 1%N /\ consultation_id n2 = 1%N.
Proof.
  eexists. eexists. vm_compute. repeat split; reflexivity.
Qed.

(** C3. With the empty string as transcript the call never throws, for
    every blob and every state; and when the database accepts the write
    (the signed-in user is the doctor of the consultation on the page and
    the key drawn for the row is unused), the stored note has
    [raw_transcript = "Transcription failed"] and the fixed placeholder as
    [subjective]. *)
Theorem empty_transcript_stores_placeholder (audioBlob : Blob) (uuid : Uuid)
    (w : World) :
  fst (handleTranscriptionComplete uuid empty audioBlob w) = Normal tt
  /\ (doctor_of (db w) (auth w) (route_id w) = true ->
      fresh_note_id (db w) uuid = true ->
      exists n,
        medical_notes (db (transcribed uuid empty audioBlob w))
        = medical_notes (db w) ++ [n]
        /\ medicalNote (transcribed uuid empty audioBlob w) = Some n
        /\ consultation_id n = route_id w
        /\ raw_transcript n = Some (lit "Transcription failed")
        /\ subjective n = Some placeholderText).
Proof.
  split.
  - apply handleTranscriptionComplete_returns.
  - intros Hdoc Hfresh.
    destruct (handleTranscriptionComplete_stores uuid empty audioBlob w Hdoc Hfresh)
      as (Hrows & _ & Hnote & _).
    eexists. split; [exact Hrows|]. split; [exact Hnote|].
    repeat split; reflexivity.
Qed.

Lemma empty_transcript_stores_placeholder_witness :
  doctor_of (db page0) (auth page0) (route_id page0) = true
  /\ fresh_note_id (db page0) 100%N = true
  /\ exists n,
       medical_notes (db (transcribed 100%N empty blob0 page0))
       = medical_notes (db page0) ++ [n]
       /\ medicalNote (transcribed 100%N empty blob0 page0) = Some n
       /\ consultation_id n = route_id page0
       /\ raw_transcript n = Some (lit "Transcription failed")
       /\ subjective n = Some placeholderText.
Proof.
  split; [reflexivity|]. split; [reflexivity|].
  exact (proj2 (empty_transcript_stores_placeholder blob0 100%N page0)
           eq_refl eq_refl).
Defined.

(** C4, as stated, fails: a transcript of one space is not empty, and the
    note stored for it holds the placeholder, not the input. *)
Lemma nonempty_transcript_not_always_verbatim :
  lit " " <> []
  /\ doctor_of (db page0) (auth page0) (route_id page0) = true
  /\ fresh_note_id (db page0) 100%N = true
  /\ exists n,
       medical_notes (db (transcribed 100%N (lit " ") blob0 page0)) = [n]
       /\ medicalNote (transcribed 100%N (lit " ") blob0 page0) = Some n
       /\ subjective n = Some placeholderText
       /\ subjective n <> Some (lit " ")
       /\ raw_transcript n <> Some (lit " ").
Proof.
  split; [discriminate|]. split; [reflexivity|]. split; [reflexivity|].
  eexists. split; [vm_compute; reflexivity|]. split; [reflexivity|].
  split; [reflexivity|]. split; vm_compute; discriminate.
Qed.

(** C4, amended. For every transcript with at least one character that is
    not white space and that a [text] column can hold (no U+0000, no
    unpaired surrogate), when the database accepts the write (the signed-in
    user is the doctor of the consultation on the page and the key drawn
    for the row is unused): the row written is one the table can hold, and
    the call stores a note whose [subjective] and [raw_transcript] are both
    the input, unchanged, and hands the same text to the browser as a
    download. *)
Theorem spoken_transcript_stored_verbatim (uuid : Uuid) (transcript : jsstring)
    (audioBlob : Blob) (w : World) :
  blank transcript = false ->
  GatewayText.storable transcript = true ->
  doctor_of (db w) (auth w) (route_id w) = true ->
  fresh_note_id (db w) uuid = true ->
  GatewayText.row_storable (row_for (route_id w) transcript) = true
  /\ exists n,
       medical_notes (db (transcribed uuid transcript audioBlob w))
       = medical_notes (db w) ++ [n]
       /\ medicalNote (transcribed uuid transcript audioBlob w) = Some n
       /\ consultation_id n = route_id w
       /\ subjective n = Some transcript
       /\ raw_transcript n = Some transcript
       /\ downloads (transcribed uuid transcript audioBlob w)
          = downloads w
            ++ [mkDownload (transcript_filename (consultation w)) transcript].
Proof.
  intros Hblank Hst Hdoc Hfresh.
  destruct (handleTranscriptionComplete_stores uuid transcript audioBlob w Hdoc Hfresh)
    as (Hrows & _ & Hnote & _).
  assert (Hor : or_else transcript empty = transcript)
    by (apply or_else_truthy, truthy_blank_false, Hblank).
  split.
  { unfold GatewayText.row_storable, row_for. rewrite Hblank. simpl.
    rewrite Hor, Hst. reflexivity. }
  eexists. split; [exact Hrows|]. split; [exact Hnote|].
  unfold row_for. rewrite Hblank. simpl.
  rewrite Hor. repeat split.
  unfold transcribed. rewrite handleTranscriptionComplete_run.
  rewrite upsert_accepted; try assumption.
  - simpl. rewrite Hblank, Hor. reflexivity.
  - unfold row_for. rewrite Hblank. exact Hdoc.
Qed.

Lemma spoken_transcript_stored_verbatim_witness :
  blank headache = false
  /\ GatewayText.storable headache = true
  /\ doctor_of (db page0) (auth page0) (route_id page0) = true
  /\ fresh_note_id (db page0) 100%N = true
  /\ exists n,
       medical_notes (db (transcribed 100%N headache blob0 page0))
       = medical_notes (db page0) ++ [n]
       /\ medicalNote (transcribed 100%N headache blob0 page0) = Some n
       /\ consultation_id n = route_id page0
       /\ subjective n = Some headache
       /\ raw_transcript n = Some headache
       /\ downloads (transcribed 100%N headache blob0 page0)
          = downloads page0
            ++ [mkDownload (transcript_filename (consultation page0)) headache].
Proof.
  split; [reflexivity|]. split; [reflexivity|]. split; [reflexivity|].
  split; [reflexivity|].
  exact (proj2 (spoken_transcript_stored_verbatim 100%N headache blob0 page0
                  eq_refl eq_refl eq_refl eq_refl)).
Defined.

(** C10. A transcript made of white space only is handled exactly as the
    empty string is: the whole call is the same.  When the write is
    accepted the stored note has the placeholder as [subjective] and
    ["Transcription failed"] as [raw_transcript]; the white space is in
    neither of them (nor, when there is any, in another column), and no
    download is started. *)
Theorem blank_transcript_handled_as_empty (uuid : Uuid) (transcript : jsstring)
    (audioBlob : Blob) (w : World) :
  blank transcript = true ->
  handleTranscriptionComplete uuid transcript audioBlob w
  = handleTranscriptionComplete uuid empty audioBlob w
  /\ (doctor_of (db w) (auth w) (route_id w) = true ->
      fresh_note_id (db w) uuid = true ->
      exists n,
        medical_notes (db (transcribed uuid transcript audioBlob w))
        = medical_notes (db w) ++ [n]
        /\ medicalNote (transcribed uuid transcript audioBlob w) = Some n
        /\ subjective n = Some placeholderText
        /\ raw_transcript n = Some (lit "Transcription failed")
        /\ subjective n <> Some transcript
        /\ raw_transcript n <> Some transcript
        /\ (transcript <> empty ->
            objective n <> Some transcript
            /\ assessment n <> Some transcript
            /\ plan n <> Some transcript)
        /\ downloads (transcribed uuid transcript audioBlob w) = downloads w).
Proof.
  intros Hblank. split.
  - rewrite !handleTranscriptionComplete_run.
    unfold row_for. rewrite Hblank. reflexivity.
  - intros Hdoc Hfresh.
    destruct (handleTranscriptionComplete_stores uuid transcript audioBlob w Hdoc Hfresh)
      as (Hrows & _ & Hnote & _).
    eexists. split; [exact Hrows|]. split; [exact Hnote|].
    unfold row_for. rewrite Hblank. simpl.
    split; [reflexivity|]. split; [reflexivity|].
    split; [exact (not_blank_differs _ _ placeholderText_not_blank Hblank)|].
    split; [exact (not_blank_differs _ _ failed_text_not_blank Hblank)|].
    split.
    + intros Hne.
      repeat split; intros E; injection E as E; apply Hne; symmetry; exact E.
    + unfold transcribed. rewrite handleTranscriptionComplete_run.
      rewrite upsert_accepted; try assumption.
      * simpl. rewrite Hblank. reflexivity.
      * unfold row_for. rewrite Hblank. exact Hdoc.
Qed.

Lemma blank_transcript_handled_as_empty_witness :
  blank spaces = true
  /\ handleTranscriptionComplete 100%N spaces blob0 page0
     = handleTranscriptionComplete 100%N empty blob0 page0
  /\ doctor_of (db page0) (auth page0) (route_id page0) = true
  /\ fresh_note_id (db page0) 100%N = true
  /\ exists n,
       medical_notes (db (transcribed 100%N spaces blob0 page0))
       = medical_notes (db page0) ++ [n]
       /\ medicalNote (transcribed 100%N spaces blob0 page0) = Some n
       /\ subjective n = Some placeholderText
       /\ raw_transcript n = Some (lit "Transcription failed")
       /\ subjective n <> Some spaces
       /\ raw_transcript n <> Some spaces
       /\ (spaces <> empty ->
           objective n <> Some spaces
           /\ assessment n <> Some spaces
           /\ plan n <> Some spaces)
       /\ downloads (transcribed 100%N spaces blob0 page0) = downloads page0.
Proof.
  split; [reflexivity|].
  split; [exact (proj1 (blank_transcript_handled_as_empty 100%N spaces blob0 page0 eq_refl))|].
  split; [reflexivity|]. split; [reflexivity|].
  exact (proj2 (blank_transcript_handled_as_empty 100%N spaces blob0 page0 eq_refl)
           eq_refl eq_refl).
Defined.

(** C8. The write made on transcript arrival never marks a note reviewed.
    Both rows the handler can write carry [is_reviewed: false]; after any
    call, a row of the table that is reviewed was already in the table
    before the call, and so was a reviewed note in the page state. *)
Theorem transcript_arrival_never_marks_reviewed (uuid : Uuid)
    (transcript : jsstring) (audioBlob : Blob) (w : World) :
  up_is_reviewed (failed_row (route_id w)) = false
  /\ up_is_reviewed (transcript_row (route_id w) transcript) = false
  /\ (forall r,
        In r (medical_notes (db (transcribed uuid transcript audioBlob w))) ->
        is_reviewed r = Some true ->
        In r (medical_notes (db w)))
  /\ (forall n,
        medicalNote (transcribed uuid transcript audioBlob w) = Some n ->
        is_reviewed n = Some true ->
        medicalNote w = Some n).
Proof.
  assert (Hrow : up_is_reviewed (row_for (route_id w) transcript) = false)
    by (unfold row_for; destruct (blank transcript); reflexivity).
  split; [reflexivity|]. split; [reflexivity|].
  unfold transcribed. rewrite handleTranscriptionComplete_run.
  pose proof (upsert_reviewed_rows (auth w) uuid
                (row_for (route_id w) transcript) (db w)) as Hrows.
  specialize (fun r => Hrows r Hrow).
  destruct (upsert_medical_note (auth w) uuid (row_for (route_id w) transcript) (db w))
    as [[data|e] d] eqn:Hup; simpl in *.
  - split; [exact Hrows|].
    intros n Hn Hrev. exfalso.
    injection Hn as <-.
    assert (Hdata : is_reviewed data = Some false).
    { unfold upsert_medical_note in Hup.
      destruct (doctor_of _ _ _); simpl in Hup; [|discriminate].
      destruct (find _ _) as [old|].
      - destruct (doctor_of _ _ _); simpl in Hup; [|discriminate].
        injection Hup as <- _. simpl. rewrite Hrow. reflexivity.
      - injection Hup as <- _. simpl. rewrite Hrow. reflexivity. }
    congruence.
  - split; [exact Hrows|]. intros n Hn _. exact Hn.
Qed.

Lemma transcript_arrival_never_marks_reviewed_witness :
  In reviewed_note
     (medical_notes (db (transcribed 100%N headache blob0 page_reviewed)))
  /\ is_reviewed reviewed_note = Some true
  /\ In reviewed_note (medical_notes (db page_reviewed)).
Proof.
  assert (Hin : In reviewed_note
            (medical_notes (db (transcribed 100%N headache blob0 page_reviewed))))
    by (vm_compute; left; reflexivity).
  split; [exact Hin|]. split; [reflexivity|].
  exact (proj1 (proj2 (proj2
           (transcript_arrival_never_marks_reviewed 100%N headache blob0 page_reviewed)))
           reviewed_note Hin eq_refl).
Defined.

Lemma handleSaveNote_run (note : MedicalNote) (w : World) :
  handleSaveNote note w =
  (Normal tt,
   mkWorld
     (mkDb (profiles (db w)) (consultations (db w))
        (map (fun r =>
                if (note_id r =? note_id note)%N
                   && doctor_of (db w) (auth w) (consultation_id r)
                then apply_update (save_patch note) r else r)
             (medical_notes (db w))))
     (auth w) (route_id w) (consultation w)
     (match medicalNote w with
      | Some _ =>
          Some (mkMedicalNote (note_id note) (consultation_id note)
                  (subjective note) (objective note) (assessment note)
                  (plan note) (raw_transcript note)
                  (extracted_entities note) (Some true))
      | None => None
      end)
     (isProcessing w) (activeTab w) (toasts w) (downloads w)).
Proof. reflexivity. Qed.

(** C7. [handleSaveNote], from any state and for any edited note: the
    table keeps its rows in place; every row keeps its [raw_transcript]
    (and its key, consultation and entities); the row with the note's key,
    being a row of the signed-in doctor, gets the four SOAP fields of the
    edited note and [is_reviewed = true]; the other rows are untouched.  The
    note in the page state is replaced by the edited note, marked reviewed
    (its [raw_transcript] is the one the editor passed back). *)
Theorem saveNote_sets_reviewed_keeps_raw_transcript (note : MedicalNote)
    (w : World) :
  fst (handleSaveNote note w) = Normal tt
  /\ List.length (medical_notes (db (saved note w)))
     = List.length (medical_notes (db w))
  /\ (forall k r,
        nth_error (medical_notes (db w)) k = Some r ->
        exists r',
          nth_error (medical_notes (db (saved note w))) k = Some r'
          /\ raw_transcript r' = raw_transcript r
          /\ note_id r' = note_id r
          /\ consultation_id r' = consultation_id r
          /\ extracted_entities r' = extracted_entities r
          /\ (note_id r = note_id note ->
              doctor_of (db w) (auth w) (consultation_id r) = true ->
              is_reviewed r' = Some true
              /\ subjective r' = subjective note
              /\ objective r' = objective note
              /\ assessment r' = assessment note
              /\ plan r' = plan note)
          /\ (note_id r <> note_id note -> r' = r))
  /\ (forall prev,
        medicalNote w = Some prev ->
        exists n, medicalNote (saved note w) = Some n
                  /\ is_reviewed n = Some true
                  /\ raw_transcript n = raw_transcript note).
Proof.
  unfold saved. rewrite handleSaveNote_run. simpl.
  split; [reflexivity|]. split; [apply length_map|]. split.
  - intros k r Hk. rewrite nth_error_map, Hk. simpl.
    eexists. split; [reflexivity|].
    destruct (note_id r =? note_id note)%N eqn:Hid;
      destruct (doctor_of (db w) (auth w) (consultation_id r)) eqn:Hdoc; simpl;
      repeat (split; [reflexivity|]);
      (split; [intros Heq Hd | intros Hne]);
      try reflexivity; try discriminate;
      try (apply N.eqb_eq in Hid; contradiction);
      try (apply N.eqb_neq in Hid; contradiction).
    repeat split; reflexivity.
  - intros prev ->. eexists. repeat split.
Qed.

Lemma saveNote_sets_reviewed_keeps_raw_transcript_witness :
  nth_error (medical_notes (db page_noted)) 0 = Some stored_note
  /\ note_id stored_note = note_id edited_note
  /\ doctor_of (db page_noted) (auth page_noted) (consultation_id stored_note) = true
  /\ is_reviewed stored_note = Some false
  /\ exists r',
       nth_error (medical_notes (db (saved edited_note page_noted))) 0 = Some r'
       /\ raw_transcript r' = raw_transcript stored_note
       /\ is_reviewed r' = Some true
       /\ objective r' = objective edited_note.
Proof.
  assert (H0 : nth_error (medical_notes (db page_noted)) 0 = Some stored_note)
    by reflexivity.
  split; [exact H0|]. split; [reflexivity|]. split; [reflexivity|].
  split; [reflexivity|].
  destruct (proj1 (proj2 (proj2
              (saveNote_sets_reviewed_keeps_raw_transcript edited_note page_noted)))
              0 stored_note H0)
    as (r' & Hnth & Hraw & _ & _ & _ & Hset & _).
  exists r'. split; [exact Hnth|]. split; [exact Hraw|].
  destruct (Hset eq_refl eq_refl) as (Hrev & _ & Hobj & _).
  split; [exact Hrev | exact Hobj].
Defined.

End ConsultationPageFacts.

(* ================================================================== *)
(** * NewConsultationDialog: creating a consultation *)
(* ================================================================== *)

Module NewConsultationDialogFacts.
Import Js Gateway Eff Ui NewConsultationDialog.

(** One submit, as a function of what the database answers. *)
Lemma handleSubmit_run (uuid : Uuid) (w : World) :
  handleSubmit uuid w =
  match insert_consultation (auth w) uuid
          (mkConsultationInsert (patientName w) (or_null (patientId w)) (auth w))
          (db w) with
  | (inl data, d) =>
      (Normal tt,
       mkWorld d (auth w) empty empty false false (S (onSuccess_calls w))
         (navigated w ++ [cons_id data]) (toasts w ++ [started (patientName w)]))
  | (inr _, d) =>
      (Normal tt,
       mkWorld d (auth w) (patientName w) (patientId w) false (dialog_open w)
         (onSuccess_calls w) (navigated w) (toasts w ++ [create_failed]))
  end.
Proof.
  cbv beta iota zeta delta
    [handleSubmit bind ret throw modify gets try_catch try_finally
     setLoading setPatientName setPatientId onOpenChange onSuccess navigate
     toast supabase_insert_consultation
     db auth patientName patientId loading dialog_open onSuccess_calls
     navigated toasts].
  destruct (insert_consultation _ _ _ _) as [[data|e] d]; reflexivity.
Qed.

Lemma unused_key (d : Db) (uuid : Uuid) (c0 : Consultation) :
  fresh_consultation_id d uuid = true ->
  In c0 (consultations d) -> cons_id c0 <> uuid.
Proof.
  unfold fresh_consultation_id. intros H Hin E.
  apply negb_true_iff in H.
  assert (Hex : existsb (fun c => (cons_id c =? uuid)%N) (consultations d) = true).
  { apply existsb_exists. exists c0. split; [exact Hin|]. apply N.eqb_eq, E. }
  congruence.
Qed.

(** C9. For a signed-in practitioner (who has a profile row) and any
    patient name, the non-empty ones in particular: when the key drawn for
    the row is unused, [handleSubmit] appends one consultation whose owner
    is the practitioner, whose status is [in_progress] (the column default)
    and whose key differs from the key of every consultation already there,
    and navigates to it; when the key drawn is in use, the primary key
    rejects the row and the table is unchanged.  So a consultation is never
    created under an existing identifier. *)
Theorem createConsultation_in_progress_fresh_id (uuid u : Uuid) (w : World) :
  patientName w <> empty ->
  auth w = Some u ->
  has_profile (db w) u = true ->
  (fresh_consultation_id (db w) uuid = true ->
   exists c,
     consultations (db (submitted uuid w)) = consultations (db w) ++ [c]
     /\ cons_id c = uuid
     /\ doctor_id c = u
     /\ patient_name c = patientName w
     /\ status c = in_progress
     /\ (forall c0, In c0 (consultations (db w)) -> cons_id c0 <> cons_id c)
     /\ navigated (submitted uuid w) = navigated w ++ [cons_id c])
  /\ (fresh_consultation_id (db w) uuid = false ->
      db (submitted uuid w) = db w
      /\ navigated (submitted uuid w) = navigated w).
Proof.
  intros _ Hauth Hprofile. unfold submitted.
  rewrite handleSubmit_run. unfold insert_consultation. simpl.
  rewrite Hauth. simpl. rewrite N.eqb_refl. simpl.
  unfold has_profile in Hprofile. unfold fresh_consultation_id.
  split; intros Hfresh.
  - pose proof (unused_key (db w) uuid) as Hunused.
    unfold fresh_consultation_id in Hunused. specialize (fun c0 => Hunused c0 Hfresh).
    apply negb_true_iff in Hfresh. rewrite Hfresh, Hprofile. simpl.
    eexists. split; [reflexivity|]. simpl. repeat split. exact Hunused.
  - apply negb_false_iff in Hfresh. rewrite Hfresh. simpl. split; reflexivity.
Qed.

Lemma createConsultation_in_progress_fresh_id_witness :
  patientName dialog0 <> empty
  /\ auth dialog0 = Some 7%N
  /\ has_profile (db dialog0) 7%N = true
  /\ fresh_consultation_id (db dialog0) 2%N = true
  /\ fresh_consultation_id (db dialog0) 1%N = false
  /\ (exists c,
        consultations (db (submitted 2%N dialog0))
        = consultations (db dialog0) ++ [c]
        /\ cons_id c = 2%N
        /\ doctor_id c = 7%N
        /\ patient_name c = patientName dialog0
        /\ status c = in_progress
        /\ (forall c0, In c0 (consultations (db dialog0)) -> cons_id c0 <> cons_id c)
        /\ navigated (submitted 2%N dialog0) = navigated dialog0 ++ [cons_id c])
  /\ db (submitted 1%N dialog0) = db dialog0.
Proof.
  assert (Hname : patientName dialog0 <> empty) by discriminate.
  split; [exact Hname|]. split; [reflexivity|]. split; [reflexivity|].
  split; [reflexivity|]. split; [reflexivity|]. split.
  - exact (proj1 (createConsultation_in_progress_fresh_id 2%N 7%N dialog0
                    Hname eq_refl eq_refl) eq_refl).
  - exact (proj1 (proj2 (createConsultation_in_progress_fresh_id 1%N 7%N dialog0
                           Hname eq_refl eq_refl) eq_refl)).
Defined.

End NewConsultationDialogFacts.

(* ================================================================== *)
(** * AudioRecorder: what happens to a finalized recording *)
(* ================================================================== *)

Module AudioRecorderFacts.
Import Js Eff Ui AudioRecorder JsFacts.

Ltac run_recorder :=
  cbv beta iota zeta delta
    [transcribeAudio transcribeWithAssemblyAIStreaming
     bind ret throw modify gets try_catch try_finally
     setIsTranscribing toast onTranscriptionComplete
     isTranscribing toasts onTranscriptionComplete_calls].

(** A failed transcription ends in a toast; the callback is not called. *)
Lemma transcribeAudio_failed (env : Backend) (audioBlob : Blob) (w : World) :
  failed env = true ->
  exists msg,
    transcribeAudio env audioBlob w
    = (Normal tt,
       mkWorld false (toasts w ++ [transcription_error msg])
         (onTranscriptionComplete_calls w)).
Proof.
  intros H. destruct env as [msg|msg|ok text [data|]]; simpl in H.
  - exists msg. reflexivity.
  - exists msg. reflexivity.
  - destruct ok; simpl in H.
    + exists (match data_error data with Some e => e | None => [] end).
      run_recorder. simpl. rewrite H. reflexivity.
    + exists (lit "Backend transcription failed: " ++ text). reflexivity.
  - destruct ok.
    + exists (lit "Unexpected token in JSON"). reflexivity.
    + exists (lit "Backend transcription failed: " ++ text). reflexivity.
Qed.

Lemma transcribeAudio_no_speech (env : Backend) (audioBlob : Blob) (w : World) :
  no_speech env = true ->
  transcribeAudio env audioBlob w
  = (Normal tt,
     mkWorld false (toasts w)
       (onTranscriptionComplete_calls w ++ [(placeholderText, audioBlob)])).
Proof.
  intros H. destruct env as [msg|msg|[|] text [data|]]; simpl in H;
    try discriminate.
  apply andb_true_iff in H. destruct H as [Herr Htext].
  apply negb_true_iff in Herr.
  run_recorder. simpl. rewrite Herr.
  destruct (data_text data) as [t|]; simpl.
  - destruct (truthy t) eqn:Ht; simpl.
    + rewrite (no_transcript_test t), Htext. reflexivity.
    + reflexivity.
  - reflexivity.
Qed.

(** C5, as stated, fails: when the backend answers 502 the recording is
    dropped.  [onTranscriptionComplete] is not called, no placeholder is
    substituted, and the user sees an error toast. *)
Lemma failed_transcription_creates_no_note :
  failed (Responded false (lit "Bad Gateway") None) = true
  /\ onTranscriptionComplete_calls
       (snd (transcribeAudio (Responded false (lit "Bad Gateway") None)
               blob0 recorder0)) = []
  /\ toasts (snd (transcribeAudio (Responded false (lit "Bad Gateway") None)
                    blob0 recorder0))
     = [transcription_error (lit "Backend transcription failed: Bad Gateway")].
Proof. repeat split. Qed.

(** C5, amended. A finalized recording whose transcription succeeds
    without text (absent, empty or white space only) reaches note creation:
    the caller calls [onTranscriptionComplete] once, with the fixed
    placeholder and the recording, and the placeholder is not blank, so the
    page stores it as a transcript.  A recording whose transcription fails
    does not: the caller shows an error toast and makes no call.  Neither
    path throws. *)
Theorem recording_without_speech_gets_placeholder (env : Backend)
    (audioBlob : Blob) (w : World) :
  (no_speech env = true ->
   transcribeAudio env audioBlob w
   = (Normal tt,
      mkWorld false (toasts w)
        (onTranscriptionComplete_calls w ++ [(placeholderText, audioBlob)])))
  /\ blank placeholderText = false
  /\ (failed env = true ->
      fst (transcribeAudio env audioBlob w) = Normal tt
      /\ onTranscriptionComplete_calls (snd (transcribeAudio env audioBlob w))
         = onTranscriptionComplete_calls w
      /\ exists msg,
           toasts (snd (transcribeAudio env audioBlob w))
           = toasts w ++ [transcription_error msg]).
Proof.
  split; [apply transcribeAudio_no_speech|].
  split; [vm_compute; reflexivity|].
  intros H. destruct (transcribeAudio_failed env audioBlob w H) as [msg ->].
  simpl. repeat split. exists msg. reflexivity.
Qed.

Lemma recording_without_speech_gets_placeholder_witness :
  no_speech silence = true
  /\ transcribeAudio silence blob0 recorder0
     = (Normal tt, mkWorld false [] [(placeholderText, blob0)])
  /\ failed timed_out = true
  /\ onTranscriptionComplete_calls (snd (transcribeAudio timed_out blob0 recorder0))
     = [].
Proof.
  split; [reflexivity|].
  split; [exact (proj1 (recording_without_speech_gets_placeholder
                         silence blob0 recorder0) eq_refl)|].
  split; [reflexivity|].
  exact (proj1 (proj2 (proj2 (proj2 (recording_without_speech_gets_placeholder
                                       timed_out blob0 recorder0)) eq_refl))).
Defined.

End AudioRecorderFacts.

(* ================================================================== *)
(** * The transcription poll loop *)
(* ================================================================== *)

Module TranscribeFacts.
Import Js Transcribe.

(** What [pending] says about one answer. *)
Lemma pending_answer (r : StatusResponse) :
  pending r = true ->
  exists sd, r = StatusAnswered true sd
             /\ jsstring_eqb (status sd) (lit "completed") = false
             /\ jsstring_eqb (status sd) (lit "error") = false.
Proof.
  destruct r as [msg|ok sd]; simpl; [discriminate|].
  intros H. apply andb_true_iff in H. destruct H as [H He].
  apply andb_true_iff in H. destruct H as [Hok Hc].
  apply negb_true_iff in He. apply negb_true_iff in Hc.
  subst ok. exists sd. auto.
Qed.

(** [n] iterations over a vendor that is still working: [n] waits of one
    second, [n] requests, [attempts] advanced by [n]. *)
Lemma poll_loop_pending (n : nat) :
  forall (fuel maxAttempts : nat) (vendor : Vendor) (st : Poll),
    (forall k, k < n -> pending (vendor (requests st + k)) = true) ->
    attempts st + n <= maxAttempts ->
    poll_loop (n + fuel) maxAttempts vendor st
    = poll_loop fuel maxAttempts vendor
        (mkPoll (attempts st + n) (waited_ms st + 1000 * n) (requests st + n)).
Proof.
  induction n as [|n IH]; intros fuel maxAttempts vendor st Hpending Hle.
  - destruct st as [a t q]. simpl.
    rewrite !Nat.add_0_r. reflexivity.
  - change (S n + fuel) with (S (n + fuel)).
    cbn [poll_loop].
    assert (Hlt : Nat.ltb (attempts st) maxAttempts = true)
      by (apply Nat.ltb_lt; lia).
    rewrite Hlt.
    destruct (pending_answer _ (Hpending 0 ltac:(lia))) as (sd & Hsd & Hc & He).
    rewrite Nat.add_0_r in Hsd. rewrite Hsd. cbn [negb].
    rewrite Hc, He.
    rewrite IH.
    + cbn [attempts waited_ms requests]. f_equal. f_equal; lia.
    + intros k Hk. cbn [requests].
      replace (S (requests st) + k) with (requests st + S k) by lia.
      apply Hpending. lia.
    + cbn [attempts]. lia.
Qed.

(** The loop is left after at most [maxAttempts] iterations, whatever the
    vendor answers: with fuel for the remaining attempts and the last test
    it always produces a result. *)
Lemma poll_loop_total (fuel : nat) :
  forall (maxAttempts : nat) (vendor : Vendor) (st : Poll),
    maxAttempts - attempts st < fuel ->
    exists r st',
      poll_loop fuel maxAttempts vendor st = Some (r, st')
      /\ requests st' <= requests st + (maxAttempts - attempts st)
      /\ waited_ms st' + 1000 * requests st = waited_ms st + 1000 * requests st'.
Proof.
  induction fuel as [|fuel IH]; intros maxAttempts vendor st Hfuel; [lia|].
  cbn [poll_loop].
  destruct (Nat.ltb (attempts st) maxAttempts) eqn:Hlt.
  - apply Nat.ltb_lt in Hlt.
    destruct (vendor (requests st)) as [msg|ok sd].
    + eexists. eexists. split; [reflexivity|]. cbn [requests waited_ms]. lia.
    + destruct ok; cbn [negb].
      * destruct (jsstring_eqb (status sd) (lit "completed")).
        { eexists. eexists. split; [reflexivity|]. cbn [requests waited_ms]. lia. }
        destruct (jsstring_eqb (status sd) (lit "error")).
        { eexists. eexists. split; [reflexivity|]. cbn [requests waited_ms]. lia. }
        destruct (IH maxAttempts vendor
                    (mkPoll (S (attempts st)) (waited_ms st + 1000) (S (requests st))))
          as (r & st' & Hrun & Hreq & Hwait).
        { cbn [attempts]. lia. }
        exists r, st'. split; [exact Hrun|].
        cbn [attempts requests waited_ms] in Hreq, Hwait. lia.
      * eexists. eexists. split; [reflexivity|]. cbn [requests waited_ms]. lia.
  - eexists. eexists. split; [reflexivity|]. lia.
Qed.

Lemma poll_total (maxAttempts : nat) (vendor : Vendor) :
  exists r st,
    poll maxAttempts vendor = Some (r, st)
    /\ requests st <= maxAttempts
    /\ waited_ms st = 1000 * requests st.
Proof.
  destruct (poll_loop_total (S maxAttempts) maxAttempts vendor poll_start)
    as (r & st & Hrun & Hreq & Hwait).
  - simpl. lia.
  - exists r, st. split; [exact Hrun|]. simpl in Hreq, Hwait. lia.
Qed.

(** A vendor that never finishes: [maxAttempts] requests, one second
    apart, then the timeout error. *)
Lemma poll_times_out (maxAttempts : nat) (vendor : Vendor) :
  (forall k, k < maxAttempts -> pending (vendor k) = true) ->
  poll maxAttempts vendor
  = Some (inr (lit "Transcription timeout"),
          mkPoll maxAttempts (1000 * maxAttempts) maxAttempts).
Proof.
  intros Hpending. unfold poll.
  replace (S maxAttempts) with (maxAttempts + 1) by lia.
  rewrite poll_loop_pending.
  - cbn [poll_loop attempts poll_start Nat.add].
    rewrite Nat.ltb_irrefl. reflexivity.
  - intros k Hk. apply Hpending, Hk.
  - simpl. lia.
Qed.

(** C6. When the vendor answers every status request and never reports
    ["completed"] or ["error"], neither function polls forever:
    [transcribe-assemblyai] sends 30 requests, one second apart (30 s in
    all), [transcribe-audio] sends 60 (60 s), and each then answers with
    status 500 and the error ["Transcription timeout"]. *)
Theorem poll_loop_surfaces_timeout (vendor : Vendor) :
  ((forall k, k < 30 -> pending (vendor k) = true) ->
   transcribe_assemblyai vendor
   = Some (mkResponse 500 (BodyError (lit "Transcription timeout")),
           mkPoll 30 (1000 * 30) 30))
  /\ ((forall k, k < 60 -> pending (vendor k) = true) ->
      transcribe_audio vendor
      = Some (mkResponse 500 (BodyError (lit "Transcription timeout")),
              mkPoll 60 (1000 * 60) 60)).
Proof.
  split; intros Hpending.
  - unfold transcribe_assemblyai. rewrite (poll_times_out 30 vendor Hpending).
    reflexivity.
  - unfold transcribe_audio. rewrite (poll_times_out 60 vendor Hpending).
    reflexivity.
Qed.

Lemma stuck_pending (n k : nat) : k < n -> pending (stuck k) = true.
Proof. intros _. reflexivity. Defined.

Lemma poll_loop_surfaces_timeout_witness :
  (forall k, k < 30 -> pending (stuck k) = true)
  /\ (forall k, k < 60 -> pending (stuck k) = true)
  /\ transcribe_assemblyai stuck
     = Some (mkResponse 500 (BodyError (lit "Transcription timeout")),
             mkPoll 30 (1000 * 30) 30)
  /\ transcribe_audio stuck
     = Some (mkResponse 500 (BodyError (lit "Transcription timeout")),
             mkPoll 60 (1000 * 60) 60).
Proof.
  split; [exact (stuck_pending 30)|]. split; [exact (stuck_pending 60)|].
  split.
  - exact (proj1 (poll_loop_surfaces_timeout stuck) (stuck_pending 30)).
  - exact (proj2 (poll_loop_surfaces_timeout stuck) (stuck_pending 60)).
Defined.

End TranscribeFacts.

(* ================================================================== *)
(** * Note generation: a vendor answer that is not JSON *)
(* ================================================================== *)

Module SoapNoteFacts.
Import Js SoapNote.

(** The fallback object is a note: four string members, the raw text in
    [subjective]. *)
Lemma fallback_note_is_soap_note (raw : jsstring) :
  is_soap_note (fallback_note (Some raw)) = true
  /\ prop (lit "subjective") (fallback_note (Some raw)) = Some (JStr raw)
  /\ prop (lit "objective") (fallback_note (Some raw)) = Some unparsed
  /\ prop (lit "assessment") (fallback_note (Some raw)) = Some unparsed
  /\ prop (lit "plan") (fallback_note (Some raw)) = Some unparsed.
Proof. repeat split. Qed.

(** The OpenAI-backed function does what the design says: when the text of
    the first choice is not JSON it answers 200 with the fallback note. *)
Lemma openai_parse_failure_falls_back
    (JSON_parse : jsstring -> Json + jsstring)
    (transcript errorText raw syntaxError : jsstring) (others : list Choice) :
  truthy transcript = true ->
  JSON_parse raw = inr syntaxError ->
  serve_openai JSON_parse transcript
    (OpenAIAnswered true errorText (mkChatCompletion (mkChoice (Some raw) :: others)))
  = mkResponse 200 (fallback_note (Some raw)).
Proof.
  intros Ht Hparse. unfold serve_openai, parse_or_fallback, first_content,
    parse_content. simpl. rewrite Ht, Hparse. reflexivity.
Qed.

Lemma error_response_not_a_note (message : jsstring) :
  is_soap_note (body (error_response message)) = false.
Proof. reflexivity. Qed.

(** C2 (the code departs from it). In [generate-soap-note/index.ts]
    [JSON.parse] stands directly in the outer [try]: when the text Gemini
    returns is not JSON, the [SyntaxError] reaches the outer [catch] and the
    function answers with status 500 and [{ error: message }].  No note
    object is built; the raw text is in no [subjective] member. *)
Theorem gemini_parse_failure_is_an_error
    (JSON_parse : jsstring -> Json + jsstring)
    (transcript key processedText syntaxError : jsstring) :
  truthy transcript = true ->
  truthy key = true ->
  JSON_parse processedText = inr syntaxError ->
  serve_gemini JSON_parse transcript (Some key) (Generated processedText)
  = error_response syntaxError
  /\ http_status
       (serve_gemini JSON_parse transcript (Some key) (Generated processedText))
     = 500
  /\ is_soap_note
       (body (serve_gemini JSON_parse transcript (Some key) (Generated processedText)))
     = false
  /\ prop (lit "subjective")
       (body (serve_gemini JSON_parse transcript (Some key) (Generated processedText)))
     = None.
Proof.
  intros Ht Hk Hparse.
  assert (E : serve_gemini JSON_parse transcript (Some key) (Generated processedText)
              = error_response syntaxError).
  { unfold serve_gemini. rewrite Ht, Hk, Hparse. reflexivity. }
  rewrite E. repeat split.
Qed.

Lemma gemini_parse_failure_is_an_error_witness :
  truthy ConsultationPage.headache = true
  /\ truthy (lit "key-1") = true
  /\ reject_by_first_character prose = inr syntax_error
  /\ serve_gemini reject_by_first_character ConsultationPage.headache
       (Some (lit "key-1")) (Generated prose)
     = error_response syntax_error
  /\ serve_openai reject_by_first_character ConsultationPage.headache
       (OpenAIAnswered true empty (mkChatCompletion [mkChoice (Some prose)]))
     = mkResponse 200 (fallback_note (Some prose)).
Proof.
  split; [reflexivity|]. split; [reflexivity|]. split; [reflexivity|].
  split.
  - exact (proj1 (gemini_parse_failure_is_an_error reject_by_first_character
                    ConsultationPage.headache (lit "key-1") prose syntax_error
                    eq_refl eq_refl eq_refl)).
  - exact (openai_parse_failure_falls_back reject_by_first_character
             ConsultationPage.headache empty prose syntax_error []
             eq_refl eq_refl).
Defined.

End SoapNoteFacts.

(* ================================================================== *)
(** * ConsultationPage: rejected writes, table invariants, saving twice *)
(* ================================================================== *)

Module ConsultationPageInvariants.
Import Js Gateway GatewayQueries Eff Ui ConsultationPage ConsultationPageLoad.
Import Scenes JsFacts GatewayFacts ConsultationPageFacts.

Lemma row_for_consultation (id : Uuid) (transcript : jsstring) :
  up_consultation_id (row_for id transcript) = id.
Proof. unfold row_for. destruct (blank transcript); reflexivity. Qed.

Lemma doctor_of_exists (d : Db) (auth : option Uuid) (cid : Uuid) :
  doctor_of d auth cid = true ->
  exists c, In c (consultations d) /\ cons_id c = cid.
Proof.
  unfold doctor_of. destruct auth as [u|]; [|discriminate].
  intros H. apply existsb_exists in H. destruct H as (c & Hin & Hc).
  apply andb_true_iff in Hc. destruct Hc as [Hid _].
  exists c. split; [exact Hin|]. apply N.eqb_eq, Hid.
Qed.

(** What an upsert does to the table, in its three cases. *)
Lemma upsert_cases (auth : option Uuid) (uuid : Uuid)
    (row : MedicalNoteUpsert) (d : Db) :
  profiles (snd (upsert_medical_note auth uuid row d)) = profiles d
  /\ consultations (snd (upsert_medical_note auth uuid row d)) = consultations d
  /\ (medical_notes (snd (upsert_medical_note auth uuid row d)) = medical_notes d
      \/ (doctor_of d auth (up_consultation_id row) = true
          /\ (medical_notes (snd (upsert_medical_note auth uuid row d))
              = replace_note uuid (note_of_upsert uuid row) (medical_notes d)
              \/ (medical_notes (snd (upsert_medical_note auth uuid row d))
                  = medical_notes d ++ [note_of_upsert uuid row]
                  /\ ~ In uuid (map note_id (medical_notes d)))))).
Proof.
  unfold upsert_medical_note.
  destruct (doctor_of d auth (up_consultation_id row)) eqn:Hdoc; simpl;
    [|split; [reflexivity|]; split; [reflexivity|]; left; reflexivity].
  destruct (find _ _) as [old|] eqn:Hfind.
  - destruct (doctor_of d auth (consultation_id old)); simpl;
      (split; [reflexivity|]); (split; [reflexivity|]).
    + right. split; [reflexivity|]. left. reflexivity.
    + left. reflexivity.
  - simpl. split; [reflexivity|]. split; [reflexivity|].
    right. split; [reflexivity|]. right. split; [reflexivity|].
    intros Hin. apply in_map_iff in Hin. destruct Hin as (r & Hr & Hin).
    pose proof (find_none _ _ Hfind r Hin) as Hf. simpl in Hf.
    apply N.eqb_neq in Hf. contradiction.
Qed.

Lemma replace_note_ids (i : Uuid) (n : MedicalNote) (rows : list MedicalNote) :
  note_id n = i -> map note_id (replace_note i n rows) = map note_id rows.
Proof.
  intros Hn. unfold replace_note. rewrite map_map. apply map_ext_in.
  intros r _. destruct (note_id r =? i)%N eqn:E; [|reflexivity].
  apply N.eqb_eq in E. congruence.
Qed.

Lemma transcribed_db (uuid : Uuid) (transcript : jsstring) (audioBlob : Blob)
    (w : World) :
  db (transcribed uuid transcript audioBlob w)
  = snd (upsert_medical_note (auth w) uuid (row_for (route_id w) transcript) (db w)).
Proof.
  unfold transcribed. rewrite handleTranscriptionComplete_run.
  destruct (upsert_medical_note _ _ _ _) as [[data|e] d]; reflexivity.
Qed.

Lemma saved_db (note : MedicalNote) (w : World) :
  db (saved note w)
  = mkDb (profiles (db w)) (consultations (db w))
      (map (fun r =>
              if (note_id r =? note_id note)%N
                 && doctor_of (db w) (auth w) (consultation_id r)
              then apply_update (save_patch note) r else r)
           (medical_notes (db w))).
Proof. unfold saved. rewrite handleSaveNote_run. reflexivity. Qed.

(** X1. A transcript arriving on the page of a consultation the signed-in
    user is not the doctor of (or with nobody signed in) is not stored: the
    database, the note on the page and the tab stay as they were, no
    download is started, and the only trace is one "Processing Error"
    toast. *)
Theorem rejected_transcript_changes_nothing (uuid : Uuid)
    (transcript : jsstring) (audioBlob : Blob) (w : World) :
  doctor_of (db w) (auth w) (route_id w) = false ->
  handleTranscriptionComplete uuid transcript audioBlob w
  = (Normal tt,
     mkWorld (db w) (auth w) (route_id w) (consultation w) (medicalNote w)
       false (activeTab w) (toasts w ++ [processing_error]) (downloads w)).
Proof.
  intros Hdoc. rewrite handleTranscriptionComplete_run.
  unfold upsert_medical_note. rewrite row_for_consultation, Hdoc. reflexivity.
Qed.

Lemma rejected_transcript_changes_nothing_witness :
  doctor_of (db page_stranger) (auth page_stranger) (route_id page_stranger) = false
  /\ handleTranscriptionComplete 100%N headache blob0 page_stranger
     = (Normal tt,
        mkWorld db0 (Some 8%N) 1%N (Some consultation1) None false recording
          [processing_error] []).
Proof.
  split; [reflexivity|].
  exact (rejected_transcript_changes_nothing 100%N headache blob0 page_stranger
           eq_refl).
Defined.

(** X2. What one transcript arrival can touch, whatever the transcript, the
    key and the state: it ends with [isProcessing] off, shows exactly one
    toast, leaves the session, the route, the consultation on the page and
    the [profiles] and [consultations] tables alone, and adds at most one
    row to [medical_notes]. *)
Theorem transcript_arrival_frame (uuid : Uuid) (transcript : jsstring)
    (audioBlob : Blob) (w : World) :
  isProcessing (transcribed uuid transcript audioBlob w) = false
  /\ (exists t, toasts (transcribed uuid transcript audioBlob w) = toasts w ++ [t])
  /\ auth (transcribed uuid transcript audioBlob w) = auth w
  /\ route_id (transcribed uuid transcript audioBlob w) = route_id w
  /\ consultation (transcribed uuid transcript audioBlob w) = consultation w
  /\ profiles (db (transcribed uuid transcript audioBlob w)) = profiles (db w)
  /\ consultations (db (transcribed uuid transcript audioBlob w))
     = consultations (db w)
  /\ List.length (medical_notes (db (transcribed uuid transcript audioBlob w)))
     <= S (List.length (medical_notes (db w))).
Proof.
  pose proof (upsert_cases (auth w) uuid (row_for (route_id w) transcript) (db w))
    as (Hp & Hc & Hn).
  rewrite <- (transcribed_db uuid transcript audioBlob w) in Hp, Hc, Hn.
  assert (Hlen : List.length (medical_notes (db (transcribed uuid transcript audioBlob w)))
                 <= S (List.length (medical_notes (db w)))).
  { destruct Hn as [-> | (_ & [-> | (-> & _)])].
    - lia.
    - unfold replace_note. rewrite length_map. lia.
    - rewrite length_app. simpl. lia. }
  unfold transcribed in *. rewrite handleTranscriptionComplete_run in *.
  destruct (upsert_medical_note _ _ _ _) as [[data|e] d]; simpl in *;
    repeat split; try assumption; eexists; reflexivity.
Qed.

(** X3. The primary key of [medical_notes] survives both handlers: if no
    two rows share an [id] before a transcript arrival or a save, none do
    after it, whatever key the database draws (a colliding key replaces a
    row instead of adding one). *)
Theorem note_keys_stay_unique (uuid : Uuid) (transcript : jsstring)
    (audioBlob : Blob) (note : MedicalNote) (w : World) :
  NoDup (note_ids (db w)) ->
  NoDup (note_ids (db (transcribed uuid transcript audioBlob w)))
  /\ NoDup (note_ids (db (saved note w))).
Proof.
  intros Hnd. unfold note_ids in *. split.
  - rewrite transcribed_db.
    destruct (upsert_cases (auth w) uuid (row_for (route_id w) transcript) (db w))
      as (_ & _ & [-> | (_ & [-> | (-> & Hfresh)])]).
    + exact Hnd.
    + rewrite replace_note_ids by reflexivity. exact Hnd.
    + rewrite map_app. simpl. apply NoDup_app.
      * exact Hnd.
      * constructor; [intros []|constructor].
      * intros a Ha [<-|[]]. contradiction.
  - rewrite saved_db. simpl. rewrite map_map.
    erewrite map_ext; [exact Hnd|].
    intros r. simpl.
    destruct ((note_id r =? note_id note)%N && _); reflexivity.
Qed.

Lemma note_keys_stay_unique_witness :
  NoDup (note_ids (db page_reviewed))
  /\ NoDup (note_ids (db (transcribed 50%N headache blob0 page_reviewed)))
  /\ NoDup (note_ids (db (saved edited_note page_reviewed))).
Proof.
  assert (H : NoDup (note_ids (db page_reviewed))).
  { constructor; [intros []|constructor]. }
  split; [exact H|].
  exact (note_keys_stay_unique 50%N headache blob0 edited_note page_reviewed H).
Defined.

(** X4. The foreign key of [medical_notes] survives both handlers: if every
    note refers to a consultation of the table before a transcript arrival
    or a save, every note does after it. *)
Theorem notes_keep_referring (uuid : Uuid) (transcript : jsstring)
    (audioBlob : Blob) (note : MedicalNote) (w : World) :
  notes_refer (db w) ->
  notes_refer (db (transcribed uuid transcript audioBlob w))
  /\ notes_refer (db (saved note w)).
Proof.
  intros Href. split.
  - unfold notes_refer. rewrite transcribed_db.
    destruct (upsert_cases (auth w) uuid (row_for (route_id w) transcript) (db w))
      as (_ & Hc & Hn).
    rewrite Hc.
    assert (Hnew : forall r, r = note_of_upsert uuid (row_for (route_id w) transcript) ->
              doctor_of (db w) (auth w) (up_consultation_id (row_for (route_id w) transcript)) = true ->
              exists c, In c (consultations (db w)) /\ cons_id c = consultation_id r).
    { intros r -> Hdoc. simpl. exact (doctor_of_exists _ _ _ Hdoc). }
    destruct Hn as [-> | (Hdoc & [-> | (-> & _)])]; intros r Hin.
    + exact (Href r Hin).
    + unfold replace_note in Hin. apply in_map_iff in Hin.
      destruct Hin as (r0 & Hr0 & Hin0).
      destruct (note_id r0 =? uuid)%N.
      * exact (Hnew r (eq_sym Hr0) Hdoc).
      * subst r. exact (Href r0 Hin0).
    + apply in_app_or in Hin. destruct Hin as [Hin|[Hin|[]]].
      * exact (Href r Hin).
      * exact (Hnew r (eq_sym Hin) Hdoc).
  - unfold notes_refer. rewrite saved_db. simpl. intros r Hin.
    apply in_map_iff in Hin. destruct Hin as (r0 & Hr0 & Hin0).
    destruct (Href r0 Hin0) as (c & Hc & Hid).
    exists c. split; [exact Hc|]. subst r.
    destruct ((note_id r0 =? note_id note)%N && _); exact Hid.
Qed.

Lemma notes_keep_referring_witness :
  notes_refer (db page_reviewed)
  /\ notes_refer (db (transcribed 100%N headache blob0 page_reviewed))
  /\ notes_refer (db (saved edited_note page_reviewed)).
Proof.
  assert (H : notes_refer (db page_reviewed)).
  { intros r [<-|[]]. exists consultation1. split; [left|]; reflexivity. }
  split; [exact H|].
  exact (notes_keep_referring 100%N headache blob0 edited_note page_reviewed H).
Defined.

End ConsultationPageInvariants.

(* ================================================================== *)
(** * ConsultationPage: saving, completing, loading *)
(* ================================================================== *)

Module ConsultationPageFlow.
Import Js Gateway GatewayQueries Eff Ui ConsultationPage ConsultationPageLoad.
Import Scenes Scenes2 JsFacts GatewayFacts ConsultationPageFacts.
Import ConsultationPageInvariants.

Lemma apply_update_twice (u : MedicalNoteUpdate) (r : MedicalNote) :
  apply_update u (apply_update u r) = apply_update u r.
Proof. reflexivity. Qed.

(** In the columns of the model a second save of the same note is the
    first one over again. *)
Lemma saved_twice (note : MedicalNote) (w : World) :
  saved note (saved note w) = saved note w.
Proof.
  unfold saved. rewrite !handleSaveNote_run. simpl.
  f_equal.
  - f_equal. rewrite map_map. apply map_ext. intros r.
    change (doctor_of (mkDb (profiles (db w)) (consultations (db w)) _) (auth w))
      with (doctor_of (db w) (auth w)).
    destruct ((note_id r =? note_id note)%N
              && doctor_of (db w) (auth w) (consultation_id r)) eqn:E.
    + simpl. simpl in E. rewrite E. reflexivity.
    + rewrite E. reflexivity.
  - destruct (medicalNote w); reflexivity.
Qed.

(** X5. Saving the same edited note a second time rewrites what the first
    save wrote: the table keeps its rows in place and every row keeps its
    key, its consultation, its four SOAP fields, its [raw_transcript], its
    entities and its [is_reviewed] flag ([updated_at], which the table's
    trigger sets on each update, is the one column not covered); the other
    tables are untouched, and the page shows the same note, tab, toasts and
    downloads. *)
Theorem saving_twice_is_saving_once (note : MedicalNote) (w : World) :
  List.length (medical_notes (db (saved note (saved note w))))
  = List.length (medical_notes (db (saved note w)))
  /\ (forall k r,
        nth_error (medical_notes (db (saved note w))) k = Some r ->
        exists r',
          nth_error (medical_notes (db (saved note (saved note w)))) k = Some r'
          /\ note_id r' = note_id r
          /\ consultation_id r' = consultation_id r
          /\ subjective r' = subjective r
          /\ objective r' = objective r
          /\ assessment r' = assessment r
          /\ plan r' = plan r
          /\ raw_transcript r' = raw_transcript r
          /\ extracted_entities r' = extracted_entities r
          /\ is_reviewed r' = is_reviewed r)
  /\ consultations (db (saved note (saved note w)))
     = consultations (db (saved note w))
  /\ profiles (db (saved note (saved note w))) = profiles (db (saved note w))
  /\ medicalNote (saved note (saved note w)) = medicalNote (saved note w)
  /\ activeTab (saved note (saved note w)) = activeTab (saved note w)
  /\ toasts (saved note (saved note w)) = toasts (saved note w)
  /\ downloads (saved note (saved note w)) = downloads (saved note w).
Proof.
  rewrite saved_twice.
  split; [reflexivity|]. split.
  - intros k r Hk. exists r. repeat split; try reflexivity. exact Hk.
  - repeat split; reflexivity.
Qed.

Lemma saving_twice_is_saving_once_witness :
  nth_error (medical_notes (db (saved edited_note page_noted))) 0
  = Some (apply_update (save_patch edited_note) stored_note)
  /\ exists r',
       nth_error (medical_notes (db (saved edited_note (saved edited_note page_noted)))) 0
       = Some r'
       /\ objective r' = Some (lit "BP 120/80")
       /\ raw_transcript r' = Some headache
       /\ is_reviewed r' = Some true.
Proof.
  assert (H0 : nth_error (medical_notes (db (saved edited_note page_noted))) 0
               = Some (apply_update (save_patch edited_note) stored_note))
    by reflexivity.
  split; [exact H0|].
  destruct (proj1 (proj2 (saving_twice_is_saving_once edited_note page_noted))
              0 _ H0)
    as (r' & Hnth & _ & _ & _ & Hobj & _ & _ & Hraw & _ & Hrev).
  exists r'. split; [exact Hnth|].
  split; [exact Hobj|]. split; [exact Hraw|exact Hrev].
Defined.

(** X6. A save that the update policy hides every target row from (the
    signed-in user is not the doctor of the note's consultation, or no row
    has the note's key) updates nothing and reports no error: the tables
    are unchanged, the handler returns normally, and the page nevertheless
    shows its note as reviewed. *)
Theorem hidden_save_changes_only_the_page (note : MedicalNote) (w : World) :
  (forall r, In r (medical_notes (db w)) ->
     note_id r = note_id note ->
     doctor_of (db w) (auth w) (consultation_id r) = false) ->
  fst (handleSaveNote note w) = Normal tt
  /\ medical_notes (db (saved note w)) = medical_notes (db w)
  /\ consultations (db (saved note w)) = consultations (db w)
  /\ profiles (db (saved note w)) = profiles (db w)
  /\ (forall prev, medicalNote w = Some prev ->
        exists n, medicalNote (saved note w) = Some n
                  /\ is_reviewed n = Some true).
Proof.
  intros Hhidden. unfold saved. rewrite handleSaveNote_run. simpl.
  split; [reflexivity|]. split.
  - rewrite <- (map_id (medical_notes (db w))) at 2.
    apply map_ext_in. intros r Hin.
    destruct (note_id r =? note_id note)%N eqn:E; [|reflexivity].
    apply N.eqb_eq in E. rewrite (Hhidden r Hin E). reflexivity.
  - split; [reflexivity|]. split; [reflexivity|].
    intros prev ->. eexists. split; reflexivity.
Qed.

Lemma hidden_save_changes_only_the_page_witness :
  (forall r, In r (medical_notes (db page_foreign_note)) ->
     note_id r = note_id edited_note ->
     doctor_of (db page_foreign_note) (auth page_foreign_note) (consultation_id r)
     = false)
  /\ medical_notes (db (saved edited_note page_foreign_note)) = [stored_note]
  /\ exists n, medicalNote (saved edited_note page_foreign_note) = Some n
               /\ is_reviewed n = Some true.
Proof.
  assert (H : forall r, In r (medical_notes (db page_foreign_note)) ->
            note_id r = note_id edited_note ->
            doctor_of (db page_foreign_note) (auth page_foreign_note)
              (consultation_id r) = false).
  { intros r [<-|[]] _. reflexivity. }
  split; [exact H|].
  destruct (hidden_save_changes_only_the_page edited_note page_foreign_note H)
    as (_ & Hrows & _ & _ & Hpage).
  split; [exact Hrows|]. exact (Hpage stored_note eq_refl).
Defined.

(** X7. When the "Complete Consultation" button is offered.  After a save
    it is offered exactly when the page holds a note and its consultation
    is still in progress; after an accepted transcript arrival it is not
    offered, whatever was reviewed before, because the page then shows the
    new, unreviewed note. *)
Theorem complete_button_follows_the_last_write (uuid : Uuid)
    (transcript : jsstring) (audioBlob : Blob) (note : MedicalNote) (w : World) :
  complete_button (saved note w)
  = match consultation w, medicalNote w with
    | Some c, Some _ =>
        match status c with in_progress => true | _ => false end
    | _, _ => false
    end
  /\ (doctor_of (db w) (auth w) (route_id w) = true ->
      fresh_note_id (db w) uuid = true ->
      complete_button (transcribed uuid transcript audioBlob w) = false).
Proof.
  split.
  - unfold saved. rewrite handleSaveNote_run. unfold complete_button. simpl.
    destruct (consultation w) as [c|]; [|reflexivity].
    destruct (medicalNote w); [|reflexivity].
    destruct (status c); reflexivity.
  - intros Hdoc Hfresh.
    destruct (handleTranscriptionComplete_stores uuid transcript audioBlob w Hdoc Hfresh)
      as (_ & _ & Hnote & _).
    unfold complete_button, transcribed. rewrite Hnote.
    destruct (consultation _) as [c|]; [|reflexivity].
    destruct (status c); simpl; unfold row_for;
      destruct (blank transcript); reflexivity.
Qed.

Lemma complete_button_follows_the_last_write_witness :
  complete_button page_reviewed = true
  /\ doctor_of (db page_reviewed) (auth page_reviewed) (route_id page_reviewed) = true
  /\ fresh_note_id (db page_reviewed) 100%N = true
  /\ complete_button (transcribed 100%N headache blob0 page_reviewed) = false.
Proof.
  split; [reflexivity|]. split; [reflexivity|]. split; [reflexivity|].
  exact (proj2 (complete_button_follows_the_last_write 100%N headache blob0
                  edited_note page_reviewed) eq_refl eq_refl).
Defined.

End ConsultationPageFlow.

(* ================================================================== *)
(** * ConsultationPage: the loaders and the completion *)
(* ================================================================== *)

Module ConsultationPageLoadFacts.
Import Js Gateway GatewayQueries Eff Ui ConsultationPage ConsultationPageLoad.
Import PageUpdates Scenes Scenes2 JsFacts GatewayFacts ConsultationPageFacts.
Import ConsultationPageInvariants.

Ltac run_page :=
  cbv beta iota zeta delta
    [fetchConsultation fetchMedicalNote mount handleCompleteConsultation
     bind ret throw modify gets try_catch try_finally
     on_world setConsultation setNote setTab show setLoading navigate_home
     world loading navigated_home with_db with_consultation with_note with_toast
     seen_consultations seen_notes
     db auth route_id consultation medicalNote isProcessing activeTab
     toasts downloads fst snd].

Lemma fetchConsultation_run (fault : option DBError) (p : Page) :
  fetchConsultation fault p =
  match match fault with
        | Some e => inr e
        | None => single (seen_consultations (world p))
        end with
  | inl data =>
      (Normal tt,
       mkPage (with_consultation (Some data) (world p)) (loading p)
         (navigated_home p))
  | inr _ =>
      (Normal tt,
       mkPage (with_toast load_failed (world p)) (loading p)
         (S (navigated_home p)))
  end.
Proof.
  run_page.
  destruct fault as [e|]; [reflexivity|].
  destruct (single _) as [data|e]; reflexivity.
Qed.

Lemma fetchMedicalNote_run (fault : option DBError) (p : Page) :
  fetchMedicalNote fault p =
  match fault with
  | Some e =>
      if String.eqb (code e) "PGRST116"
      then (Normal tt,
            mkPage (with_note None (activeTab (world p)) (world p)) false
              (navigated_home p))
      else (Normal tt, mkPage (world p) false (navigated_home p))
  | None =>
      (Normal tt,
       mkPage (with_note (note_found (seen_notes (world p)))
                 (tab_found (seen_notes (world p)) (activeTab (world p)))
                 (world p))
         false (navigated_home p))
  end.
Proof.
  run_page.
  destruct fault as [e|].
  - destruct (String.eqb (code e) "PGRST116"); reflexivity.
  - unfold maybeSingle, note_found, tab_found.
    destruct (select_notes _ _ _) as [|n [|n' rest]]; reflexivity.
Qed.

(** X8. [handleCompleteConsultation] when the request goes through: the
    consultation of the page, if it belongs to the signed-in doctor, gets
    status [completed] whatever its status was (a cancelled one too); every
    other consultation, every note and every profile is left as it is; the
    page copy is completed and the Complete button is withdrawn; doing it
    again leaves the notes and the profiles untouched and every
    consultation with the key, doctor, patient, status and duration the
    first call left ([updated_at], which the table's trigger sets on each
    update, is the one column not covered).  When the request fails, only
    an error toast is added. *)
Theorem completing_a_consultation (p : Page) :
  fst (handleCompleteConsultation None p) = Normal tt
  /\ medical_notes (db (world (completed_page None p)))
     = medical_notes (db (world p))
  /\ profiles (db (world (completed_page None p))) = profiles (db (world p))
  /\ consultations (db (world (completed_page None p)))
     = map (fun c =>
              if (cons_id c =? route_id (world p))%N
                 && own_consultation (auth (world p)) c
              then with_status completed c else c)
           (consultations (db (world p)))
  /\ consultation (world (completed_page None p))
     = option_map (with_status completed) (consultation (world p))
  /\ complete_button (world (completed_page None p)) = false
  /\ (medical_notes (db (world (completed_page None (completed_page None p))))
      = medical_notes (db (world p))
      /\ profiles (db (world (completed_page None (completed_page None p))))
         = profiles (db (world p))
      /\ forall k c,
           nth_error (consultations (db (world (completed_page None p)))) k
           = Some c ->
           exists c',
             nth_error
               (consultations
                  (db (world (completed_page None (completed_page None p))))) k
             = Some c'
             /\ cons_id c' = cons_id c
             /\ doctor_id c' = doctor_id c
             /\ patient_name c' = patient_name c
             /\ patient_id c' = patient_id c
             /\ status c' = status c
             /\ duration_minutes c' = duration_minutes c)
  /\ (forall e,
        completed_page (Some e) p
        = mkPage (with_toast complete_failed (world p)) (loading p)
            (navigated_home p)).
Proof.
  destruct p as [[d a rid c n ip tab ts dl] l nav].
  unfold completed_page. run_page.
  unfold update_consultation_status, complete_button. simpl.
  split; [reflexivity|]. split; [reflexivity|]. split; [reflexivity|].
  split; [reflexivity|]. split; [destruct c; reflexivity|].
  split; [destruct c; [destruct n|]; reflexivity|].
  split; [|reflexivity].
  split; [reflexivity|]. split; [reflexivity|].
  intros k c0 Hk. rewrite map_map, nth_error_map.
  rewrite nth_error_map in Hk.
  destruct (nth_error (consultations d) k) as [c1|]; [|discriminate].
  simpl in Hk. injection Hk as <-. simpl.
  eexists. split; [reflexivity|].
  unfold own_consultation.
  destruct a as [u|]; destruct (cons_id c1 =? rid)%N eqn:E1;
    try destruct (doctor_id c1 =? u)%N eqn:E2;
    simpl; rewrite ?E1, ?E2; simpl; rewrite ?E1, ?E2; simpl;
    repeat split; reflexivity.
Qed.

Lemma completing_a_consultation_witness :
  status cancelled1 = cancelled
  /\ nth_error (consultations (db (world (completed_page None page_cancelled)))) 0
     = Some (with_status completed cancelled1)
  /\ exists c',
       nth_error
         (consultations
            (db (world (completed_page None (completed_page None page_cancelled))))) 0
       = Some c'
       /\ status c' = completed.
Proof.
  assert (H0 : nth_error
                 (consultations (db (world (completed_page None page_cancelled)))) 0
               = Some (with_status completed cancelled1))
    by reflexivity.
  split; [reflexivity|]. split; [exact H0|].
  destruct (completing_a_consultation page_cancelled)
    as (_ & _ & _ & _ & _ & _ & (_ & _ & Hagain) & _).
  destruct (Hagain 0 _ H0) as (c' & Hnth & _ & _ & _ & _ & Hstatus & _).
  exists c'. split; [exact Hnth|exact Hstatus].
Defined.

(** X9. The two loaders started on mount may finish in either order: the
    page ends in the same state. *)
Theorem loaders_commute (fault_c fault_n : option DBError) (p : Page) :
  snd (fetchMedicalNote fault_n (snd (fetchConsultation fault_c p)))
  = snd (fetchConsultation fault_c (snd (fetchMedicalNote fault_n p))).
Proof.
  rewrite !fetchConsultation_run, !fetchMedicalNote_run.
  destruct fault_c as [ec|]; destruct fault_n as [en|];
    try destruct (String.eqb (code en) "PGRST116");
    try (destruct (single (seen_consultations (world p))) as [data|e] eqn:Hs);
    simpl; try rewrite Hs; try reflexivity.
  all: unfold seen_consultations, seen_notes in *; simpl in *;
    try rewrite Hs; reflexivity.
Qed.

Lemma seen_notes_are_notes_of (w : World) :
  doctor_of (db w) (auth w) (route_id w) = true ->
  seen_notes w = notes_of (db w) (route_id w).
Proof.
  intros Hdoc. unfold seen_notes, select_notes, notes_of.
  apply filter_ext_in. intros r _.
  destruct (consultation_id r =? route_id w)%N eqn:E; [|reflexivity].
  apply N.eqb_eq in E. rewrite E, Hdoc. reflexivity.
Qed.

Lemma filter_nothing {A : Type} (f : A -> bool) (l : list A) :
  (forall x, In x l -> f x = false) -> filter f l = [].
Proof.
  induction l as [|x l IH]; intros H; [reflexivity|]. simpl.
  rewrite (H x (or_introl eq_refl)). apply IH.
  intros y Hy. apply H. right. exact Hy.
Qed.

Lemma nothing_seen (d : Db) (auth : option Uuid) (id : Uuid) :
  (forall c, In c (consultations d) -> cons_id c = id ->
     own_consultation auth c = false) ->
  select_consultations auth id d = [] /\ select_notes auth id d = [].
Proof.
  intros Hforeign.
  assert (Hc : forall c, In c (consultations d) ->
            (cons_id c =? id)%N && own_consultation auth c = false).
  { intros c Hin. destruct (cons_id c =? id)%N eqn:E; [|reflexivity].
    apply N.eqb_eq in E. rewrite (Hforeign c Hin E). reflexivity. }
  assert (Hdoc : doctor_of d auth id = false).
  { unfold doctor_of. destruct auth as [u|]; [|reflexivity].
    apply not_true_is_false. intros H. apply existsb_exists in H.
    destruct H as (c & Hin & Hb). specialize (Hc c Hin). simpl in Hc.
    congruence. }
  split.
  - apply filter_nothing. exact Hc.
  - apply filter_nothing. intros r _.
    destruct (consultation_id r =? id)%N eqn:E; [|reflexivity].
    apply N.eqb_eq in E. rewrite E, Hdoc. reflexivity.
Qed.

Lemma mount_run (p : Page) (c : Consultation) :
  seen_consultations (world p) = [c] ->
  loaded None None p
  = mkPage
      (with_note (note_found (seen_notes (world p)))
         (tab_found (seen_notes (world p)) (activeTab (world p)))
         (with_consultation (Some c) (world p)))
      false (navigated_home p).
Proof.
  intros Hc. unfold loaded, mount, bind.
  rewrite fetchConsultation_run, Hc. simpl.
  rewrite fetchMedicalNote_run. reflexivity.
Qed.

(** X10. Loading a page whose consultation the signed-in doctor can see:
    the spinner goes away and the page holds the consultation; if exactly
    one note row of the consultation is visible the page holds it and opens
    the notes tab, otherwise (none, or several) it holds no note and keeps
    its tab; no toast, no navigation. *)
Theorem mount_loads_the_page (p : Page) (c : Consultation) :
  seen_consultations (world p) = [c] ->
  loaded None None p
  = mkPage
      (with_note (note_found (seen_notes (world p)))
         (tab_found (seen_notes (world p)) (activeTab (world p)))
         (with_consultation (Some c) (world p)))
      false (navigated_home p)
  /\ shows_spinner (loaded None None p) = false.
Proof.
  intros Hc. rewrite (mount_run p c Hc). split; reflexivity.
Qed.

Lemma mount_loads_the_page_witness :
  seen_consultations (world (page_of page_noted)) = [consultation1]
  /\ loaded None None (page_of page_noted)
     = mkPage page_noted false 0.
Proof.
  split; [reflexivity|].
  exact (proj1 (mount_loads_the_page (page_of page_noted) consultation1 eq_refl)).
Defined.

(** X11. A consultation of another doctor (or none at all under that
    identifier) never renders: from the initial state, whatever happens to
    the note request, the page keeps its spinner, holds no consultation and
    no note, shows "Failed to load consultation" and navigates home once. *)
Theorem foreign_consultation_never_renders (d : Db) (auth : option Uuid)
    (id : Uuid) (fault_n : option DBError) :
  (forall c, In c (consultations d) -> cons_id c = id ->
     own_consultation auth c = false) ->
  shows_spinner (loaded None fault_n (fresh_page d auth id)) = true
  /\ consultation (world (loaded None fault_n (fresh_page d auth id))) = None
  /\ medicalNote (world (loaded None fault_n (fresh_page d auth id))) = None
  /\ toasts (world (loaded None fault_n (fresh_page d auth id))) = [load_failed]
  /\ navigated_home (loaded None fault_n (fresh_page d auth id)) = 1.
Proof.
  intros Hforeign. destruct (nothing_seen d auth id Hforeign) as [Hc Hn].
  unfold loaded, mount, bind.
  rewrite fetchConsultation_run.
  unfold seen_consultations, fresh_page. simpl. rewrite Hc. simpl.
  rewrite fetchMedicalNote_run.
  unfold seen_notes. simpl. rewrite Hn.
  destruct fault_n as [e|]; [destruct (String.eqb (code e) "PGRST116")|];
    simpl; unfold shows_spinner; simpl; repeat split; reflexivity.
Qed.

Lemma foreign_consultation_never_renders_witness :
  (forall c, In c (consultations db0) -> cons_id c = 1%N ->
     own_consultation (Some 8%N) c = false)
  /\ shows_spinner (loaded None None (fresh_page db0 (Some 8%N) 1%N)) = true
  /\ consultation (world (loaded None None (fresh_page db0 (Some 8%N) 1%N))) = None.
Proof.
  assert (H : forall c, In c (consultations db0) -> cons_id c = 1%N ->
            own_consultation (Some 8%N) c = false).
  { intros c [<-|[]] _. reflexivity. }
  split; [exact H|].
  destruct (foreign_consultation_never_renders db0 (Some 8%N) 1%N None H)
    as (Hs & Hc & _).
  split; [exact Hs | exact Hc].
Defined.



(** X13. Two accepted transcript arrivals on one consultation leave two
    note rows, and the page loses the note on its next load: the read finds
    several rows, its error is let through, and the page holds no note and
    shows no toast. *)
Theorem second_transcript_hides_the_note_on_reload (uuid1 uuid2 : Uuid)
    (t1 t2 : jsstring) (b1 b2 : Blob) (w : World) :
  doctor_of (db w) (auth w) (route_id w) = true ->
  fresh_note_id (db w) uuid1 = true ->
  fresh_note_id (db (transcribed uuid1 t1 b1 w)) uuid2 = true ->
  medicalNote (transcribed uuid2 t2 b2 (transcribed uuid1 t1 b1 w))
  = Some (note_of_upsert uuid2 (row_for (route_id w) t2))
  /\ medicalNote
       (world (snd (fetchMedicalNote None
                      (page_of (transcribed uuid2 t2 b2 (transcribed uuid1 t1 b1 w))))))
     = None
  /\ toasts
       (world (snd (fetchMedicalNote None
                      (page_of (transcribed uuid2 t2 b2 (transcribed uuid1 t1 b1 w))))))
     = toasts (transcribed uuid2 t2 b2 (transcribed uuid1 t1 b1 w)).
Proof.
  intros Hdoc Hfresh1 Hfresh2.
  destruct (handleTranscriptionComplete_stores uuid1 t1 b1 w Hdoc Hfresh1)
    as (_ & Hcons1 & _ & Hauth1 & Hroute1).
  fold (transcribed uuid1 t1 b1 w) in Hcons1, Hauth1, Hroute1.
  pose proof (transcribed_notes_of uuid1 t1 b1 w Hdoc Hfresh1) as Hrows1.
  set (w1 := transcribed uuid1 t1 b1 w) in *.
  assert (Hdoc1 : doctor_of (db w1) (auth w1) (route_id w1) = true).
  { unfold doctor_of in *. rewrite Hauth1, Hroute1, Hcons1. exact Hdoc. }
  destruct (handleTranscriptionComplete_stores uuid2 t2 b2 w1 Hdoc1 Hfresh2)
    as (_ & Hcons2 & Hnote2 & Hauth2 & Hroute2).
  fold (transcribed uuid2 t2 b2 w1) in Hcons2, Hnote2, Hauth2, Hroute2.
  pose proof (transcribed_notes_of uuid2 t2 b2 w1 Hdoc1 Hfresh2) as Hrows2.
  set (w2 := transcribed uuid2 t2 b2 w1) in *.
  assert (Hdoc2 : doctor_of (db w2) (auth w2) (route_id w2) = true).
  { unfold doctor_of in *. rewrite Hauth2, Hroute2, Hcons2. exact Hdoc1. }
  split; [rewrite Hnote2, Hroute1; reflexivity|].
  rewrite fetchMedicalNote_run. unfold page_of. simpl.
  rewrite (seen_notes_are_notes_of _ Hdoc2), Hroute2, Hrows2.
  rewrite Hroute1, Hrows1.
  destruct (notes_of (db w) (route_id w)) as [|r rows];
    [|destruct rows]; split; reflexivity.
Qed.

Lemma second_transcript_hides_the_note_on_reload_witness :
  doctor_of (db page0) (auth page0) (route_id page0) = true
  /\ fresh_note_id (db page0) 100%N = true
  /\ fresh_note_id (db (transcribed 100%N headache blob0 page0)) 101%N = true
  /\ medicalNote
       (world (snd (fetchMedicalNote None
                      (page_of (transcribed 101%N headache blob0
                                  (transcribed 100%N headache blob0 page0))))))
     = None.
Proof.
  split; [reflexivity|]. split; [reflexivity|]. split; [reflexivity|].
  exact (proj1 (proj2 (second_transcript_hides_the_note_on_reload
                         100%N 101%N headache headache blob0 blob0 page0
                         eq_refl eq_refl eq_refl))).
Defined.

End ConsultationPageLoadFacts.

(* ================================================================== *)
(** * NewConsultationDialog: rejected and accepted submits *)
(* ================================================================== *)

Module DialogFacts.
Import Js Gateway GatewayQueries Eff Ui NewConsultationDialog DialogOutcome.
Import NewConsultationDialogFacts.

Lemma insert_decided (uuid : Uuid) (w : World) :
  insert_consultation (auth w) uuid
    (mkConsultationInsert (patientName w) (or_null (patientId w)) (auth w)) (db w)
  = match auth w with
    | Some u =>
        if submit_accepted uuid w
        then (inl (submitted_row uuid u w),
              mkDb (profiles (db w))
                   (consultations (db w) ++ [submitted_row uuid u w])
                   (medical_notes (db w)))
        else (inr (if fresh_consultation_id (db w) uuid
                   then foreign_key_violation else unique_violation), db w)
    | None => (inr rls_violation, db w)
    end.
Proof.
  unfold insert_consultation, submit_accepted, fresh_consultation_id, has_profile.
  simpl. destruct (auth w) as [u|]; [|reflexivity].
  rewrite N.eqb_refl. simpl.
  destruct (existsb (fun c => (cons_id c =? uuid)%N) (consultations (db w)));
    simpl; [reflexivity|].
  destruct (existsb (fun p => (user_id p =? u)%N) (profiles (db w)));
    reflexivity.
Qed.

(** X14. A submit whose insert is rejected (nobody signed in, no profile
    row, or a key already in use) creates nothing and loses nothing: the
    database is unchanged, the form keeps what was typed, the dialog stays
    as it was, nothing is navigated to, [onSuccess] is not called; the
    [loading] flag is off again and one error toast is shown. *)
Theorem rejected_submit_keeps_the_form (uuid : Uuid) (w : World) :
  submit_accepted uuid w = false ->
  handleSubmit uuid w
  = (Normal tt,
     mkWorld (db w) (auth w) (patientName w) (patientId w) false
       (dialog_open w) (onSuccess_calls w) (navigated w)
       (toasts w ++ [create_failed])).
Proof.
  intros Hrej. rewrite handleSubmit_run, insert_decided.
  destruct (auth w) as [u|]; [rewrite Hrej|]; reflexivity.
Qed.

Lemma rejected_submit_keeps_the_form_witness :
  submit_accepted 2%N dialog_signed_out = false
  /\ handleSubmit 2%N dialog_signed_out
     = (Normal tt,
        mkWorld (db dialog0) None (lit "Ravi Kumar") (lit "P12345") false true 0
          [] [create_failed]).
Proof.
  split; [reflexivity|].
  exact (rejected_submit_keeps_the_form 2%N dialog_signed_out eq_refl).
Defined.

Lemma handleSubmit_accepted (uuid u : Uuid) (w : World) :
  auth w = Some u ->
  submit_accepted uuid w = true ->
  handleSubmit uuid w
  = (Normal tt,
     mkWorld
       (mkDb (profiles (db w))
          (consultations (db w) ++ [submitted_row uuid u w])
          (medical_notes (db w)))
       (auth w) empty empty false false (S (onSuccess_calls w))
       (navigated w ++ [uuid]) (toasts w ++ [started (patientName w)])).
Proof.
  intros Hauth Hacc. rewrite handleSubmit_run, insert_decided, Hauth, Hacc.
  reflexivity.
Qed.

(** X15. An accepted submit, seen from the dialog: the row written carries
    the typed name, and the typed patient id or [NULL] when that field was
    left empty; the form is cleared, the dialog closed, [onSuccess] called
    once, the new consultation navigated to, and the toast names the
    patient. *)
Theorem accepted_submit_resets_the_form (uuid u : Uuid) (w : World) :
  auth w = Some u ->
  submit_accepted uuid w = true ->
  handleSubmit uuid w
  = (Normal tt,
     mkWorld
       (mkDb (profiles (db w))
          (consultations (db w) ++ [submitted_row uuid u w])
          (medical_notes (db w)))
       (auth w) empty empty false false (S (onSuccess_calls w))
       (navigated w ++ [uuid]) (toasts w ++ [started (patientName w)]))
  /\ patient_id (submitted_row uuid u w)
     = match patientId w with [] => None | _ :: _ => Some (patientId w) end.
Proof.
  intros Hauth Hacc. split; [exact (handleSubmit_accepted uuid u w Hauth Hacc)|].
  simpl. unfold or_null. destruct (patientId w); reflexivity.
Qed.

Lemma accepted_submit_resets_the_form_witness :
  auth dialog0 = Some 7%N
  /\ submit_accepted 2%N dialog0 = true
  /\ snd (handleSubmit 2%N dialog0)
     = mkWorld
         (mkDb (profiles (db dialog0))
            (consultations (db dialog0)
             ++ [mkConsultation 2%N 7%N (lit "Ravi Kumar") None in_progress None])
            [])
         (Some 7%N) empty empty false false 1 [2%N]
         [started (lit "Ravi Kumar")].
Proof.
  split; [reflexivity|]. split; [reflexivity|].
  exact (f_equal snd (proj1 (accepted_submit_resets_the_form 2%N 7%N dialog0
                               eq_refl eq_refl))).
Defined.

(** X16. The tables under a submit, whatever it is: the existing
    consultations stay where they are and at most one is appended; notes
    and profiles are untouched; and if no two consultations shared a key
    before, none do after. *)
Theorem submit_keeps_the_tables_sound (uuid : Uuid) (w : World) :
  (exists added, consultations (db (submitted uuid w))
                 = consultations (db w) ++ added
                 /\ List.length added <= 1)
  /\ medical_notes (db (submitted uuid w)) = medical_notes (db w)
  /\ profiles (db (submitted uuid w)) = profiles (db w)
  /\ (NoDup (map cons_id (consultations (db w))) ->
      NoDup (map cons_id (consultations (db (submitted uuid w))))).
Proof.
  unfold submitted. rewrite handleSubmit_run, insert_decided.
  destruct (auth w) as [u|] eqn:Hauth.
  - destruct (submit_accepted uuid w) eqn:Hacc; simpl.
    + split; [eexists; split; [reflexivity|simpl; lia]|].
      split; [reflexivity|]. split; [reflexivity|].
      intros Hnd. rewrite map_app. simpl. apply NoDup_app.
      * exact Hnd.
      * constructor; [intros []|constructor].
      * intros a Ha [<-|[]].
        unfold submit_accepted in Hacc. rewrite Hauth in Hacc.
        apply andb_true_iff in Hacc. destruct Hacc as [Hfresh _].
        apply in_map_iff in Ha. destruct Ha as (c0 & Hid & Hin).
        exact (unused_key (db w) uuid c0 Hfresh Hin Hid).
    + split; [exists []; split; [symmetry; apply app_nil_r|simpl; lia]|].
      repeat split. intros H; exact H.
  - simpl. split; [exists []; split; [symmetry; apply app_nil_r|simpl; lia]|].
    repeat split. intros H; exact H.
Qed.

End DialogFacts.

(* ================================================================== *)
(** * From the dialog to the page *)
(* ================================================================== *)

Module DialogToPage.
Import Js Gateway GatewayQueries Eff Ui.
Import DialogOutcome NewConsultationDialogFacts DialogFacts.
Import PageUpdates ConsultationPageLoad ConsultationPageLoadFacts.

Lemma submit_keeps_the_tables_sound_witness :
  NoDup (map cons_id (consultations (NewConsultationDialog.db NewConsultationDialog.dialog0)))
  /\ NoDup (map cons_id
              (consultations
                 (NewConsultationDialog.db
                    (NewConsultationDialog.submitted 2%N NewConsultationDialog.dialog0)))).
Proof.
  assert (H : NoDup (map cons_id
                (consultations
                   (NewConsultationDialog.db NewConsultationDialog.dialog0)))).
  { constructor; [intros []|constructor]. }
  split; [exact H|].
  exact (proj2 (proj2 (proj2
           (submit_keeps_the_tables_sound 2%N NewConsultationDialog.dialog0))) H).
Defined.

(** X17. Create, then open.  After an accepted submit, the page the dialog
    navigates to loads exactly the consultation just created: owned by the
    signed-in doctor, in progress, with the typed name; it has no note, so
    the page opens on the recording tab, without spinner, toast or
    navigation.  (The tables are assumed to respect the foreign key of
    [medical_notes].) *)
Theorem created_consultation_opens (uuid u : Uuid)
    (w : NewConsultationDialog.World) :
  NewConsultationDialog.auth w = Some u ->
  submit_accepted uuid w = true ->
  notes_refer (NewConsultationDialog.db w) ->
  loaded None None
    (fresh_page (NewConsultationDialog.db (NewConsultationDialog.submitted uuid w))
       (Some u) uuid)
  = mkPage
      (ConsultationPage.mkWorld
         (NewConsultationDialog.db (NewConsultationDialog.submitted uuid w))
         (Some u) uuid (Some (submitted_row uuid u w)) None false
         ConsultationPage.recording [] [])
      false 0
  /\ status (submitted_row uuid u w) = in_progress
  /\ doctor_id (submitted_row uuid u w) = u
  /\ patient_name (submitted_row uuid u w) = NewConsultationDialog.patientName w.
Proof.
  intros Hauth Hacc Href.
  pose proof (handleSubmit_accepted uuid u w Hauth Hacc) as Hrun.
  unfold NewConsultationDialog.submitted. rewrite Hrun. simpl.
  assert (Hfresh : fresh_consultation_id (NewConsultationDialog.db w) uuid = true).
  { unfold submit_accepted in Hacc. rewrite Hauth in Hacc.
    apply andb_true_iff in Hacc. exact (proj1 Hacc). }
  split; [|repeat split].
  set (d' := mkDb _ _ _).
  assert (Hseen : seen_consultations
                    (world (fresh_page d' (Some u) uuid))
                  = [submitted_row uuid u w]).
  { unfold seen_consultations, select_consultations, fresh_page, d'. simpl.
    rewrite filter_app. simpl. rewrite !N.eqb_refl. simpl.
    rewrite filter_nothing; [reflexivity|].
    intros c Hin. destruct (cons_id c =? uuid)%N eqn:E; [|reflexivity].
    apply N.eqb_eq in E.
    destruct (unused_key (NewConsultationDialog.db w) uuid c Hfresh Hin E). }
  assert (Hnotes : seen_notes (world (fresh_page d' (Some u) uuid)) = []).
  { unfold seen_notes, select_notes, fresh_page, d'. simpl.
    apply filter_nothing. intros r Hin.
    destruct (consultation_id r =? uuid)%N eqn:E; [|reflexivity].
    apply N.eqb_eq in E.
    destruct (Href r Hin) as (c & Hc & Hid).
    destruct (unused_key (NewConsultationDialog.db w) uuid c Hfresh Hc
                (eq_trans Hid E)). }
  rewrite (mount_run (fresh_page d' (Some u) uuid) (submitted_row uuid u w) Hseen).
  rewrite Hnotes. reflexivity.
Qed.

Lemma created_consultation_opens_witness :
  NewConsultationDialog.auth NewConsultationDialog.dialog0 = Some 7%N
  /\ submit_accepted 2%N NewConsultationDialog.dialog0 = true
  /\ notes_refer (NewConsultationDialog.db NewConsultationDialog.dialog0)
  /\ ConsultationPage.consultation
       (world (loaded None None
                 (fresh_page
                    (NewConsultationDialog.db
                       (NewConsultationDialog.submitted 2%N NewConsultationDialog.dialog0))
                    (Some 7%N) 2%N)))
     = Some (mkConsultation 2%N 7%N (lit "Ravi Kumar") None in_progress None).
Proof.
  assert (H : notes_refer (NewConsultationDialog.db NewConsultationDialog.dialog0)).
  { intros r []. }
  split; [reflexivity|]. split; [reflexivity|]. split; [exact H|].
  exact (f_equal (fun p => ConsultationPage.consultation (world p))
           (proj1 (created_consultation_opens 2%N 7%N NewConsultationDialog.dialog0
                     eq_refl eq_refl H))).
Defined.

End DialogToPage.

(* ================================================================== *)
(** * AudioRecorder: outcomes, and what reaches the page *)
(* ================================================================== *)

Module RecorderFacts.
Import Js Eff Ui AudioRecorder RecorderOutcome JsFacts AudioRecorderFacts.

(** Every answer of the environment is of exactly one of three kinds. *)
Lemma outcome_cases (env : Backend) :
  (failed env = true /\ handed_over env = None)
  \/ (no_speech env = true /\ handed_over env = Some placeholderText)
  \/ (exists t, spoken env = Some t /\ handed_over env = Some t
                /\ failed env = false /\ no_speech env = false
                /\ blank t = false).
Proof.
  unfold handed_over.
  destruct env as [msg|msg|[|] text [data|]]; simpl; auto.
  destruct (truthy_member (data_error data)) eqn:Herr; simpl; auto.
  destruct (data_text data) as [t|]; simpl; auto.
  destruct (blank t) eqn:Hb; simpl; auto.
  right. right. exists t. auto.
Qed.

Lemma transcribeAudio_spoken (env : Backend) (t : jsstring) (audioBlob : Blob)
    (w : World) :
  spoken env = Some t ->
  transcribeAudio env audioBlob w
  = (Normal tt,
     mkWorld false (toasts w) (onTranscriptionComplete_calls w ++ [(t, audioBlob)])).
Proof.
  intros H. destruct env as [msg|msg|[|] text [data|]]; simpl in H;
    try discriminate.
  destruct (truthy_member (data_error data)) eqn:Herr; [discriminate|].
  destruct (data_text data) as [t0|] eqn:Htext; [|discriminate].
  destruct (blank t0) eqn:Hb; [discriminate|]. injection H as ->.
  run_recorder. simpl. rewrite Herr, Htext. simpl.
  rewrite (truthy_blank_false t Hb). simpl.
  rewrite (no_transcript_test t), Hb. reflexivity.
Qed.

(** X18. One recording, one outcome.  For every answer of the environment
    [transcribeAudio] returns without throwing, with [isTranscribing] off,
    and either calls [onTranscriptionComplete] exactly once, with the
    recording and a transcript that is not blank, and shows no toast, or
    makes no call and shows exactly one "Transcription Error" toast. *)
Theorem recording_ends_in_one_call_or_one_toast (env : Backend)
    (audioBlob : Blob) (w : World) :
  fst (transcribeAudio env audioBlob w) = Normal tt
  /\ isTranscribing (after_recording env audioBlob w) = false
  /\ ((exists t,
         handed_over env = Some t
         /\ blank t = false
         /\ onTranscriptionComplete_calls (after_recording env audioBlob w)
            = onTranscriptionComplete_calls w ++ [(t, audioBlob)]
         /\ toasts (after_recording env audioBlob w) = toasts w)
      \/ (handed_over env = None
          /\ onTranscriptionComplete_calls (after_recording env audioBlob w)
             = onTranscriptionComplete_calls w
          /\ exists msg,
               toasts (after_recording env audioBlob w)
               = toasts w ++ [transcription_error msg])).
Proof.
  unfold after_recording.
  destruct (outcome_cases env) as [(Hf & Hh) | [(Hn & Hh) | (t & Hs & Hh & _ & _ & Hb)]].
  - destruct (transcribeAudio_failed env audioBlob w Hf) as [msg ->]. simpl.
    split; [reflexivity|]. split; [reflexivity|].
    right. split; [exact Hh|]. split; [reflexivity|]. exists msg. reflexivity.
  - rewrite (transcribeAudio_no_speech env audioBlob w Hn). simpl.
    split; [reflexivity|]. split; [reflexivity|].
    left. exists placeholderText. split; [exact Hh|].
    split; [vm_compute; reflexivity|]. split; reflexivity.
  - rewrite (transcribeAudio_spoken env t audioBlob w Hs). simpl.
    split; [reflexivity|]. split; [reflexivity|].
    left. exists t. split; [exact Hh|]. split; [exact Hb|]. split; reflexivity.
Qed.

End RecorderFacts.

(* ================================================================== *)
(** * From the recorder to the page *)
(* ================================================================== *)

Module RecorderToPage.
Import Js Gateway Eff Ui.
Import RecorderOutcome RecorderFacts ConsultationPageFacts.

(** X19. What a recording can put into the database.  The text the
    recorder hands over is either the recognised speech, as the backend
    sent it, or the recorder's own "no speech" placeholder, and the page
    never takes its "Transcription failed" branch for it: the row written
    is the transcript row.  When that text is one a [text] column can hold
    (no U+0000, no unpaired surrogate; the placeholder is) and the page's
    write is accepted, the stored note has it word for word as [subjective]
    and as [raw_transcript]. *)
Theorem recorder_text_is_stored_verbatim (env : AudioRecorder.Backend)
    (t : jsstring) (audioBlob : Blob) (uuid : Uuid) (w : ConsultationPage.World) :
  handed_over env = Some t ->
  (t = AudioRecorder.placeholderText \/ spoken env = Some t)
  /\ blank t = false
  /\ GatewayText.storable AudioRecorder.placeholderText = true
  /\ ConsultationPage.row_for (ConsultationPage.route_id w) t
     = ConsultationPage.transcript_row (ConsultationPage.route_id w) t
  /\ (GatewayText.storable t = true ->
      doctor_of (ConsultationPage.db w) (ConsultationPage.auth w)
        (ConsultationPage.route_id w) = true ->
      fresh_note_id (ConsultationPage.db w) uuid = true ->
      GatewayText.row_storable
        (ConsultationPage.row_for (ConsultationPage.route_id w) t) = true
      /\ exists n,
           ConsultationPage.medicalNote
             (ConsultationPage.transcribed uuid t audioBlob w) = Some n
           /\ medical_notes (ConsultationPage.db
                               (ConsultationPage.transcribed uuid t audioBlob w))
              = medical_notes (ConsultationPage.db w) ++ [n]
           /\ subjective n = Some t
           /\ raw_transcript n = Some t).
Proof.
  intros Hh.
  assert (Hb : blank t = false).
  { destruct (outcome_cases env) as [(_ & H) | [(_ & H) | (t' & _ & H & _ & _ & Hb)]];
      rewrite Hh in H.
    - discriminate.
    - injection H as ->. vm_compute. reflexivity.
    - injection H as ->. exact Hb. }
  split.
  { destruct (outcome_cases env) as [(_ & H) | [(_ & H) | (t' & Hs & H & _)]];
      rewrite Hh in H.
    - discriminate.
    - injection H as ->. left. reflexivity.
    - injection H as ->. right. exact Hs. }
  split; [exact Hb|].
  split; [vm_compute; reflexivity|].
  split; [unfold ConsultationPage.row_for; rewrite Hb; reflexivity|].
  intros Hst Hdoc Hfresh.
  split.
  { unfold GatewayText.row_storable, ConsultationPage.row_for. rewrite Hb. simpl.
    rewrite (JsFacts.or_else_truthy t empty (JsFacts.truthy_blank_false t Hb)).
    rewrite Hst. reflexivity. }
  destruct (handleTranscriptionComplete_stores uuid t audioBlob w Hdoc Hfresh)
    as (Hrows & _ & Hnote & _).
  eexists. split; [exact Hnote|]. split; [exact Hrows|].
  unfold ConsultationPage.row_for. rewrite Hb. simpl.
  rewrite (JsFacts.or_else_truthy t empty (JsFacts.truthy_blank_false t Hb)).
  split; reflexivity.
Qed.

Lemma recorder_text_is_stored_verbatim_witness :
  handed_over AudioRecorder.silence = Some AudioRecorder.placeholderText
  /\ GatewayText.storable AudioRecorder.placeholderText = true
  /\ doctor_of (ConsultationPage.db ConsultationPage.page0)
       (ConsultationPage.auth ConsultationPage.page0)
       (ConsultationPage.route_id ConsultationPage.page0) = true
  /\ fresh_note_id (ConsultationPage.db ConsultationPage.page0) 100%N = true
  /\ exists n,
       ConsultationPage.medicalNote
         (ConsultationPage.transcribed 100%N AudioRecorder.placeholderText
            AudioRecorder.blob0 ConsultationPage.page0) = Some n
       /\ subjective n = Some AudioRecorder.placeholderText
       /\ raw_transcript n = Some AudioRecorder.placeholderText.
Proof.
  split; [reflexivity|]. split; [reflexivity|]. split; [reflexivity|].
  split; [reflexivity|].
  destruct (recorder_text_is_stored_verbatim AudioRecorder.silence
              AudioRecorder.placeholderText AudioRecorder.blob0 100%N
              ConsultationPage.page0 eq_refl)
    as (_ & _ & _ & _ & Hstore).
  destruct (Hstore eq_refl eq_refl eq_refl)
    as (_ & n & Hnote & _ & Hsub & Hraw).
  exists n. split; [exact Hnote|]. split; [exact Hsub|exact Hraw].
Defined.

End RecorderToPage.

(* ================================================================== *)
(** * AudioRecorder: the clock display *)
(* ================================================================== *)

Module RecorderClockFacts.
Import Js RecorderClock.

Lemma jsstring_eqb_eq (a b : jsstring) : jsstring_eqb a b = true -> a = b.
Proof.
  revert b. induction a as [|x a IH]; intros [|y b]; simpl; try discriminate.
  - reflexivity.
  - intros H. apply andb_true_iff in H. destruct H as [Hx Hr].
    apply N.eqb_eq in Hx. rewrite Hx, (IH b Hr). reflexivity.
Qed.

(** Below one hundred, padding to two places gives the two digits. *)
Lemma pad_two_digits (n : N) :
  (n < 100)%N -> padStart 2 48%N (toString n) = two_digits n.
Proof.
  intros Hn.
  assert (Hall : forallb (fun k => jsstring_eqb
                            (padStart 2 48%N (toString (N.of_nat k)))
                            (two_digits (N.of_nat k)))
                         (seq 0 100) = true) by (vm_compute; reflexivity).
  rewrite forallb_forall in Hall.
  specialize (Hall (N.to_nat n)).
  rewrite N2Nat.id in Hall. apply jsstring_eqb_eq, Hall.
  apply in_seq. lia.
Qed.

(** A number printed with at most two digits is below one hundred. *)
Lemma short_print_is_small (n : N) :
  List.length (toString n) <= 2 -> (n < 100)%N.
Proof.
  unfold toString. intros Hlen.
  rewrite <- (DecimalN.Unsigned.of_to n).
  destruct (N.to_uint n) as [|u|u|u|u|u|u|u|u|u|u];
    try (vm_compute; reflexivity);
    destruct u as [|u|u|u|u|u|u|u|u|u|u];
    try (vm_compute; reflexivity);
    destruct u; simpl in Hlen; try lia; vm_compute; reflexivity.
Qed.

(** The digits printed for a number read back as that number, and none of
    them is a colon. *)
Lemma uint_of_digits_of_uint (d : Decimal.uint) :
  uint_of_digits (digits_of_uint d) = Some d.
Proof. induction d; simpl; try rewrite IHd; reflexivity. Qed.

Lemma number_of_toString (n : N) : number_of (toString n) = Some n.
Proof.
  unfold number_of, toString. rewrite uint_of_digits_of_uint.
  rewrite DecimalN.Unsigned.of_to. reflexivity.
Qed.

Lemma number_of_zero_first (s : jsstring) :
  number_of (48%N :: s) = number_of s.
Proof.
  unfold number_of. simpl. destruct (uint_of_digits s); reflexivity.
Qed.

Lemma number_of_padStart (k : nat) (n : N) :
  number_of (padStart k 48%N (toString n)) = Some n.
Proof.
  unfold padStart.
  induction (k - List.length (toString n)) as [|m IH]; simpl.
  - apply number_of_toString.
  - rewrite number_of_zero_first. exact IH.
Qed.

Lemma split_at_colon_digits (a b : jsstring) :
  number_of a <> None -> split_at_colon (a ++ 58%N :: b) = (a, b).
Proof.
  induction a as [|c a IH]; intros Ha; simpl.
  - reflexivity.
  - unfold number_of in Ha. simpl in Ha.
    destruct (c =? 58)%N eqn:E.
    + apply N.eqb_eq in E. subst c. exfalso. apply Ha.
      destruct (uint_of_digits a); reflexivity.
    + rewrite IH; [reflexivity|].
      unfold number_of. destruct (uint_of_digits a); [discriminate|].
      exfalso. apply Ha. reflexivity.
Qed.

(** What is read back from a display is the duration. *)
Lemma read_time_formatTime (seconds : N) :
  read_time (formatTime seconds) = Some seconds.
Proof.
  unfold read_time, formatTime. cbv zeta.
  change (lit ":") with [58%N]. simpl app.
  rewrite split_at_colon_digits
    by (rewrite number_of_padStart; discriminate).
  rewrite !number_of_padStart. f_equal.
  pose proof (N.div_mod seconds 60%N). lia.
Qed.

(** X20. The clock.  For every duration the display reads back as that
    duration (the number before the colon times sixty plus the number after
    it), so two different durations never look the same and the minutes are
    never cut or wrapped.  Below 100 minutes the display is exactly two
    digits of minutes, a colon and two digits of seconds; from 100 minutes
    on the minutes are printed in full, with as many digits as they have,
    before the colon and the two digits of seconds. *)
Theorem formatTime_is_a_faithful_clock (seconds : N) :
  read_time (formatTime seconds) = Some seconds
  /\ (forall other, formatTime other = formatTime seconds -> other = seconds)
  /\ ((seconds < 6000)%N ->
      formatTime seconds
      = two_digits (seconds / 60) ++ [58%N] ++ two_digits (seconds mod 60)
      /\ read_clock (formatTime seconds) = seconds)
  /\ ((6000 <= seconds)%N ->
      formatTime seconds
      = toString (seconds / 60) ++ [58%N] ++ two_digits (seconds mod 60)
      /\ 2 < List.length (toString (seconds / 60))).
Proof.
  assert (Hsecs : padStart 2 48%N (toString (seconds mod 60))
                  = two_digits (seconds mod 60)).
  { apply pad_two_digits. pose proof (N.mod_upper_bound seconds 60). lia. }
  assert (Hshape : (seconds < 6000)%N ->
            formatTime seconds
            = two_digits (seconds / 60) ++ [58%N] ++ two_digits (seconds mod 60)).
  { intros Hs. unfold formatTime. cbv zeta.
    rewrite (pad_two_digits (seconds / 60)).
    - rewrite Hsecs. reflexivity.
    - apply N.Div0.div_lt_upper_bound. lia. }
  split; [apply read_time_formatTime|]. split.
  { intros other Heq.
    pose proof (read_time_formatTime other) as Ho.
    rewrite Heq, read_time_formatTime in Ho. congruence. }
  split.
  - intros Hs. split; [exact (Hshape Hs)|]. rewrite (Hshape Hs).
    unfold read_clock, digit_at, two_digits. cbn [app nth].
    assert (Hsplit : forall a b, (b <> 0)%N -> (a = b * (a / b) + a mod b)%N)
      by (intros a b Hb; apply N.div_mod, Hb).
    pose proof (Hsplit seconds 60%N ltac:(discriminate)).
    pose proof (Hsplit (seconds / 60)%N 10%N ltac:(discriminate)).
    pose proof (Hsplit (seconds mod 60)%N 10%N ltac:(discriminate)).
    assert (Hc : forall x, (48 + x - 48 = x)%N) by (intros x; lia).
    rewrite !Hc. congruence.
  - intros Hs.
    assert (Hm : 2 < List.length (toString (seconds / 60))).
    { destruct (Nat.le_gt_cases (List.length (toString (seconds / 60))) 2) as [Hle|Hgt];
        [|exact Hgt].
      apply short_print_is_small in Hle.
      assert (100 <= seconds / 60)%N by (apply N.div_le_lower_bound; lia).
      lia. }
    split; [|exact Hm].
    unfold formatTime. cbv zeta. rewrite Hsecs.
    unfold padStart at 1.
    replace (2 - List.length (toString (seconds / 60))) with 0 by lia.
    reflexivity.
Qed.

Lemma formatTime_is_a_faithful_clock_witness :
  (75 < 6000)%N
  /\ formatTime 75 = lit "01:15"
  /\ (6000 <= 6000)%N
  /\ formatTime 6000 = lit "100:00"
  /\ read_time (lit "100:00") = Some 6000%N.
Proof.
  split; [reflexivity|].
  split; [exact (proj1 (proj1 (proj2 (proj2 (formatTime_is_a_faithful_clock 75)))
                          eq_refl))|].
  split; [discriminate|].
  split.
  - exact (proj1 (proj2 (proj2 (proj2 (formatTime_is_a_faithful_clock 6000)))
                    (fun H : (6000 ?= 6000)%N = Gt => ltac:(discriminate H)))).
  - exact (proj1 (formatTime_is_a_faithful_clock 6000)).
Defined.

End RecorderClockFacts.

(* ================================================================== *)
(** * The poll loop: bounded, and decided by the first decisive answer *)
(* ================================================================== *)

Module PollFacts.
Import Js Transcribe PollVerdict TranscribeFacts.

(** One iteration on an answer that is not "still working". *)
Lemma poll_loop_decides (fuel maxAttempts : nat) (vendor : Vendor) (st : Poll) :
  attempts st < maxAttempts ->
  pending (vendor (requests st)) = false ->
  poll_loop (S fuel) maxAttempts vendor st
  = Some (decided (vendor (requests st)),
          mkPoll (attempts st) (waited_ms st + 1000) (S (requests st))).
Proof.
  intros Hlt Hp. cbn [poll_loop].
  apply Nat.ltb_lt in Hlt. rewrite Hlt.
  destruct (vendor (requests st)) as [msg|ok sd]; [reflexivity|].
  unfold decided. simpl in Hp.
  destruct ok; [|reflexivity]. cbn [negb].
  destruct (jsstring_eqb (status sd) (lit "completed")); [reflexivity|].
  destruct (jsstring_eqb (status sd) (lit "error")); [reflexivity|].
  discriminate.
Qed.

Lemma poll_first_decisive (maxAttempts : nat) (vendor : Vendor) (k : nat) :
  k < maxAttempts ->
  first_decisive vendor k ->
  poll maxAttempts vendor
  = Some (decided (vendor k), mkPoll k (1000 * S k) (S k)).
Proof.
  intros Hk [Hdec Hbefore]. unfold poll.
  replace (S maxAttempts) with (k + S (maxAttempts - k)) by lia.
  rewrite poll_loop_pending.
  - rewrite poll_loop_decides.
    + cbn [attempts waited_ms requests poll_start Nat.add].
      f_equal. f_equal. f_equal; lia.
    + cbn [attempts poll_start Nat.add]. exact Hk.
    + cbn [requests poll_start Nat.add]. exact Hdec.
  - intros j Hj. apply Hbefore, Hj.
  - cbn [attempts poll_start]. lia.
Qed.

(** Among the first [n] answers either all are "still working" or there
    is a first one that is not. *)
Lemma pending_or_decisive (vendor : Vendor) (n : nat) :
  (forall k, k < n -> pending (vendor k) = true)
  \/ (exists k, k < n /\ first_decisive vendor k).
Proof.
  induction n as [|n IH].
  - left. intros k Hk. lia.
  - destruct IH as [Hall | (k & Hk & Hfirst)].
    + destruct (pending (vendor n)) eqn:Hn.
      * left. intros k Hk.
        destruct (Nat.eq_dec k n) as [->|Hne]; [exact Hn|]. apply Hall. lia.
      * right. exists n. split; [lia|]. split; [exact Hn|exact Hall].
    + right. exists k. split; [lia|exact Hfirst].
Qed.

(** X21. The first answer that is not "still working" ends the poll, for
    better or worse.  If it comes at request k+1 within the cap, both
    functions stop there, k+1 seconds in, and answer with what that answer
    says: the transcript on ["completed"], a 500 with the vendor's error on
    ["error"], a 500 on a failed status request.  What the vendor would
    have said later is never asked for. *)
Theorem first_decisive_answer_ends_the_poll (vendor : Vendor) (k : nat) :
  first_decisive vendor k ->
  (k < 30 ->
   transcribe_assemblyai vendor
   = Some (answer (decided (vendor k)), mkPoll k (1000 * S k) (S k)))
  /\ (k < 60 ->
      transcribe_audio vendor
      = Some (answer (decided (vendor k)), mkPoll k (1000 * S k) (S k))).
Proof.
  intros Hfirst. split; intros Hk.
  - unfold transcribe_assemblyai.
    rewrite (poll_first_decisive 30 vendor k Hk Hfirst). reflexivity.
  - unfold transcribe_audio.
    rewrite (poll_first_decisive 60 vendor k Hk Hfirst). reflexivity.
Qed.

Lemma third_time_first_decisive : first_decisive third_time 2.
Proof.
  split; [reflexivity|].
  intros j Hj. destruct j as [|[|j]]; [reflexivity|reflexivity|lia].
Defined.

Lemma first_decisive_answer_ends_the_poll_witness :
  first_decisive third_time 2
  /\ 2 < 30
  /\ transcribe_assemblyai third_time
     = Some (mkResponse 200 (BodyText (Some (lit "Patient reports headache."))),
             mkPoll 2 (1000 * 3) 3).
Proof.
  split; [exact third_time_first_decisive|].
  split; [repeat constructor|].
  exact (proj1 (first_decisive_answer_ends_the_poll third_time 2
                  third_time_first_decisive)
           ltac:(repeat constructor)).
Defined.

(** X22. Both functions answer, whatever the vendor does, after at most
    [maxAttempts] status requests (30 and 60), each preceded by a wait of
    one second. *)
Theorem poll_is_bounded (vendor : Vendor) :
  (exists resp st,
     transcribe_assemblyai vendor = Some (resp, st)
     /\ requests st <= 30 /\ waited_ms st = 1000 * requests st)
  /\ (exists resp st,
        transcribe_audio vendor = Some (resp, st)
        /\ requests st <= 60 /\ waited_ms st = 1000 * requests st).
Proof.
  split.
  - destruct (poll_total 30 vendor) as (r & st & Hrun & Hreq & Hwait).
    exists (answer r), st. unfold transcribe_assemblyai. rewrite Hrun. auto.
  - destruct (poll_total 60 vendor) as (r & st & Hrun & Hreq & Hwait).
    exists (answer r), st. unfold transcribe_audio. rewrite Hrun. auto.
Qed.

Lemma poll_200 (maxAttempts : nat) (vendor : Vendor) (r : Response + jsstring)
    (st : Poll) :
  poll maxAttempts vendor = Some (r, st) ->
  http_status (answer r) = 200 ->
  exists k sd,
    k < maxAttempts /\ requests st = S k
    /\ vendor k = StatusAnswered true sd
    /\ jsstring_eqb (status sd) (lit "completed") = true
    /\ answer r = mkResponse 200 (BodyText (text sd))
    /\ forall j, j < k -> pending (vendor j) = true.
Proof.
  intros Hrun H200.
  destruct (pending_or_decisive vendor maxAttempts) as [Hall | (k & Hk & Hfirst)].
  - rewrite (poll_times_out maxAttempts vendor Hall) in Hrun.
    injection Hrun as <- <-. discriminate.
  - rewrite (poll_first_decisive maxAttempts vendor k Hk Hfirst) in Hrun.
    injection Hrun as <- <-.
    destruct Hfirst as [Hdec Hbefore].
    unfold decided in *.
    destruct (vendor k) as [msg|ok sd] eqn:Hv; [discriminate|].
    destruct ok; [|discriminate]. cbn [negb] in *.
    destruct (jsstring_eqb (status sd) (lit "completed")) eqn:Hc; [|discriminate].
    exists k, sd. repeat split; auto.
Qed.

Lemma transcribe_assemblyai_unfold (vendor : Vendor) :
  transcribe_assemblyai vendor
  = match poll 30 vendor with
    | Some (r, st0) => Some (answer r, st0)
    | None => None
    end.
Proof. unfold transcribe_assemblyai. reflexivity. Qed.

Lemma transcribe_audio_unfold (vendor : Vendor) :
  transcribe_audio vendor
  = match poll 60 vendor with
    | Some (r, st0) => Some (answer r, st0)
    | None => None
    end.
Proof. unfold transcribe_audio. reflexivity. Qed.

Lemma answered_200 (maxAttempts : nat) (vendor : Vendor) (resp : Response)
    (st : Poll) :
  match poll maxAttempts vendor with
  | Some (r, st0) => Some (answer r, st0)
  | None => None
  end = Some (resp, st) ->
  http_status resp = 200 ->
  exists k sd,
    k < maxAttempts /\ requests st = S k
    /\ vendor k = StatusAnswered true sd
    /\ jsstring_eqb (status sd) (lit "completed") = true
    /\ resp = mkResponse 200 (BodyText (text sd))
    /\ forall j, j < k -> pending (vendor j) = true.
Proof.
  intros Hrun H200.
  destruct (poll maxAttempts vendor) as [[r st0]|] eqn:Hp; [|discriminate].
  injection Hrun as <- <-. exact (poll_200 maxAttempts vendor r st0 Hp H200).
Qed.

(** X23. A 200 from either function is always a finished job: the answer
    carries the text of the first status answer that said ["completed"],
    every answer before it was "still working", and that answer came
    within the cap. *)
Theorem success_means_completed (vendor : Vendor) (resp : Response) (st : Poll) :
  (transcribe_assemblyai vendor = Some (resp, st) ->
   http_status resp = 200 ->
   exists k sd,
     k < 30 /\ requests st = S k
     /\ vendor k = StatusAnswered true sd
     /\ jsstring_eqb (status sd) (lit "completed") = true
     /\ resp = mkResponse 200 (BodyText (text sd))
     /\ forall j, j < k -> pending (vendor j) = true)
  /\ (transcribe_audio vendor = Some (resp, st) ->
      http_status resp = 200 ->
      exists k sd,
        k < 60 /\ requests st = S k
        /\ vendor k = StatusAnswered true sd
        /\ jsstring_eqb (status sd) (lit "completed") = true
        /\ resp = mkResponse 200 (BodyText (text sd))
        /\ forall j, j < k -> pending (vendor j) = true).
Proof.
  split; intros Hrun H200.
  - rewrite transcribe_assemblyai_unfold in Hrun.
    exact (answered_200 30 vendor resp st Hrun H200).
  - rewrite transcribe_audio_unfold in Hrun.
    exact (answered_200 60 vendor resp st Hrun H200).
Qed.

Lemma success_means_completed_witness :
  transcribe_assemblyai third_time
  = Some (mkResponse 200 (BodyText (Some (lit "Patient reports headache."))),
          mkPoll 2 (1000 * 3) 3)
  /\ exists k sd,
       k < 30 /\ third_time k = StatusAnswered true sd
       /\ jsstring_eqb (status sd) (lit "completed") = true.
Proof.
  assert (Hrun : transcribe_assemblyai third_time
                 = Some (mkResponse 200 (BodyText (Some (lit "Patient reports headache."))),
                         mkPoll 2 (1000 * 3) 3)) by reflexivity.
  split; [exact Hrun|].
  destruct (proj1 (success_means_completed third_time _ _) Hrun eq_refl)
    as (k & sd & Hk & _ & Hv & Hc & _).
  exists k, sd. auto.
Defined.

End PollFacts.

(* ================================================================== *)
(** * Note generation (OpenAI): when the answer is a 200 *)
(* ================================================================== *)

Module OpenAIFacts.
Import Js JsValues SoapNote OpenAIServe.

(** On a request that carries a string as transcript and a vendor answer
    of the expected shape, the function is the one of [SoapNote]. *)
Lemma serve_on_typed_answers (JSON_parse : jsstring -> Json + jsstring)
    (Number_toString : Z -> jsstring) (transcript : jsstring)
    (vendor : SoapNote.OpenAI) :
  serve JSON_parse Number_toString (lit "POST") (request_json transcript)
    (vendor_json vendor)
  = Answered (serve_openai JSON_parse transcript vendor).
Proof.
  unfold serve, serve_openai, request_json. simpl.
  destruct (truthy transcript); simpl; [|reflexivity].
  destruct vendor as [msg|ok errorText [choices]]; simpl; [reflexivity|].
  destruct ok; simpl; [|reflexivity].
  unfold parse_or_fallback, SoapNote.parse_or_fallback, first_content,
    parse_content.
  destruct choices as [|[[s|]] others]; simpl; reflexivity.
Qed.




End OpenAIFacts.

(* ================================================================== *)
(** * Decoding the upload in chunks *)
(* ================================================================== *)

Module Base64Facts.
Import Js Base64.

Lemma filter_no_whitespace (s : jsstring) :
  no_whitespace s -> filter (fun c => negb (is_ascii_whitespace c)) s = s.
Proof.
  induction s as [|c r IH]; intros H; [reflexivity|]. simpl.
  rewrite (H c (or_introl eq_refl)). simpl. f_equal. apply IH.
  intros x Hx. apply H. right. exact Hx.
Qed.

Lemma sextets_app (a b : jsstring) :
  sextets (a ++ b)
  = match sextets a, sextets b with
    | Some x, Some y => Some (x ++ y)
    | _, _ => None
    end.
Proof.
  induction a as [|c a IH]; simpl.
  - destruct (sextets b); reflexivity.
  - rewrite IH. destruct (sextet c); [|reflexivity].
    destruct (sextets a); [|reflexivity].
    destruct (sextets b); reflexivity.
Qed.

Lemma sextets_length (s : jsstring) (l : list N) :
  sextets s = Some l -> List.length l = List.length s.
Proof.
  revert l. induction s as [|c r IH]; simpl; intros l H.
  - injection H as <-. reflexivity.
  - destruct (sextet c); [|discriminate].
    destruct (sextets r) as [vs|]; [|discriminate].
    injection H as <-. simpl. f_equal. apply IH. reflexivity.
Qed.

Lemma sextets_last (s : jsstring) (l : list N) (c : N) (r : jsstring) :
  sextets s = Some l -> rev s = c :: r -> (c =? 61)%N = false.
Proof.
  intros Hs Hrev.
  assert (Hin : In c s) by (apply in_rev; rewrite Hrev; left; reflexivity).
  clear Hrev. revert l Hs. induction s as [|x s IH]; [destruct Hin|].
  intros l Hs. simpl in Hs.
  destruct (sextet x) eqn:Hx; [|discriminate].
  destruct (sextets s) as [vs|]; [|discriminate].
  destruct Hin as [->|Hin].
  - destruct (c =? 61)%N eqn:E; [|reflexivity].
    apply N.eqb_eq in E. subst c. discriminate.
  - exact (IH Hin vs eq_refl).
Qed.

(** A string of alphabet characters has no padding to drop. *)
Lemma strip_padding_alphabet (s : jsstring) (l : list N) :
  sextets s = Some l -> strip_padding s = s.
Proof.
  intros Hs. unfold strip_padding.
  destruct (Nat.eqb (List.length s mod 4) 0); [|reflexivity].
  destruct (rev s) as [|c r] eqn:Hrev; [reflexivity|].
  rewrite (sextets_last s l c r Hs Hrev). reflexivity.
Qed.

Lemma decode_sextets_app (n : nat) :
  forall a b, List.length a = 4 * n ->
    decode_sextets (a ++ b) = decode_sextets a ++ decode_sextets b.
Proof.
  induction n as [|n IH]; intros a b Hlen.
  - destruct a; [reflexivity|discriminate].
  - destruct a as [|x1 [|x2 [|x3 [|x4 a]]]]; try (simpl in Hlen; lia).
    cbn [app decode_sextets]. rewrite IH; [reflexivity|].
    simpl in Hlen. lia.
Qed.

(** The padding of a text is in its last group of four. *)
Lemma strip_padding_app (a r : jsstring) (n : nat) :
  List.length a = 4 * n -> r <> [] ->
  strip_padding (a ++ r) = a ++ strip_padding r.
Proof.
  intros Hlen Hr. unfold strip_padding.
  assert (Hmod : List.length (a ++ r) mod 4 = List.length r mod 4).
  { rewrite length_app, Hlen.
    rewrite Nat.add_comm, Nat.mul_comm. apply Nat.Div0.mod_add. }
  rewrite Hmod.
  destruct (Nat.eqb (List.length r mod 4) 0) eqn:E; [|reflexivity].
  apply Nat.eqb_eq in E.
  rewrite rev_app_distr.
  destruct (rev r) as [|c1 [|c2 z]] eqn:Hrev.
  - assert (r = []) by (rewrite <- (rev_involutive r), Hrev; reflexivity).
    contradiction.
  - exfalso.
    assert (Hone : List.length r = 1)
      by (rewrite <- (length_rev r), Hrev; reflexivity).
    rewrite Hone in E. discriminate.
  - cbn [app].
    destruct (c1 =? 61)%N; [|reflexivity].
    destruct (c2 =? 61)%N.
    + rewrite rev_app_distr, rev_involutive. reflexivity.
    + change (c2 :: z ++ rev a) with ((c2 :: z) ++ rev a).
      rewrite rev_app_distr, rev_involutive. reflexivity.
Qed.

(** Decoding a text whose head is a whole number of groups: the head and
    the rest decode on their own, to the two parts of the whole. *)
Lemma atob_split (a r : jsstring) (n : nat) (bytes : list N) :
  List.length a = 4 * n -> r <> [] ->
  no_whitespace (a ++ r) ->
  atob (a ++ r) = Some bytes ->
  exists b1 b2, atob a = Some b1 /\ atob r = Some b2 /\ bytes = b1 ++ b2.
Proof.
  intros Hlen Hr Hws H.
  assert (Hwa : no_whitespace a) by (intros c Hc; apply Hws, in_or_app; auto).
  assert (Hwr : no_whitespace r) by (intros c Hc; apply Hws, in_or_app; auto).
  unfold atob in *. cbv zeta in *.
  rewrite (filter_no_whitespace _ Hws) in H.
  rewrite (filter_no_whitespace _ Hwa), (filter_no_whitespace _ Hwr).
  rewrite (strip_padding_app a r n Hlen Hr) in H.
  assert (Hmod : List.length (a ++ strip_padding r) mod 4
                 = List.length (strip_padding r) mod 4).
  { rewrite length_app, Hlen.
    rewrite Nat.add_comm, Nat.mul_comm. apply Nat.Div0.mod_add. }
  rewrite Hmod in H.
  destruct (Nat.eqb (List.length (strip_padding r) mod 4) 1); [discriminate|].
  rewrite sextets_app in H.
  destruct (sextets a) as [la|] eqn:Ha; [|discriminate].
  destruct (sextets (strip_padding r)) as [lr|] eqn:Hlr; [|discriminate].
  injection H as <-.
  rewrite (strip_padding_alphabet a la Ha).
  assert (Hla : List.length la = 4 * n)
    by (rewrite (sextets_length a la Ha); exact Hlen).
  assert (Hm1 : Nat.eqb (List.length a mod 4) 1 = false).
  { rewrite Hlen, Nat.mul_comm, Nat.Div0.mod_mul. reflexivity. }
  rewrite Hm1, Ha.
  exists (decode_sextets la), (decode_sextets lr).
  split; [reflexivity|]. split; [reflexivity|].
  apply (decode_sextets_app n). exact Hla.
Qed.

Lemma atob_empty : atob [] = Some [].
Proof. reflexivity. Qed.

Lemma chunks_loop_decodes (base64String : jsstring) (m : nat) :
  no_whitespace base64String ->
  forall fuel position bytes,
    List.length base64String - position < fuel ->
    atob (skipn position base64String) = Some bytes ->
    chunks_loop fuel base64String (4 * S m) position = Some (Some bytes).
Proof.
  intros Hws. induction fuel as [|fuel IH]; intros position bytes Hfuel Hdec; [lia|].
  cbn [chunks_loop].
  destruct (Nat.ltb position (List.length base64String)) eqn:Hlt.
  - apply Nat.ltb_lt in Hlt.
    set (t := skipn position base64String) in *.
    assert (Hwt : no_whitespace t).
    { intros c Hc. apply Hws. unfold t in Hc.
      rewrite <- (firstn_skipn position base64String). apply in_or_app. auto. }
    assert (Hnext : skipn (position + 4 * S m) base64String = skipn (4 * S m) t).
    { unfold t. rewrite skipn_skipn. f_equal. lia. }
    assert (Hlen_t : List.length t = List.length base64String - position)
      by (unfold t; apply length_skipn).
    destruct (skipn (4 * S m) t) as [|c rest] eqn:Hrest.
    + assert (Hall : firstn (4 * S m) t = t).
      { rewrite <- (firstn_skipn (4 * S m) t) at 2.
        rewrite Hrest, app_nil_r. reflexivity. }
      rewrite Hall, Hdec.
      rewrite (IH (position + 4 * S m) []).
      * rewrite app_nil_r. reflexivity.
      * lia.
      * rewrite Hnext. reflexivity.
    + assert (Hsplit : t = firstn (4 * S m) t ++ (c :: rest))
        by (rewrite <- Hrest; symmetry; apply firstn_skipn).
      assert (Hfull : List.length (firstn (4 * S m) t) = 4 * S m).
      { apply firstn_length_le.
        assert (Hl : List.length (skipn (4 * S m) t) = S (List.length rest))
          by (rewrite Hrest; reflexivity).
        rewrite length_skipn in Hl. lia. }
      assert (Hne : c :: rest <> []) by discriminate.
      rewrite Hsplit in Hdec, Hwt.
      destruct (atob_split _ _ (S m) bytes Hfull Hne Hwt Hdec)
        as (b1 & b2 & H1 & H2 & ->).
      rewrite H1.
      rewrite (IH (position + 4 * S m) b2).
      * reflexivity.
      * lia.
      * rewrite Hnext. exact H2.
  - apply Nat.ltb_ge in Hlt.
    rewrite skipn_all2 in Hdec by exact Hlt.
    rewrite atob_empty in Hdec. injection Hdec as <-. reflexivity.
Qed.

(** With a positive chunk size the loop is left before the fuel is. *)
Lemma chunks_loop_ends (base64String : jsstring) (m : nat) :
  forall fuel position,
    List.length base64String - position < fuel ->
    exists r, chunks_loop fuel base64String (S m) position = Some r.
Proof.
  induction fuel as [|fuel IH]; intros position Hfuel; [lia|].
  cbn [chunks_loop].
  destruct (Nat.ltb position (List.length base64String)) eqn:Hlt;
    [|eexists; reflexivity].
  apply Nat.ltb_lt in Hlt.
  destruct (atob _) as [bytes|]; [|eexists; reflexivity].
  destruct (IH (position + S m)) as [r Hr]; [lia|].
  rewrite Hr. destruct r; eexists; reflexivity.
Qed.

Lemma chunks_end (base64String : jsstring) :
  exists r, processBase64Chunks base64String default_chunkSize = Some r.
Proof.
  unfold processBase64Chunks.
  change default_chunkSize with (S (4 * (64 * 128) - 1)).
  apply chunks_loop_ends. lia.
Qed.

Lemma man_ma_no_whitespace : no_whitespace (lit "TWFuTWE=").
Proof.
  intros c Hc. simpl in Hc.
  repeat (destruct Hc as [<-|Hc]; [reflexivity|]). destruct Hc.
Defined.

(** X25. Decoding in chunks is transparent.  For a text without white
    space that [atob] decodes as a whole, [processBase64Chunks] with any
    chunk size that is a positive multiple of four, the default 32768 in
    particular, ends (the loop never runs out) and returns the same
    bytes. *)
Theorem chunked_decoding_is_whole_decoding (base64String : jsstring)
    (bytes : list N) :
  no_whitespace base64String ->
  atob base64String = Some bytes ->
  (forall m, processBase64Chunks base64String (4 * S m) = Some (Some bytes))
  /\ processBase64Chunks base64String default_chunkSize = Some (Some bytes).
Proof.
  intros Hws Hdec.
  assert (H : forall m, processBase64Chunks base64String (4 * S m)
                        = Some (Some bytes)).
  { intros m. unfold processBase64Chunks.
    apply (chunks_loop_decodes base64String m Hws); [lia|exact Hdec]. }
  split; [exact H|].
  exact (H (64 * 128 - 1)).
Qed.

Lemma chunked_decoding_is_whole_decoding_witness :
  no_whitespace (lit "TWFuTWE=")
  /\ atob (lit "TWFuTWE=") = Some [77; 97; 110; 77; 97]%N
  /\ processBase64Chunks (lit "TWFuTWE=") 4 = Some (Some [77; 97; 110; 77; 97]%N)
  /\ processBase64Chunks (lit "TWFuTWE=") default_chunkSize
     = Some (Some [77; 97; 110; 77; 97]%N).
Proof.
  split; [exact man_ma_no_whitespace|]. split; [reflexivity|].
  split.
  - exact (proj1 (chunked_decoding_is_whole_decoding (lit "TWFuTWE=")
                    [77; 97; 110; 77; 97]%N man_ma_no_whitespace eq_refl) 0).
  - exact (proj2 (chunked_decoding_is_whole_decoding (lit "TWFuTWE=")
                    [77; 97; 110; 77; 97]%N man_ma_no_whitespace eq_refl)).
Defined.

End Base64Facts.

(* ================================================================== *)
(** * The transcription functions: what the vendor gets to see *)
(* ================================================================== *)

Module TranscribeServeFacts.
Import Js JsValues Transcribe Base64 PollVerdict TranscribeServe.
Import TranscribeFacts PollFacts Base64Facts.

Lemma send_calls (maxAttempts : nat) (bytes : list N) (ai : AssemblyAI) :
  exists served calls,
    send maxAttempts bytes ai = Some (served, calls)
    /\ uploaded calls = [bytes]
    /\ List.length (jobs calls) <= 1
    /\ status_requests calls <= maxAttempts.
Proof.
  unfold send.
  destruct (upload ai bytes) as [msg|ok err [j|]];
    try (eexists; eexists; split; [reflexivity|]; simpl; repeat split; lia).
  - destruct ok; cbn [negb];
      [|eexists; eexists; split; [reflexivity|]; simpl; repeat split; lia].
    destruct (destructure (lit "upload_url") j) as [url|typeError];
      [|eexists; eexists; split; [reflexivity|]; simpl; repeat split; lia].
    destruct (create_job ai url) as [msg|ok2 err2 [j2|]];
      try (eexists; eexists; split; [reflexivity|]; simpl; repeat split; lia).
    + destruct ok2; cbn [negb];
        [|eexists; eexists; split; [reflexivity|]; simpl; repeat split; lia].
      destruct (destructure (lit "id") j2) as [id|typeError];
        [|eexists; eexists; split; [reflexivity|]; simpl; repeat split; lia].
      destruct (poll_total maxAttempts (job_status ai)) as (r & st & Hrun & Hreq & _).
      rewrite Hrun.
      eexists; eexists; split; [reflexivity|]; simpl; repeat split; lia.
    + destruct ok2; eexists; eexists; split; try reflexivity;
        simpl; repeat split; lia.
  - destruct ok; eexists; eexists; split; try reflexivity;
      simpl; repeat split; lia.
Qed.

Lemma items_loop_ends (Number_toString : Z -> jsstring) (items : list Json)
    (m : nat) :
  forall fuel position,
    List.length items - position < fuel ->
    exists r, items_loop Number_toString fuel items (S m) position = Some r.
Proof.
  induction fuel as [|fuel IH]; intros position Hfuel; [lia|].
  cbn [items_loop].
  destruct (Nat.ltb position (List.length items)) eqn:Hlt;
    [|eexists; reflexivity].
  apply Nat.ltb_lt in Hlt.
  destruct (atob _) as [bytes|]; [|eexists; reflexivity].
  destruct (IH (position + S m)) as [r Hr]; [lia|].
  rewrite Hr. destruct r; eexists; reflexivity.
Qed.

(** The decoding step of [transcribe-audio] ends, whatever it is given. *)
Lemma decode_audio_ends (Number_toString : Z -> jsstring)
    (positive_number : jsstring -> bool) (audio : Value) :
  exists r, decode_audio Number_toString positive_number audio = Some r.
Proof.
  destruct audio as [[|b|n|s|items|fields]|]; unfold decode_audio;
    try (eexists; reflexivity).
  - destruct (chunks_end s) as [[r|] ->]; eexists; reflexivity.
  - change default_chunkSize with (S (4 * (64 * 128) - 1)).
    destruct (items_loop_ends Number_toString items (4 * (64 * 128) - 1)
                (S (List.length items)) 0) as [[r|] ->];
      [lia| |]; eexists; reflexivity.
  - destruct (zero_less_than _ _ _); eexists; reflexivity.
Qed.

Lemma truthy_value_some (v : Value) :
  truthy_value v = true -> exists j, v = Some j.
Proof. destruct v as [j|]; [exists j; reflexivity|discriminate]. Qed.

(** X26. Both functions always answer, and the vendor is contacted only
    for a request that is no preflight, whose body is JSON with a truthy
    audio member, with the key set, and after the decoding step returned:
    what is uploaded is then exactly what that step returned, once,
    followed by at most one job creation and at most 30 (60) status
    requests.  For audio that is a string this is the decoded base64 text.
    The audio is not checked to be a string: [transcribe-audio] given a
    number or [true] skips its decoding loop and uploads an empty body. *)
Theorem vendor_sees_only_decoded_audio (Number_toString : Z -> jsstring)
    (positive_number : jsstring -> bool) (method : jsstring)
    (json : RequestJson) (key : option jsstring) (ai : AssemblyAI) :
  (exists served calls,
     serve_assemblyai Number_toString method json key ai = Some (served, calls)
     /\ (contacted calls = true ->
         jsstring_eqb method (lit "OPTIONS") = false
         /\ exists j audio bytes,
              json = Body j
              /\ destructure (lit "audioBase64") j = inl (Some audio)
              /\ truthy_value (Some audio) = true
              /\ present key = true
              /\ atob (ToString Number_toString audio) = Some bytes
              /\ (forall s, audio = JStr s -> atob s = Some bytes)
              /\ uploaded calls = [bytes]
              /\ List.length (jobs calls) <= 1
              /\ status_requests calls <= 30))
  /\ (exists served calls,
        serve_audio Number_toString positive_number method json key ai
        = Some (served, calls)
        /\ (contacted calls = true ->
            jsstring_eqb method (lit "OPTIONS") = false
            /\ exists j audio bytes,
                 json = Body j
                 /\ destructure (lit "audio") j = inl (Some audio)
                 /\ truthy_value (Some audio) = true
                 /\ present key = true
                 /\ decode_audio Number_toString positive_number (Some audio)
                    = Some (inl bytes)
                 /\ (forall s, audio = JStr s ->
                       processBase64Chunks s default_chunkSize = Some (Some bytes))
                 /\ (forall n, audio = JNum n -> bytes = [])
                 /\ (forall b, audio = JBool b -> bytes = [])
                 /\ uploaded calls = [bytes]
                 /\ List.length (jobs calls) <= 1
                 /\ status_requests calls <= 60)).
Proof.
  split.
  - unfold serve_assemblyai.
    destruct (jsstring_eqb method (lit "OPTIONS"));
      [eexists; eexists; split; [reflexivity|discriminate]|].
    destruct json as [msg|j];
      [eexists; eexists; split; [reflexivity|discriminate]|].
    destruct (destructure (lit "audioBase64") j) as [v|typeError] eqn:Hm;
      [|eexists; eexists; split; [reflexivity|discriminate]].
    destruct (truthy_value v) eqn:Ha; cbn [negb];
      [|eexists; eexists; split; [reflexivity|discriminate]].
    destruct (truthy_value_some v Ha) as [audio ->].
    destruct (present key) eqn:Hk; cbn [negb];
      [|eexists; eexists; split; [reflexivity|discriminate]].
    cbn [ToString_value].
    destruct (atob (ToString Number_toString audio)) as [bytes|] eqn:Hd;
      [|eexists; eexists; split; [reflexivity|discriminate]].
    destruct (send_calls 30 bytes ai) as (served & calls & Hs & Hu & Hj & Hq).
    exists served, calls. split; [exact Hs|]. intros _.
    split; [reflexivity|].
    exists j, audio, bytes. repeat split; try assumption.
    intros s ->. exact Hd.
  - unfold serve_audio.
    destruct (jsstring_eqb method (lit "OPTIONS"));
      [eexists; eexists; split; [reflexivity|discriminate]|].
    destruct json as [msg|j];
      [eexists; eexists; split; [reflexivity|discriminate]|].
    destruct (destructure (lit "audio") j) as [v|typeError] eqn:Hm;
      [|eexists; eexists; split; [reflexivity|discriminate]].
    destruct (truthy_value v) eqn:Ha; cbn [negb];
      [|eexists; eexists; split; [reflexivity|discriminate]].
    destruct (truthy_value_some v Ha) as [audio ->].
    destruct (decode_audio_ends Number_toString positive_number (Some audio))
      as [r Hr].
    rewrite Hr.
    destruct r as [bytes|msg];
      [|eexists; eexists; split; [reflexivity|discriminate]].
    destruct (present key) eqn:Hk; cbn [negb];
      [|eexists; eexists; split; [reflexivity|discriminate]].
    destruct (send_calls 60 bytes ai) as (served & calls & Hs & Hu & Hj & Hq).
    exists served, calls. split; [exact Hs|]. intros _.
    split; [reflexivity|].
    exists j, audio, bytes.
    split; [reflexivity|]. split; [exact Hm|]. split; [exact Ha|].
    split; [reflexivity|]. split; [exact Hr|].
    split.
    { intros s ->. unfold decode_audio in Hr.
      destruct (processBase64Chunks s default_chunkSize) as [[b|]|];
        simpl in Hr; congruence. }
    split; [intros n ->; unfold decode_audio in Hr; congruence|].
    split; [intros b ->; unfold decode_audio in Hr; congruence|].
    repeat split; assumption.
Qed.

Lemma vendor_sees_only_decoded_audio_witness :
  serve_assemblyai no_numbers (lit "POST")
    (Body (JObj [(lit "audioBase64", JStr man_ma)])) (Some (lit "key-1")) helpful
  = Some (Answered (mkResponse 200 (BodyText (Some (lit "Patient reports headache.")))),
          mkCalls [[77; 97; 110; 77; 97]%N]
            [Some (JStr (lit "https://cdn.assemblyai.com/upload/1"))] 3)
  /\ atob man_ma = Some [77; 97; 110; 77; 97]%N
  /\ exists served,
       serve_audio no_numbers never_positive (lit "POST")
         (Body (JObj [(lit "audio", JNum 12345)])) (Some (lit "key-1")) helpful
       = Some (served,
               mkCalls [[]]
                 [Some (JStr (lit "https://cdn.assemblyai.com/upload/1"))] 3).
Proof.
  assert (Hrun : serve_assemblyai no_numbers (lit "POST")
                   (Body (JObj [(lit "audioBase64", JStr man_ma)]))
                   (Some (lit "key-1")) helpful
                 = Some (Answered (mkResponse 200
                                     (BodyText (Some (lit "Patient reports headache.")))),
                         mkCalls [[77; 97; 110; 77; 97]%N]
                           [Some (JStr (lit "https://cdn.assemblyai.com/upload/1"))] 3))
    by (vm_compute; reflexivity).
  split; [exact Hrun|].
  destruct (proj1 (vendor_sees_only_decoded_audio no_numbers never_positive
                     (lit "POST") (Body (JObj [(lit "audioBase64", JStr man_ma)]))
                     (Some (lit "key-1")) helpful))
    as (served & calls & Hs & Hc).
  rewrite Hrun in Hs. injection Hs as <- <-.
  destruct (Hc eq_refl) as (_ & j & audio & bytes & Hj & Hm & _ & _ & _ & Hstr & Hu & _).
  injection Hj as <-. injection Hm as <-. injection Hu as <-.
  split; [exact (Hstr man_ma eq_refl)|].
  eexists. vm_compute. reflexivity.
Defined.

End TranscribeServeFacts.

(* ================================================================== *)
(** * Capture: the flags, the recorder and the clock agree *)
(* ================================================================== *)

Module CaptureFacts.
Import Js Eff Ui Capture.

Ltac run_capture :=
  cbv beta iota zeta delta
    [handle startRecording pauseRecording resumeRecording stopRecording
     ondataavailable onstop tick startTimer stopTimer
     recorder_pause recorder_resume
     bind ret throw modify gets try_catch try_finally update
     setIsRecording setIsPaused setRecordingTime setHasRecording
     set_recorder set_chunks set_timer set_streams toast transcribeAudio
     isRecording isPaused recordingTime hasRecording mediaRecorder mimeType
     chunks timerRef intervals live_streams stop_due toasts transcribed
     audio_mpeg audio_mp3 audio_webm_opus
     enabled running consistent fst snd negb andb orb pred].

(** One enabled event from a consistent state: the handler does not
    throw, and the state stays consistent. *)
Lemma step_consistent (e : Event) (c : Component) :
  consistent c -> enabled e c = true ->
  fst (handle e c) = Normal tt /\ consistent (snd (handle e c)).
Proof.
  destruct c as [on held time has rec mime parts ref n live due ts sent].
  unfold consistent, running. simpl.
  intros (Href & Hn & Hheld & Hon & Hoff) Hen.
  destruct on.
  - (* recording *)
    destruct (Hon eq_refl) as [Hrec Hdue]. subst rec due. clear Hon Hoff Hheld.
    destruct held; simpl in Href, Hn; subst ref n;
      destruct e as [[|[mpeg mp3 webm]]| | | | |data|]; simpl in Hen;
      try discriminate Hen; run_capture;
      try destruct (Nat.ltb 0 (List.length (blob_bytes data)));
      (split; [reflexivity|]);
      repeat match goal with
             | |- _ /\ _ => split
             | |- _ -> _ => intro
             end; try discriminate; auto.
  - (* not recording *)
    assert (held = false)
      by (destruct held; [specialize (Hheld eq_refl); discriminate|reflexivity]).
    subst held. simpl in Href, Hn. subst ref n. clear Hon Hheld.
    destruct (Hoff eq_refl) as [Hrec|Hrec]; subst rec; clear Hoff;
      destruct e as [[|[mpeg mp3 webm]]| | | | |data|]; simpl in Hen;
      try discriminate Hen;
      try (apply negb_true_iff in Hen; subst due);
      try (subst due);
      try destruct mpeg; try destruct mp3; try destruct webm;
      run_capture;
      try destruct (Nat.ltb 0 (List.length (blob_bytes data)));
      (split; [reflexivity|]);
      repeat match goal with
             | |- _ /\ _ => split
             | |- _ -> _ => intro
             end; try discriminate; auto.
Qed.

Lemma initial_consistent : consistent initial.
Proof.
  unfold consistent, running. simpl.
  repeat split; auto; discriminate.
Qed.

(** X27. The capture state machine, as long as the recorder stops only
    when [stopRecording] stops it.  In every state the component can reach
    through the buttons it renders and the events of the platform, the
    flags, the recorder and the clock agree: the recorder is recording
    exactly when [isRecording] is on and [isPaused] off, paused exactly
    when both are on, and otherwise absent or inactive; exactly one
    interval runs while recording and not paused and none otherwise (no
    second or leftover timer), so a tick can only come while the recording
    runs; and no button the component offers makes a handler throw.
    The condition is needed: when the platform stops a running recording
    on its own (every track of the stream has ended), [onstop] hands the
    recording to transcription but resets neither [isRecording] nor the
    timer, so the clock keeps running over an inactive recorder, Pause is
    still offered, and [pauseRecording] then throws. *)
Theorem capture_stays_consistent (c : Component) :
  reachable c ->
  consistent c
  /\ (enabled Tick c = true <-> running c = true)
  /\ (forall e, enabled e c = true -> fst (handle e c) = Normal tt)
  /\ (running c = true ->
      isRecording (stopped_by_platform c) = true
      /\ mediaRecorder (stopped_by_platform c) = Some inactive
      /\ enabled Tick (stopped_by_platform c) = true
      /\ List.length (transcribed (stopped_by_platform c))
         = S (List.length (transcribed c))
      /\ enabled ClickPause (stopped_by_platform c) = true
      /\ fst (handle ClickPause (stopped_by_platform c)) = Throw InvalidStateError).
Proof.
  intros Hreach.
  assert (Hc : consistent c).
  { induction Hreach as [|e c Hreach IH Hen].
    - exact initial_consistent.
    - exact (proj2 (step_consistent e c IH Hen)). }
  split; [exact Hc|]. split.
  - destruct Hc as (_ & Hn & _). simpl. rewrite Hn.
    destruct (running c); split; auto; discriminate.
  - split.
    + intros e Hen. exact (proj1 (step_consistent e c Hc Hen)).
    + destruct c as [on held time has rec mime parts ref n live due ts sent].
      unfold consistent, running in *. simpl in *.
      destruct Hc as (Href & Hn & _ & Hon & _).
      intros Hrun. apply andb_true_iff in Hrun. destruct Hrun as [Ho Hh].
      apply negb_true_iff in Hh. subst on held.
      destruct (Hon eq_refl) as [Hrec Hdue]. simpl in Hrec, Hn. subst rec n.
      unfold stopped_by_platform, tracks_end. run_capture.
      rewrite length_app. simpl.
      repeat split; try reflexivity. lia.
Qed.

Lemma capture_stays_consistent_witness :
  reachable (snd (handle ClickPause (snd (handle (ClickStart (Granted chrome)) initial))))
  /\ enabled Tick (snd (handle ClickPause (snd (handle (ClickStart (Granted chrome)) initial))))
     = false
  /\ fst (handle ClickResume
            (snd (handle ClickPause (snd (handle (ClickStart (Granted chrome)) initial)))))
     = Normal tt
  /\ reachable (snd (handle (ClickStart (Granted chrome)) initial))
  /\ running (snd (handle (ClickStart (Granted chrome)) initial)) = true
  /\ fst (handle ClickPause
            (stopped_by_platform (snd (handle (ClickStart (Granted chrome)) initial))))
     = Throw InvalidStateError.
Proof.
  assert (H1 : reachable (snd (handle (ClickStart (Granted chrome)) initial))).
  { apply reach_step; [apply reach_initial|reflexivity]. }
  assert (H : reachable (snd (handle ClickPause
                (snd (handle (ClickStart (Granted chrome)) initial))))).
  { apply reach_step; [exact H1|reflexivity]. }
  split; [exact H|]. split; [reflexivity|].
  split; [exact (proj1 (proj2 (proj2 (capture_stays_consistent _ H)))
                   ClickResume eq_refl)|].
  split; [exact H1|]. split; [reflexivity|].
  destruct (proj2 (proj2 (proj2 (capture_stays_consistent _ H1))) eq_refl)
    as (_ & _ & _ & _ & _ & Hthrow).
  exact Hthrow.
Defined.

(** X28. A start that fails.  When the microphone is refused, nothing
    changes but one error toast.  When it is granted but the format the
    component picks cannot be recorded (the browser reports [audio/mp3]
    but not [audio/mpeg], which is then picked all the same, or it has
    neither MP3 nor WebM/Opus), the same toast is shown and no recording
    starts, but the stream that was opened stays open: the count of live
    streams has gone up by one and nothing will stop it. *)
Theorem failed_start (c : Component) (support : Support) :
  snd (startRecording Denied c)
  = mkComponent (isRecording c) (isPaused c) (recordingTime c) (hasRecording c)
      (mediaRecorder c) (mimeType c) (chunks c) (timerRef c) (intervals c)
      (live_streams c) (stop_due c) (toasts c ++ [recording_error])
      (transcribed c)
  /\ ((if audio_mpeg support || audio_mp3 support then audio_mpeg support
       else audio_webm_opus support) = false ->
      snd (startRecording (Granted support) c)
      = mkComponent (isRecording c) (isPaused c) (recordingTime c)
          (hasRecording c) (mediaRecorder c) (mimeType c) (chunks c)
          (timerRef c) (intervals c) (S (live_streams c)) (stop_due c)
          (toasts c ++ [recording_error]) (transcribed c)).
Proof.
  destruct c as [on held time has rec mime parts ref n live due ts sent].
  split; [reflexivity|].
  destruct support as [mpeg mp3 webm]. simpl.
  destruct mpeg, mp3, webm; simpl; intros H; try discriminate; reflexivity.
Qed.

Lemma failed_start_witness :
  (if audio_mpeg only_mp3 || audio_mp3 only_mp3 then audio_mpeg only_mp3
   else audio_webm_opus only_mp3) = false
  /\ live_streams (snd (startRecording (Granted only_mp3) initial)) = 1
  /\ isRecording (snd (startRecording (Granted only_mp3) initial)) = false.
Proof.
  split; [reflexivity|].
  rewrite (proj2 (failed_start initial only_mp3) eq_refl).
  split; reflexivity.
Defined.

Lemma delivered_snoc (tr : list Event) (e : Event) :
  forall acc, delivered (tr ++ [e]) acc = delivered [e] (delivered tr acc).
Proof.
  induction tr as [|x tr IH]; intros acc; [reflexivity|].
  destruct x as [[|support]| | | | |data|]; simpl; apply IH.
Qed.

Lemma empty_blob (data : Blob) :
  Nat.ltb 0 (List.length (blob_bytes data)) = false -> blob_bytes data = [].
Proof.
  destruct (blob_bytes data); [reflexivity|discriminate].
Qed.

Lemma chunks_are_delivered (tr : list Event) (c : Component) :
  runs tr c -> List.concat (map blob_bytes (chunks c)) = delivered tr [].
Proof.
  induction 1 as [|tr e c Hruns IH Hen]; [reflexivity|].
  rewrite delivered_snoc. rewrite <- IH. clear IH Hruns Hen.
  destruct c as [on held time has rec mime parts ref n live due ts sent].
  destruct e as [[|[mpeg mp3 webm]]| | | | |data|];
    try (destruct rec as [[]|]; destruct on, held, ref; reflexivity).
  - destruct mpeg, mp3, webm; reflexivity.
  - run_capture. cbn [delivered].
    destruct (Nat.ltb 0 (List.length (blob_bytes data))) eqn:E; simpl.
    + rewrite map_app, concat_app. simpl. rewrite app_nil_r. reflexivity.
    + rewrite (empty_blob data E), app_nil_r. reflexivity.
Qed.

(** X29. No audio is lost.  Whatever the user and the platform did since
    the component was created (pauses, resumes, empty chunks), the
    recording handed to transcription when the [stop] event arrives holds
    exactly the bytes delivered since the recording last started, in
    order, under the format chosen at that start; the buffer held at any
    time is those bytes. *)
Theorem recording_holds_all_delivered_audio (tr : list Event) (c : Component) :
  runs tr c ->
  List.concat (map blob_bytes (chunks c)) = delivered tr []
  /\ transcribed (snd (handle StopEvent c))
     = transcribed c ++ [mkBlob (delivered tr []) (mimeType c)].
Proof.
  intros Hruns. pose proof (chunks_are_delivered tr c Hruns) as H.
  split; [exact H|].
  destruct c as [on held time has rec mime parts ref n live due ts sent].
  run_capture. unfold new_Blob. simpl in H. rewrite H. reflexivity.
Qed.

Lemma replay_runs (tr : list Event) :
  forall pre c0 c, runs pre c0 -> replay c0 tr = Some c -> runs (pre ++ tr) c.
Proof.
  induction tr as [|e tr IH]; intros pre c0 c Hpre Hrep; simpl in Hrep.
  - injection Hrep as <-. rewrite app_nil_r. exact Hpre.
  - destruct (enabled e c0) eqn:Hen; [|discriminate].
    change (e :: tr) with ([e] ++ tr). rewrite app_assoc.
    apply (IH (pre ++ [e]) (snd (handle e c0)) c); [|exact Hrep].
    apply runs_snoc; assumption.
Defined.

Lemma recording_holds_all_delivered_audio_witness :
  runs session after_session
  /\ transcribed (snd (handle StopEvent after_session))
     = [mkBlob [1; 2; 3; 4]%N (lit "audio/webm;codecs=opus")].
Proof.
  assert (Hrep : replay initial session = Some after_session)
    by (vm_compute; reflexivity).
  assert (H : runs session after_session)
    by (exact (replay_runs session [] initial after_session runs_nil Hrep)).
  split; [exact H|].
  pose proof (proj2 (recording_holds_all_delivered_audio
                       session after_session H)) as Hblob.
  vm_compute in Hblob. vm_compute. exact Hblob.
Defined.

End CaptureFacts.
